(** * Lumor photo-sharing backend: the content access rules

    A shallow embedding of the access-control code of the backend
    (permission utilities, friend, sharing and permission models and
    services) and the properties of it that the design document states.

    The relational store is a record of tables, each table a list of rows
    in storage order; an SQL query is the list expression it denotes
    (WHERE is [filter], a join is [flat_map], [rows[0]] is the head).
    Code that throws returns an [Outcome]; code that writes threads the
    store explicitly. *)

From Stdlib Require Import ZArith List String Ascii Bool Lia DecimalString.
Import ListNotations.
Local Open Scope Z_scope.

(* ===================================================================== *)
(** ** JavaScript values *)
(* ===================================================================== *)

Module Js.

(** The values that flow through the modelled code: columns of a result
    row, request parameters, and [undefined] for a property that an
    object does not have. *)
Inductive JsVal : Type :=
| JsUndefined
| JsNull
| JsBool (b : bool)
| JsNum (n : Z)
| JsStr (s : string).

(** [a === b] *)
Definition strict_eq (a b : JsVal) : bool :=
  match a, b with
  | JsUndefined, JsUndefined => true
  | JsNull, JsNull => true
  | JsBool x, JsBool y => Bool.eqb x y
  | JsNum x, JsNum y => x =? y
  | JsStr x, JsStr y => String.eqb x y
  | _, _ => false
  end.

(** [a !== b] *)
Definition strict_neq (a b : JsVal) : bool := negb (strict_eq a b).

(** Truthiness, as used by [if (x)], [!x], [x || y] and [x && y]. *)
Definition truthy (v : JsVal) : bool :=
  match v with
  | JsUndefined | JsNull => false
  | JsBool b => b
  | JsNum n => negb (n =? 0)
  | JsStr s => negb (String.eqb s EmptyString)
  end.

(** An object literal or a result row: its own properties in order. *)
Definition JsObj : Type := list (string * JsVal).

(** [o.k]: the value of property [k], [undefined] when [o] has none. *)
Fixpoint prop (o : JsObj) (k : string) : JsVal :=
  match o with
  | [] => JsUndefined
  | (k', v) :: rest => if String.eqb k' k then v else prop rest k
  end.

(** SQL NULL is delivered as [null]. *)
Definition of_int (x : option Z) : JsVal :=
  match x with Some n => JsNum n | None => JsNull end.

Definition of_text (x : option string) : JsVal :=
  match x with Some s => JsStr s | None => JsNull end.

(** Number to string conversion of an integer, as in a template literal
    or [Array.prototype.join]. *)
Definition string_of_Z (n : Z) : string :=
  NilZero.string_of_int (Z.to_int n).

(** [xs.join(sep)] on an array of integers. *)
Fixpoint join (sep : string) (xs : list Z) : string :=
  match xs with
  | [] => EmptyString
  | [x] => string_of_Z x
  | x :: rest => String.append (string_of_Z x) (String.append sep (join sep rest))
  end.

(** [s] between double quotes. *)
Definition quoted (s : string) : string :=
  String "034"%char (String.append s (String "034"%char EmptyString)).

(** The result of code that may throw an [Error] with a message. *)
Inductive Outcome (A : Type) : Type :=
| Ok (a : A)
| Throw (message : string).
Arguments Ok {A} a.
Arguments Throw {A} message.

End Js.
Import Js.

(* ===================================================================== *)
(** ** The store *)
(* ===================================================================== *)

Module Db.

(** Rows carry the columns that the modelled queries read or write.
    Timestamps are integers; a nullable column is an [option]. *)

Record User : Type := {
  u_id : Z;
  u_username : string;
  u_display_name : option string;
  u_auto_sync_permission_type : option string;
  u_auto_sync_custom_group_id : option Z
}.

(** A user as registration leaves it: no display name, the column
    defaults for the rest. *)
Definition new_user (id : Z) (username : string) : User := {|
  u_id := id; u_username := username; u_display_name := None;
  u_auto_sync_permission_type := Some "friends"%string;
  u_auto_sync_custom_group_id := None
|}.

Record Friendship : Type := {
  f_id : Z;
  f_requester_id : Z;
  f_addressee_id : Z;
  f_status : string
}.

(** [access_permissions]: the custom groups a photo refers to. *)
Record AccessPermission : Type := {
  ap_id : Z;
  ap_user_id : Z;
  ap_group_name : string;
  ap_allowed_user_ids : option (list Z)
}.

Record Photo : Type := {
  p_id : Z;
  p_user_id : Z;
  p_filename : string;
  p_permission_type : option string;
  p_custom_group_id : option Z;
  p_is_deleted : bool
}.

Record Album : Type := {
  a_id : Z;
  a_user_id : Z;
  a_name : string;
  a_privacy_type : option string
}.

Record AlbumPhoto : Type := {
  alp_album_id : Z;
  alp_photo_id : Z
}.

(** [photo_shares].  The sharing model names the two user columns
    [shared_by] and [shared_with]; the permission utilities name them
    [sharer_id] and [recipient_id].  They are the same two columns. *)
Record PhotoShare : Type := {
  ps_id : Z;
  ps_shared_by : Z;
  ps_shared_with : Z;
  ps_photo_id : option Z;
  ps_album_id : option Z;
  ps_permission_level : string;
  ps_expires_at : option Z;
  ps_is_active : bool;
  ps_created_at : Z
}.

Record AlbumShare : Type := {
  als_id : Z;
  als_shared_by : Z;
  als_shared_with : Z;
  als_album_id : Z;
  als_permission_level : string;
  als_expires_at : option Z;
  als_is_active : bool;
  als_created_at : Z
}.

Record PermissionGroup : Type := {
  pg_id : Z;
  pg_owner_id : Z;
  pg_name : string;
  pg_description : option string;
  pg_is_active : bool
}.

Record PermissionGroupMember : Type := {
  pgm_group_id : Z;
  pgm_user_id : Z;
  pgm_added_at : Z
}.

Record DB : Type := {
  users : list User;
  friendships : list Friendship;
  friendships_seq : Z;
  access_permissions : list AccessPermission;
  photos : list Photo;
  albums : list Album;
  album_photos : list AlbumPhoto;
  photo_shares : list PhotoShare;
  album_shares : list AlbumShare;
  permission_groups : list PermissionGroup;
  permission_groups_seq : Z;
  permission_group_members : list PermissionGroupMember
}.

Definition empty : DB := {|
  users := []; friendships := []; friendships_seq := 1;
  access_permissions := []; photos := []; albums := [];
  album_photos := []; photo_shares := []; album_shares := [];
  permission_groups := []; permission_groups_seq := 1;
  permission_group_members := []
|}.

Definition with_friendships (fs : list Friendship) (seq : Z) (db : DB) : DB := {|
  users := users db; friendships := fs; friendships_seq := seq;
  access_permissions := access_permissions db; photos := photos db;
  albums := albums db; album_photos := album_photos db;
  photo_shares := photo_shares db; album_shares := album_shares db;
  permission_groups := permission_groups db;
  permission_groups_seq := permission_groups_seq db;
  permission_group_members := permission_group_members db
|}.

Definition with_shares (ps : list PhotoShare) (als : list AlbumShare) (db : DB) : DB := {|
  users := users db; friendships := friendships db;
  friendships_seq := friendships_seq db;
  access_permissions := access_permissions db; photos := photos db;
  albums := albums db; album_photos := album_photos db;
  photo_shares := ps; album_shares := als;
  permission_groups := permission_groups db;
  permission_groups_seq := permission_groups_seq db;
  permission_group_members := permission_group_members db
|}.

Definition with_users (us : list User) (db : DB) : DB := {|
  users := us; friendships := friendships db;
  friendships_seq := friendships_seq db;
  access_permissions := access_permissions db; photos := photos db;
  albums := albums db; album_photos := album_photos db;
  photo_shares := photo_shares db; album_shares := album_shares db;
  permission_groups := permission_groups db;
  permission_groups_seq := permission_groups_seq db;
  permission_group_members := permission_group_members db
|}.

Definition with_albums (al : list Album) (alp : list AlbumPhoto) (db : DB) : DB := {|
  users := users db; friendships := friendships db;
  friendships_seq := friendships_seq db;
  access_permissions := access_permissions db; photos := photos db;
  albums := al; album_photos := alp;
  photo_shares := photo_shares db; album_shares := album_shares db;
  permission_groups := permission_groups db;
  permission_groups_seq := permission_groups_seq db;
  permission_group_members := permission_group_members db
|}.

Definition with_groups (gs : list PermissionGroup) (seq : Z)
    (ms : list PermissionGroupMember) (db : DB) : DB := {|
  users := users db; friendships := friendships db;
  friendships_seq := friendships_seq db;
  access_permissions := access_permissions db; photos := photos db;
  albums := albums db; album_photos := album_photos db;
  photo_shares := photo_shares db; album_shares := album_shares db;
  permission_groups := gs; permission_groups_seq := seq;
  permission_group_members := ms
|}.

(** [x = ANY(xs)] and [xs.includes(x)] on integers. *)
Definition includes (xs : list Z) (x : Z) : bool := existsb (Z.eqb x) xs.

(** [ORDER BY key DESC]: insertion sort, rows with equal keys kept in
    the order they arrive in. *)
Fixpoint insert_desc {A : Type} (key : A -> Z) (x : A) (l : list A) : list A :=
  match l with
  | [] => [x]
  | y :: rest => if key y <? key x then x :: y :: rest
                 else y :: insert_desc key x rest
  end.

Definition order_by_desc {A : Type} (key : A -> Z) (l : list A) : list A :=
  fold_left (fun acc x => insert_desc key x acc) l [].

(** [LIMIT limit OFFSET offset]; a negative bound is an error of the
    database, which the caller sees as a thrown error. *)
Definition limit_offset {A : Type} (limit offset : Z) (l : list A) : Outcome (list A) :=
  if limit <? 0 then Throw "LIMIT must not be negative"
  else if offset <? 0 then Throw "OFFSET must not be negative"
  else Ok (firstn (Z.to_nat limit) (skipn (Z.to_nat offset) l)).

(** [col = $n] for a nullable integer column: NULL matches nothing. *)
Definition col_eq (c : option Z) (x : Z) : bool :=
  match c with Some v => v =? x | None => false end.

(** [expires_at IS NULL OR expires_at > CURRENT_TIMESTAMP] *)
Definition unexpired (now : Z) (expires_at : option Z) : bool :=
  match expires_at with None => true | Some t => now <? t end.

End Db.
Import Db.

(* ===================================================================== *)
(** ** utils/permission.utils.js *)
(* ===================================================================== *)

Module PermissionUtils.

Record PermissionResult : Type := {
  hasPermission : bool;
  reason : string
}.

(** [SELECT 1 FROM friendships WHERE ((requester_id = $1 AND
    addressee_id = $2) OR (requester_id = $2 AND addressee_id = $1))
    AND status = 'accepted'], then [rows.length > 0]. *)
Definition areFriends (db : DB) (userId1 userId2 : Z) : bool :=
  let rows :=
    filter (fun f =>
      (((f_requester_id f =? userId1) && (f_addressee_id f =? userId2))
       || ((f_requester_id f =? userId2) && (f_addressee_id f =? userId1)))
      && String.eqb (f_status f) "accepted")
    (friendships db) in
  (0 <? Z.of_nat (List.length rows)).

Definition checkPhotoPermission (db : DB) (currentUserId photoOwnerId : Z)
    (permissionType : JsVal) (customGroupId : option Z) : PermissionResult :=
  if currentUserId =? photoOwnerId then
    {| hasPermission := true; reason := "Owner access" |}
  else if strict_eq permissionType (JsStr "public") then
    {| hasPermission := true; reason := "Public access" |}
  else if strict_eq permissionType (JsStr "friends")
       || strict_eq permissionType (JsStr "close_friends") then
    let isFriend := areFriends db currentUserId photoOwnerId in
    {| hasPermission := isFriend;
       reason := if isFriend then "Friend access" else "Not friends" |}
  else if strict_eq permissionType (JsStr "custom") then
    if negb (truthy (of_int customGroupId)) then
      {| hasPermission := false; reason := "Custom group ID required" |}
    else
      let customGroupResult :=
        filter (fun r => col_eq customGroupId (ap_id r)
                         && (ap_user_id r =? photoOwnerId))
               (access_permissions db) in
      match customGroupResult with
      | [] => {| hasPermission := false; reason := "Custom group not found" |}
      | row :: _ =>
          let allowedUserIds :=
            match ap_allowed_user_ids row with Some l => l | None => [] end in
          let hasAccess := includes allowedUserIds currentUserId in
          {| hasPermission := hasAccess;
             reason := if hasAccess then "Custom group access"
                       else "Not in custom group" |}
      end
  else
    {| hasPermission := false; reason := "Invalid permission type" |}.

Record AlbumPermissionResult : Type := {
  album_hasPermission : bool;
  album_reason : string;
  album : option Album
}.

Definition checkAlbumPermission (db : DB) (now : Z) (currentUserId albumId : Z)
    : AlbumPermissionResult :=
  let albumResult :=
    flat_map (fun a =>
      map (fun _ : User => a)
          (filter (fun u => u_id u =? a_user_id a) (users db)))
      (filter (fun a => a_id a =? albumId) (albums db)) in
  match albumResult with
  | [] => {| album_hasPermission := false; album_reason := "Album not found";
             album := None |}
  | alb :: _ =>
      if a_user_id alb =? currentUserId then
        {| album_hasPermission := true; album_reason := "Owner access";
           album := Some alb |}
      else
        let shareResult :=
          filter (fun s =>
            (ps_shared_by s =? a_user_id alb)
            && (ps_shared_with s =? currentUserId)
            && col_eq (ps_album_id s) albumId
            && ps_is_active s
            && unexpired now (ps_expires_at s))
          (photo_shares db) in
        if 0 <? Z.of_nat (List.length shareResult) then
          {| album_hasPermission := true; album_reason := "Shared access";
             album := Some alb |}
        else if strict_eq (of_text (a_privacy_type alb)) (JsStr "private") then
          {| album_hasPermission := false; album_reason := "Private album";
             album := Some alb |}
        else if strict_eq (of_text (a_privacy_type alb)) (JsStr "friends") then
          let isFriend := areFriends db currentUserId (a_user_id alb) in
          {| album_hasPermission := isFriend;
             album_reason := if isFriend then "Friend access" else "Not friends";
             album := Some alb |}
        else if strict_eq (of_text (a_privacy_type alb)) (JsStr "public") then
          {| album_hasPermission := true; album_reason := "Public access";
             album := Some alb |}
        else
          {| album_hasPermission := false; album_reason := "Access denied";
             album := Some alb |}
  end.

Record ShareCheck : Type := {
  canShare : bool;
  canShare_reason : string
}.

Definition canShareWith (db : DB) (sharerId recipientId : Z) : ShareCheck :=
  if sharerId =? recipientId then
    {| canShare := false; canShare_reason := "Cannot share with yourself" |}
  else
    let isFriend := areFriends db sharerId recipientId in
    {| canShare := isFriend;
       canShare_reason := if isFriend then "Can share with friend"
                          else "Can only share with friends" |}.

Record Capabilities : Type := {
  canView : bool;
  canDownload : bool;
  canComment : bool
}.

Definition getPermissionLevel (permissionLevel : JsVal) : Capabilities :=
  if strict_eq permissionLevel (JsStr "view") then
    {| canView := true; canDownload := false; canComment := false |}
  else if strict_eq permissionLevel (JsStr "download") then
    {| canView := true; canDownload := true; canComment := false |}
  else if strict_eq permissionLevel (JsStr "comment") then
    {| canView := true; canDownload := true; canComment := true |}
  else
    {| canView := false; canDownload := false; canComment := false |}.

End PermissionUtils.

(* ===================================================================== *)
(** ** Effects: code that reads and writes the store and may throw *)
(* ===================================================================== *)

Module Eff.

Definition M (A : Type) : Type := DB -> Outcome A * DB.

Definition ret {A : Type} (a : A) : M A := fun db => (Ok a, db).

Definition throw {A : Type} (message : string) : M A :=
  fun db => (Throw message, db).

Definition bind {A B : Type} (m : M A) (k : A -> M B) : M B :=
  fun db =>
    match m db with
    | (Ok a, db') => k a db'
    | (Throw message, db') => (Throw message, db')
    end.

(** A SELECT: reads the store and leaves it as it is. *)
Definition query {A : Type} (q : DB -> A) : M A := fun db => (Ok (q db), db).

(** [try { body } catch (error) { handler(error) }] *)
Definition try_catch {A : Type} (body : M A) (handler : string -> M A) : M A :=
  fun db =>
    match body db with
    | (Throw error, db') => handler error db'
    | result => result
    end.

Declare Scope eff_scope.
Delimit Scope eff_scope with eff.
Notation "x <- m ;; k" := (bind m (fun x => k))
  (at level 61, m at next level, right associativity) : eff_scope.

End Eff.
Import Eff.

(* ===================================================================== *)
(** ** models/user.model.js, models/photo.model.js *)
(* ===================================================================== *)

Module UserModel.

(** [SELECT ... FROM users WHERE id = $1], first row or [null].  The
    row is kept as the [User] record; the SELECT lists its columns and
    [auto_sync_custom_group_id] is not among them, so that field of the
    result is not to be read, and nothing below reads it. *)
Definition findById (db : DB) (id : Z) : option User :=
  hd_error (filter (fun u => u_id u =? id) (users db)).

End UserModel.

Module PhotoModel.

(** [FROM photos p JOIN users u ON p.user_id = u.id
     WHERE p.id = $1 AND p.is_deleted = false], then [rows[0]]. *)
Definition findById (db : DB) (photoId : Z) : option Photo :=
  hd_error
    (flat_map (fun p =>
       map (fun _ : User => p)
           (filter (fun u => u_id u =? p_user_id p) (users db)))
       (filter (fun p => (p_id p =? photoId) && negb (p_is_deleted p))
               (photos db))).

(** [SELECT ... FROM access_permissions WHERE id = $1], first row or [null]. *)
Definition getCustomGroup (db : DB) (groupId : Z) : option AccessPermission :=
  hd_error (filter (fun r => ap_id r =? groupId) (access_permissions db)).

(** [SELECT id FROM access_permissions WHERE id = $1 AND user_id = $2] *)
Definition isCustomGroupOwner (db : DB) (groupId userId : Z) : bool :=
  0 <? Z.of_nat (List.length
    (filter (fun r => (ap_id r =? groupId) && (ap_user_id r =? userId))
            (access_permissions db))).

Record Ownership : Type := {
  exists_ : bool;
  isOwner_ : bool
}.

(** [SELECT user_id FROM photos WHERE id = $1]; the fields are [exists]
    and [isOwner] in the source. *)
Definition isOwner (db : DB) (photoId userId : Z) : Ownership :=
  match filter (fun p => p_id p =? photoId) (photos db) with
  | [] => {| exists_ := false; isOwner_ := false |}
  | row :: _ => {| exists_ := true; isOwner_ := (p_user_id row =? userId) |}
  end.

End PhotoModel.

(* ===================================================================== *)
(** ** services/photo.service.js *)
(* ===================================================================== *)

Module PhotoService.

(** What [getPhotoById] hands back: the photo row and the custom group
    looked up for display.  The formatting of the row and the file URL
    are left out. *)
Record PhotoView : Type := {
  view_photo : Photo;
  view_customGroup : option AccessPermission
}.

Definition getPhotoById (db : DB) (photoId currentUserId : Z) : Outcome PhotoView :=
  match PhotoModel.findById db photoId with
  | None => Throw "Photo not found"
  | Some photo =>
      let permission :=
        PermissionUtils.checkPhotoPermission db currentUserId
          (p_user_id photo) (of_text (p_permission_type photo))
          (p_custom_group_id photo) in
      if negb (PermissionUtils.hasPermission permission) then
        Throw (String.append "Access denied: " (PermissionUtils.reason permission))
      else
        let customGroup :=
          match p_custom_group_id photo with
          | Some g => if truthy (JsNum g) then PhotoModel.getCustomGroup db g else None
          | None => None
          end in
        Ok {| view_photo := photo; view_customGroup := customGroup |}
  end.

End PhotoService.

(* ===================================================================== *)
(** ** models/friend.model.js *)
(* ===================================================================== *)

Module FriendModel.

(** An edge lies between [x] and [y], in either direction. *)
Definition between (x y : Z) (f : Friendship) : bool :=
  ((f_requester_id f =? x) && (f_addressee_id f =? y))
  || ((f_requester_id f =? y) && (f_addressee_id f =? x)).

Definition checkFriendshipExists (db : DB) (userId1 userId2 : Z) : option Friendship :=
  hd_error (filter (between userId1 userId2) (friendships db)).

(** [FROM friendships f JOIN users u ON f.requester_id = u.id WHERE
    f.requester_id = $1 AND f.addressee_id = $2 AND f.status = 'pending'] *)
Definition findPendingRequestBetweenUsers (db : DB) (requesterId addresseeId : Z)
    : option (Friendship * User) :=
  hd_error
    (flat_map (fun f =>
       map (fun u => (f, u))
           (filter (fun u => u_id u =? f_requester_id f) (users db)))
       (filter (fun f => (f_requester_id f =? requesterId)
                         && (f_addressee_id f =? addresseeId)
                         && String.eqb (f_status f) "pending")
               (friendships db))).

(** [friendship && friendship.status === 'accepted'], as a truth value. *)
Definition areFriends (db : DB) (userId1 userId2 : Z) : bool :=
  match checkFriendshipExists db userId1 userId2 with
  | Some friendship => String.eqb (f_status friendship) "accepted"
  | None => false
  end.

(** [INSERT INTO friendships (requester_id, addressee_id, status)
    VALUES ($1, $2, 'pending') RETURNING ...]; the id comes from the
    table's sequence.  The table's constraints are not modelled: the
    insert always goes through.  In particular [requester_id] and
    [addressee_id] REFERENCE [users(id)], so that the real INSERT is
    rejected when one of the two is the id of no user; what is proved
    below of a request that goes through is stated for requesters and
    targets that exist. *)
Definition sendFriendRequest (requesterId addresseeId : Z) : M Friendship :=
  fun db =>
    let row := {| f_id := friendships_seq db;
                  f_requester_id := requesterId;
                  f_addressee_id := addresseeId;
                  f_status := "pending" |} in
    (Ok row,
     with_friendships (friendships db ++ [row]) (friendships_seq db + 1) db).

(** [FROM friendships f JOIN users u ON f.requester_id = u.id
    WHERE f.id = $1 AND f.addressee_id = $2] *)
Definition getFriendRequestById (db : DB) (requestId addresseeId : Z)
    : option (Friendship * User) :=
  hd_error
    (flat_map (fun f =>
       map (fun u => (f, u))
           (filter (fun u => u_id u =? f_requester_id f) (users db)))
       (filter (fun f => (f_id f =? requestId)
                         && (f_addressee_id f =? addresseeId))
               (friendships db))).

Definition set_status (status : string) (f : Friendship) : Friendship :=
  {| f_id := f_id f; f_requester_id := f_requester_id f;
     f_addressee_id := f_addressee_id f; f_status := status |}.

(** [UPDATE friendships SET status = $1 WHERE id = $2 RETURNING ...] *)
Definition updateFriendshipStatus (requestId : Z) (status : string)
    : M (option Friendship) :=
  fun db =>
    let fs := map (fun f => if f_id f =? requestId then set_status status f else f)
                  (friendships db) in
    (Ok (hd_error (filter (fun f => f_id f =? requestId) fs)),
     with_friendships fs (friendships_seq db) db).

(** The user on the other side of [f] from [userId], as the CASE
    expression of the join computes it. *)
Definition other_side (userId : Z) (f : Friendship) : Z :=
  if f_requester_id f =? userId then f_addressee_id f else f_requester_id f.

(** [FROM friendships f JOIN users u ON (CASE ... END = u.id)
    WHERE (f.requester_id = $1 OR f.addressee_id = $1)
    AND (f.requester_id = $2 OR f.addressee_id = $2)
    AND f.status = 'accepted'] *)
Definition getFriendshipByUsers (db : DB) (userId friendId : Z)
    : option (Friendship * User) :=
  hd_error
    (flat_map (fun f =>
       map (fun u => (f, u))
           (filter (fun u => u_id u =? other_side userId f) (users db)))
       (filter (fun f => ((f_requester_id f =? userId) || (f_addressee_id f =? userId))
                         && ((f_requester_id f =? friendId) || (f_addressee_id f =? friendId))
                         && String.eqb (f_status f) "accepted")
               (friendships db))).

(** [DELETE FROM friendships WHERE id = $1 RETURNING id] *)
Definition deleteFriendship (friendshipId : Z) : M (option Z) :=
  fun db =>
    (Ok (option_map f_id
           (hd_error (filter (fun f => f_id f =? friendshipId) (friendships db)))),
     with_friendships
       (filter (fun f => negb (f_id f =? friendshipId)) (friendships db))
       (friendships_seq db) db).

End FriendModel.

(* ===================================================================== *)
(** ** services/friend.service.js *)
(* ===================================================================== *)

Module FriendService.

(** Each call returns the rows its response is formatted from; the
    formatting itself is left out. *)

Local Open Scope eff_scope.

Definition sendFriendRequest (requesterId targetUserId : Z) : M (Friendship * User) :=
  if requesterId =? targetUserId then
    throw "Cannot send friend request to yourself"
  else
    targetUser <- query (fun db => UserModel.findById db targetUserId) ;;
    match targetUser with
    | None => throw "User not found"
    | Some targetUser =>
        existingFriendship <-
          query (fun db => FriendModel.checkFriendshipExists db requesterId targetUserId) ;;
        match existingFriendship with
        | Some existingFriendship =>
            throw
              (if String.eqb (f_status existingFriendship) "pending" then
                 "Friend request already sent or received"
               else if String.eqb (f_status existingFriendship) "accepted" then
                 "You are already friends"
               else if String.eqb (f_status existingFriendship) "declined" then
                 "Friend request was previously declined"
               else "Friendship relationship already exists")
        | None =>
            friendRequest <- FriendModel.sendFriendRequest requesterId targetUserId ;;
            ret (friendRequest, targetUser)
        end
    end.

Definition valid_action (action : string) : bool :=
  String.eqb action "accept" || String.eqb action "decline".

Definition invalid_action_message : string :=
  String.append "Action must be either "
    (String.append (quoted "accept")
       (String.append " or " (quoted "decline"))).

Definition newStatus (action : string) : string :=
  if String.eqb action "accept" then "accepted" else "declined".

Definition respondToFriendRequest (userId requestId : Z) (action : string)
    : M (option Friendship * User) :=
  if negb (valid_action action) then
    throw invalid_action_message
  else
    friendRequest <- query (fun db => FriendModel.getFriendRequestById db requestId userId) ;;
    match friendRequest with
    | None => throw "Friend request not found or you are not authorized to respond"
    | Some (friendRequest, requester) =>
        if negb (String.eqb (f_status friendRequest) "pending") then
          throw "Friend request has already been responded to"
        else
          updatedFriendship <-
            FriendModel.updateFriendshipStatus requestId (newStatus action) ;;
          ret (updatedFriendship, requester)
    end.

Definition respondToFriendRequestByUserId (userId friendId : Z) (action : string)
    : M (option Friendship * User) :=
  if negb (valid_action action) then
    throw invalid_action_message
  else
    friendRequest <-
      query (fun db => FriendModel.findPendingRequestBetweenUsers db friendId userId) ;;
    match friendRequest with
    | None => throw "Friend request not found"
    | Some (friendRequest, requester) =>
        updatedFriendship <-
          FriendModel.updateFriendshipStatus (f_id friendRequest) (newStatus action) ;;
        ret (updatedFriendship, requester)
    end.

(** [parsedFriendId] is [parseInt(friendId)], [None] standing for NaN. *)
Definition removeFriend (userId : Z) (parsedFriendId : option Z) : M (Z * User) :=
  match parsedFriendId with
  | None => throw "Invalid friend ID"
  | Some parsedFriendId =>
      friendship <-
        query (fun db => FriendModel.getFriendshipByUsers db userId parsedFriendId) ;;
      match friendship with
      | None => throw "Friendship not found"
      | Some (friendship, friend) =>
          _ <- FriendModel.deleteFriendship (f_id friendship) ;;
          ret (parsedFriendId, friend)
      end
  end.

(** The operations of the service that write to [friendships]. *)
Inductive Op : Type :=
| SendFriendRequest (requesterId targetUserId : Z)
| RespondToFriendRequest (userId requestId : Z) (action : string)
| RespondToFriendRequestByUserId (userId friendId : Z) (action : string)
| RemoveFriend (userId : Z) (parsedFriendId : option Z).

(** The store after one call, whether it returned or threw. *)
Definition step (op : Op) (db : DB) : DB :=
  match op with
  | SendFriendRequest r t => snd (sendFriendRequest r t db)
  | RespondToFriendRequest u q a => snd (respondToFriendRequest u q a db)
  | RespondToFriendRequestByUserId u f a => snd (respondToFriendRequestByUserId u f a db)
  | RemoveFriend u f => snd (removeFriend u f db)
  end.

Definition run (ops : list Op) (db : DB) : DB :=
  fold_left (fun db op => step op db) ops db.

(** Whether a call throws. *)
Definition throws {A : Type} (r : Outcome A * DB) : bool :=
  match fst r with Throw _ => true | Ok _ => false end.

Definition checkFriendship (db : DB) (userId1 userId2 : Z) : bool :=
  FriendModel.areFriends db userId1 userId2.

Record FriendshipStatus : Type := {
  status_ : string;
  canSendRequest : bool;
  friendship_ : option Friendship
}.

Definition getFriendshipStatus (db : DB) (userId1 userId2 : Z) : FriendshipStatus :=
  match FriendModel.checkFriendshipExists db userId1 userId2 with
  | None => {| status_ := "none"; canSendRequest := true; friendship_ := None |}
  | Some friendship =>
      {| status_ := f_status friendship; canSendRequest := false;
         friendship_ := Some friendship |}
  end.

End FriendService.

(* ===================================================================== *)
(** ** models/sharing.model.js *)
(* ===================================================================== *)

Module SharingModel.

(** The columns every share query selects, under the names it gives
    them.  [album_id] and [photo_id] are selected as given. *)
Definition share_columns (id shared_by shared_with : Z) (share_type : string)
    (album_id photo_id : JsVal) (permission_level : string)
    (expires_at : option Z) (is_active : bool) (created_at : Z) : JsObj :=
  [ ("id"%string, JsNum id);
    ("shared_by"%string, JsNum shared_by);
    ("shared_with"%string, JsNum shared_with);
    ("share_type"%string, JsStr share_type);
    ("album_id"%string, album_id);
    ("photo_id"%string, photo_id);
    ("permission_level"%string, JsStr permission_level);
    ("expires_at"%string, of_int expires_at);
    ("is_active"%string, JsBool is_active);
    ("created_at"%string, JsNum created_at) ].

Definition photo_share_columns (s : PhotoShare) : JsObj :=
  share_columns (ps_id s) (ps_shared_by s) (ps_shared_with s) "individual_photo"
    JsNull (of_int (ps_photo_id s)) (ps_permission_level s)
    (ps_expires_at s) (ps_is_active s) (ps_created_at s).

Definition album_share_columns (s : AlbumShare) : JsObj :=
  share_columns (als_id s) (als_shared_by s) (als_shared_with s) "album"
    (JsNum (als_album_id s)) JsNull (als_permission_level s)
    (als_expires_at s) (als_is_active s) (als_created_at s).

(** [LEFT JOIN photos p ON ps.photo_id = p.id], column [p.filename]:
    one row per matching photo, a single NULL when there is none. *)
Definition left_join_filename (db : DB) (photo_id : option Z) : list JsVal :=
  match map (fun p => JsStr (p_filename p))
            (filter (fun p => col_eq photo_id (p_id p)) (photos db)) with
  | [] => [JsNull]
  | l => l
  end.

(** [LEFT JOIN albums a ON als.album_id = a.id], column [a.name]. *)
Definition left_join_album_name (db : DB) (album_id : Z) : list JsVal :=
  match map (fun a => JsStr (a_name a))
            (filter (fun a => a_id a =? album_id) (albums db)) with
  | [] => [JsNull]
  | l => l
  end.

Definition users_with_id (db : DB) (id : Z) : list User :=
  filter (fun u => u_id u =? id) (users db).

(** The WHERE clause of [getSharesByUser], as the query text is built:
    in the ['expired'] case [AND] binds tighter than [OR]. *)
Definition status_where (status : string) (now : Z) (is_user : bool)
    (is_active : bool) (expires_at : option Z) : bool :=
  if String.eqb status "active" then
    is_user && (is_active && unexpired now expires_at)
  else if String.eqb status "expired" then
    (is_user && negb is_active)
    || match expires_at with Some t => t <=? now | None => false end
  else
    is_user && true.

(** The photo-share half of the union; [given] tells which side of the
    share [userId] is on, and so which user is joined for the names. *)
Definition photoSharesQuery (db : DB) (now : Z) (given : bool) (status : string)
    (userId : Z) : list (Z * JsObj) :=
  flat_map (fun s =>
    flat_map (fun u =>
      map (fun file_name =>
        (ps_created_at s,
         photo_share_columns s ++
         [ ((if given then "shared_with_username" else "shared_by_username")%string,
            JsStr (u_username u));
           ((if given then "shared_with_display_name" else "shared_by_display_name")%string,
            of_text (u_display_name u));
           ("album_name"%string, JsNull);
           ("file_name"%string, file_name) ]))
        (left_join_filename db (ps_photo_id s)))
      (users_with_id db (if given then ps_shared_with s else ps_shared_by s)))
    (filter (fun s =>
       status_where status now
         ((if given then ps_shared_by s else ps_shared_with s) =? userId)
         (ps_is_active s) (ps_expires_at s))
       (photo_shares db)).

Definition albumSharesQuery (db : DB) (now : Z) (given : bool) (status : string)
    (userId : Z) : list (Z * JsObj) :=
  flat_map (fun s =>
    flat_map (fun u =>
      map (fun album_name =>
        (als_created_at s,
         album_share_columns s ++
         [ ((if given then "shared_with_username" else "shared_by_username")%string,
            JsStr (u_username u));
           ((if given then "shared_with_display_name" else "shared_by_display_name")%string,
            of_text (u_display_name u));
           ("album_name"%string, album_name);
           ("file_name"%string, JsNull) ]))
        (left_join_album_name db (als_album_id s)))
      (users_with_id db (if given then als_shared_with s else als_shared_by s)))
    (filter (fun s =>
       status_where status now
         ((if given then als_shared_by s else als_shared_with s) =? userId)
         (als_is_active s) (als_expires_at s))
       (album_shares db)).

(** [shareType] is [None] for [null]. *)
Definition getSharesByUser (db : DB) (now : Z) (userId : Z) (type : string)
    (page limit : Z) (status : string) (shareType : option string)
    : Outcome (list JsObj) :=
  let offset := (page - 1) * limit in
  let given := String.eqb type "given" in
  let photoRows := photoSharesQuery db now given status userId in
  let albumRows := albumSharesQuery db now given status userId in
  let unionQuery :=
    if truthy (of_text shareType) then
      if strict_eq (of_text shareType) (JsStr "individual_photo") then photoRows
      else if strict_eq (of_text shareType) (JsStr "album") then albumRows
      else photoRows ++ albumRows
    else photoRows ++ albumRows in
  match limit_offset limit offset (order_by_desc fst unionQuery) with
  | Ok rows => Ok (map snd rows)
  | Throw message => Throw message
  end.

Definition name_columns (sharer recipient : User) (album_name file_name : JsVal) : JsObj :=
  [ ("shared_by_username"%string, JsStr (u_username sharer));
    ("shared_by_display_name"%string, of_text (u_display_name sharer));
    ("shared_with_username"%string, JsStr (u_username recipient));
    ("shared_with_display_name"%string, of_text (u_display_name recipient));
    ("album_name"%string, album_name);
    ("file_name"%string, file_name) ].

(** [photo_shares] first, then [album_shares]; [null] when neither has
    a row with the id. *)
Definition getShareById (db : DB) (shareId : Z) : option JsObj :=
  let photoRows :=
    flat_map (fun s =>
      flat_map (fun sharer =>
        flat_map (fun recipient =>
          map (fun file_name =>
                 photo_share_columns s ++ name_columns sharer recipient JsNull file_name)
              (left_join_filename db (ps_photo_id s)))
          (users_with_id db (ps_shared_with s)))
        (users_with_id db (ps_shared_by s)))
      (filter (fun s => ps_id s =? shareId) (photo_shares db)) in
  match photoRows with
  | row :: _ => Some row
  | [] =>
      hd_error
        (flat_map (fun s =>
           flat_map (fun sharer =>
             flat_map (fun recipient =>
               map (fun album_name =>
                      album_share_columns s ++ name_columns sharer recipient album_name JsNull)
                   (left_join_album_name db (als_album_id s)))
               (users_with_id db (als_shared_with s)))
             (users_with_id db (als_shared_by s)))
           (filter (fun s => als_id s =? shareId) (album_shares db)))
  end.

Definition mapShareFieldToDb (field : string) : string :=
  if String.eqb field "isActive" then "is_active"
  else if String.eqb field "permissionLevel" then "permission_level"
  else if String.eqb field "expiresAt" then "expires_at"
  else field.

(** The SET list built from [Object.entries(updateData)]. *)
Definition updateFields (updateData : JsObj) : list (string * JsVal) :=
  map (fun kv => (mapShareFieldToDb (fst kv), snd kv))
      (filter (fun kv => strict_neq (snd kv) JsUndefined) updateData).

(** One assignment of the SET list applied to a row; [None] when the
    database rejects it (no such column, or a value of the wrong type). *)
Definition set_photo_share (s : PhotoShare) (a : string * JsVal) : option PhotoShare :=
  let mk level expires active :=
    {| ps_id := ps_id s; ps_shared_by := ps_shared_by s;
       ps_shared_with := ps_shared_with s; ps_photo_id := ps_photo_id s;
       ps_album_id := ps_album_id s; ps_permission_level := level;
       ps_expires_at := expires; ps_is_active := active;
       ps_created_at := ps_created_at s |} in
  if String.eqb (fst a) "is_active" then
    match snd a with
    | JsBool b => Some (mk (ps_permission_level s) (ps_expires_at s) b)
    | _ => None
    end
  else if String.eqb (fst a) "permission_level" then
    match snd a with
    | JsStr l => Some (mk l (ps_expires_at s) (ps_is_active s))
    | _ => None
    end
  else if String.eqb (fst a) "expires_at" then
    match snd a with
    | JsNum t => Some (mk (ps_permission_level s) (Some t) (ps_is_active s))
    | JsNull => Some (mk (ps_permission_level s) None (ps_is_active s))
    | _ => None
    end
  else None.

Definition set_album_share (s : AlbumShare) (a : string * JsVal) : option AlbumShare :=
  let mk level expires active :=
    {| als_id := als_id s; als_shared_by := als_shared_by s;
       als_shared_with := als_shared_with s; als_album_id := als_album_id s;
       als_permission_level := level; als_expires_at := expires;
       als_is_active := active; als_created_at := als_created_at s |} in
  if String.eqb (fst a) "is_active" then
    match snd a with
    | JsBool b => Some (mk (als_permission_level s) (als_expires_at s) b)
    | _ => None
    end
  else if String.eqb (fst a) "permission_level" then
    match snd a with
    | JsStr l => Some (mk l (als_expires_at s) (als_is_active s))
    | _ => None
    end
  else if String.eqb (fst a) "expires_at" then
    match snd a with
    | JsNum t => Some (mk (als_permission_level s) (Some t) (als_is_active s))
    | JsNull => Some (mk (als_permission_level s) None (als_is_active s))
    | _ => None
    end
  else None.

(** The whole SET list applied to a row, left to right. *)
Definition apply_set {R : Type} (set1 : R -> string * JsVal -> option R)
    (fields : list (string * JsVal)) (s : R) : option R :=
  fold_left (fun acc a => match acc with Some r => set1 r a | None => None end)
            fields (Some s).

(** Whether the database accepts the SET list at all; this does not
    depend on the row. *)
Definition accepted_assignment (a : string * JsVal) : bool :=
  if String.eqb (fst a) "is_active" then
    match snd a with JsBool _ => true | _ => false end
  else if String.eqb (fst a) "permission_level" then
    match snd a with JsStr _ => true | _ => false end
  else if String.eqb (fst a) "expires_at" then
    match snd a with JsNum _ | JsNull => true | _ => false end
  else false.

Definition update_rows {R : Type} (set1 : R -> string * JsVal -> option R)
    (id : R -> Z) (fields : list (string * JsVal)) (shareId : Z) (rows : list R) : list R :=
  map (fun s =>
         if id s =? shareId then
           match apply_set set1 fields s with Some s' => s' | None => s end
         else s)
      rows.

(** [UPDATE photo_shares ... WHERE id = $n RETURNING ...], then the same
    on [album_shares] when no photo share had the id. *)
Definition updateShare (shareId : Z) (updateData : JsObj) : M (option JsObj) :=
  fun db =>
    let fields := updateFields updateData in
    if (Z.of_nat (List.length fields) =? 0) then
      (Throw "No fields to update", db)
    else if negb (forallb accepted_assignment fields) then
      (Throw "database error", db)
    else
      let ps := update_rows set_photo_share ps_id fields shareId (photo_shares db) in
      match filter (fun s => ps_id s =? shareId) ps with
      | row :: _ =>
          (Ok (Some (photo_share_columns row)), with_shares ps (album_shares db) db)
      | [] =>
          let als := update_rows set_album_share als_id fields shareId (album_shares db) in
          (Ok (option_map album_share_columns
                 (hd_error (filter (fun s => als_id s =? shareId) als))),
           with_shares ps als db)
      end.

(** [DELETE FROM photo_shares WHERE id = $1 RETURNING id], then the same
    on [album_shares] when nothing was deleted. *)
Definition deleteShare (shareId : Z) : M (option Z) :=
  fun db =>
    match filter (fun s => ps_id s =? shareId) (photo_shares db) with
    | row :: _ =>
        (Ok (Some (ps_id row)),
         with_shares (filter (fun s => negb (ps_id s =? shareId)) (photo_shares db))
                     (album_shares db) db)
    | [] =>
        (Ok (option_map als_id
               (hd_error (filter (fun s => als_id s =? shareId) (album_shares db)))),
         with_shares (photo_shares db)
                     (filter (fun s => negb (als_id s =? shareId)) (album_shares db)) db)
    end.

Record FormattedShare : Type := {
  fs_id : JsVal;
  fs_sharerId : JsVal;
  fs_recipientId : JsVal;
  fs_shareType : JsVal;
  fs_albumId : JsVal;
  fs_photoId : JsVal;
  fs_permissionLevel : JsVal;
  fs_expiresAt : JsVal;
  fs_isActive : JsVal;
  fs_createdAt : JsVal;
  fs_updatedAt : JsVal;
  fs_counterpart : string;
  fs_counterpart_username : JsVal;
  fs_counterpart_displayName : JsVal;
  fs_content_albumName : JsVal;
  fs_content_fileName : JsVal
}.

(** [fs_counterpart] is the computed key: ['recipient'] for a share
    given, ['sharer'] for one received. *)
Definition formatShare (share : JsObj) (type : string) : FormattedShare :=
  let isGiven := String.eqb type "given" in
  {| fs_id := prop share "id";
     fs_sharerId := prop share "shared_by";
     fs_recipientId := prop share "shared_with";
     fs_shareType := prop share "share_type";
     fs_albumId := prop share "album_id";
     fs_photoId := prop share "photo_id";
     fs_permissionLevel := prop share "permission_level";
     fs_expiresAt := prop share "expires_at";
     fs_isActive := prop share "is_active";
     fs_createdAt := prop share "created_at";
     fs_updatedAt := prop share "updated_at";
     fs_counterpart := if isGiven then "recipient" else "sharer";
     fs_counterpart_username :=
       if isGiven then prop share "shared_with_username"
       else prop share "shared_by_username";
     fs_counterpart_displayName :=
       if isGiven then prop share "shared_with_display_name"
       else prop share "shared_by_display_name";
     fs_content_albumName := prop share "album_name";
     fs_content_fileName := prop share "file_name" |}.

(** [FROM albums a JOIN users u ON a.user_id = u.id WHERE a.id = $1], with
    [AND a.user_id = $2] when a truthy [userId] is given ([None] is a
    call without one); first row or [null].  Of the selected columns the
    row keeps those of [Album]. *)
Definition getAlbumById (db : DB) (albumId : Z) (userId : option Z) : option Album :=
  hd_error
    (flat_map (fun a =>
       map (fun _ : User => a)
           (filter (fun u => u_id u =? a_user_id a) (users db)))
       (filter (fun a =>
          (a_id a =? albumId)
          && (if truthy (of_int userId) then col_eq userId (a_user_id a) else true))
          (albums db))).

(** The object that [createShare] returns, as the RETURNING list of its
    three INSERTs names the columns. *)
Definition returned_share (id shared_by shared_with : Z) (album_id photo_id : JsVal)
    (permission_level : string) (expires_at : option Z) (created_at : Z)
    (share_type : string) : JsObj :=
  [ ("id"%string, JsNum id);
    ("shared_by"%string, JsNum shared_by);
    ("shared_with"%string, JsNum shared_with);
    ("album_id"%string, album_id);
    ("photo_id"%string, photo_id);
    ("permission_level"%string, JsStr permission_level);
    ("expires_at"%string, of_int expires_at);
    ("is_active"%string, JsBool true);
    ("created_at"%string, JsNum created_at);
    ("share_type"%string, JsStr share_type) ].

(** An album share goes to [album_shares]; a photo share and a share of
    all photos go to [photo_shares], the latter with no photo id.
    [newId] is the id that the sequence of the table hands out and [now]
    the time of the insert; the tables' constraints are not modelled. *)
Definition createShare (newId now : Z) (sharerId recipientId : Z) (shareType : string)
    (albumId photoId : option Z) (permissionLevel : string) (expiresAt : option Z)
    : M JsObj :=
  fun db =>
    if String.eqb shareType "album" && truthy (of_int albumId) then
      match albumId with
      | Some albumId =>
          (Ok (returned_share newId sharerId recipientId (JsNum albumId) JsNull
                 permissionLevel expiresAt now "album"),
           with_shares (photo_shares db)
             (album_shares db ++
              [{| als_id := newId; als_shared_by := sharerId;
                  als_shared_with := recipientId; als_album_id := albumId;
                  als_permission_level := permissionLevel;
                  als_expires_at := expiresAt; als_is_active := true;
                  als_created_at := now |}]) db)
      | None => (Throw "Invalid share type or missing resource ID", db)
      end
    else if String.eqb shareType "individual_photo" && truthy (of_int photoId) then
      (Ok (returned_share newId sharerId recipientId JsNull (of_int photoId)
             permissionLevel expiresAt now "individual_photo"),
       with_shares
         (photo_shares db ++
          [{| ps_id := newId; ps_shared_by := sharerId; ps_shared_with := recipientId;
              ps_photo_id := photoId; ps_album_id := None;
              ps_permission_level := permissionLevel; ps_expires_at := expiresAt;
              ps_is_active := true; ps_created_at := now |}])
         (album_shares db) db)
    else if String.eqb shareType "all_photos" then
      (Ok (returned_share newId sharerId recipientId JsNull JsNull
             permissionLevel expiresAt now "all_photos"),
       with_shares
         (photo_shares db ++
          [{| ps_id := newId; ps_shared_by := sharerId; ps_shared_with := recipientId;
              ps_photo_id := None; ps_album_id := None;
              ps_permission_level := permissionLevel; ps_expires_at := expiresAt;
              ps_is_active := true; ps_created_at := now |}])
         (album_shares db) db)
    else (Throw "Invalid share type or missing resource ID", db).

(** [INSERT INTO album_photos (album_id, photo_id) VALUES ... ON CONFLICT
    (album_id, photo_id) DO NOTHING RETURNING album_id, photo_id]: a pair
    that the table holds already, or that an earlier value of the same
    statement has put there, is skipped.  With no photo id the VALUES
    list is empty and the statement is rejected. *)
Definition insert_album_photo (albumId : Z) (acc : list AlbumPhoto * list AlbumPhoto)
    (photoId : Z) : list AlbumPhoto * list AlbumPhoto :=
  if existsb (fun r => (alp_album_id r =? albumId) && (alp_photo_id r =? photoId)) (fst acc)
  then acc
  else (fst acc ++ [{| alp_album_id := albumId; alp_photo_id := photoId |}],
        snd acc ++ [{| alp_album_id := albumId; alp_photo_id := photoId |}]).

Definition addPhotosToAlbum (albumId : Z) (photoIds : list Z) : M (list AlbumPhoto) :=
  fun db =>
    match photoIds with
    | [] => (Throw "syntax error at end of input", db)
    | _ =>
        let result := fold_left (insert_album_photo albumId) photoIds (album_photos db, []) in
        (Ok (snd result), with_albums (albums db) (fst result) db)
    end.

(** [DELETE FROM album_photos WHERE album_id = $1 AND photo_id IN (...)
    RETURNING album_id, photo_id]; an empty IN list is rejected. *)
Definition removePhotosFromAlbum (albumId : Z) (photoIds : list Z) : M (list AlbumPhoto) :=
  fun db =>
    match photoIds with
    | [] => (Throw "syntax error at or near )", db)
    | _ =>
        let hit r := (alp_album_id r =? albumId) && includes photoIds (alp_photo_id r) in
        (Ok (filter hit (album_photos db)),
         with_albums (albums db) (filter (fun r => negb (hit r)) (album_photos db)) db)
    end.

End SharingModel.

(* ===================================================================== *)
(** ** services/sharing.service.js *)
(* ===================================================================== *)

Module SharingService.

Local Open Scope eff_scope.

Definition updateShare (shareId userId : Z) (updateData : JsObj)
    : M SharingModel.FormattedShare :=
  share <- query (fun db => SharingModel.getShareById db shareId) ;;
  match share with
  | None => throw "Share not found"
  | Some share =>
      if strict_neq (prop share "sharer_id") (JsNum userId) then
        throw "Only the sharer can modify this share"
      else
        updatedShare <- SharingModel.updateShare shareId updateData ;;
        match updatedShare with
        | Some updatedShare => ret (SharingModel.formatShare updatedShare "given")
        | None => throw "TypeError: Cannot read properties of undefined"
        end
  end.

Definition revokeShare (shareId userId : Z) : M SharingModel.FormattedShare :=
  updateShare shareId userId [("isActive"%string, JsBool false)].

Definition reactivateShare (shareId userId : Z) : M SharingModel.FormattedShare :=
  updateShare shareId userId [("isActive"%string, JsBool true)].

Definition deleteShare (shareId userId : Z) : M Z :=
  share <- query (fun db => SharingModel.getShareById db shareId) ;;
  match share with
  | None => throw "Share not found"
  | Some share =>
      if strict_neq (prop share "sharer_id") (JsNum userId) then
        throw "Only the sharer can delete this share"
      else
        deletedShare <- SharingModel.deleteShare shareId ;;
        match deletedShare with
        | Some id => ret id
        | None => throw "TypeError: Cannot read properties of undefined"
        end
  end.

Record ShareData : Type := {
  sd_recipientId : Z;
  sd_shareType : string;
  sd_albumId : option Z;
  sd_photoId : option Z;
  sd_permissionLevel : option string;
  sd_expiresAt : option Z
}.

(** [None] for a permission level left out: the default is ['view']. *)
Definition createShare (newId now : Z) (userId : Z) (shareData : ShareData)
    : M SharingModel.FormattedShare :=
  let permissionLevel :=
    match sd_permissionLevel shareData with Some l => l | None => "view"%string end in
  areFriends <- query (fun db => FriendModel.areFriends db userId (sd_recipientId shareData)) ;;
  if negb areFriends then throw "Can only share with friends"
  else
    checked <-
      (if String.eqb (sd_shareType shareData) "album"
          && truthy (of_int (sd_albumId shareData)) then
         album <- query (fun db =>
                    match sd_albumId shareData with
                    | Some albumId => SharingModel.getAlbumById db albumId (Some userId)
                    | None => None
                    end) ;;
         match album with
         | None => throw "Album not found or access denied"
         | Some _ => ret tt
         end
       else if String.eqb (sd_shareType shareData) "individual_photo"
               && truthy (of_int (sd_photoId shareData)) then
         photoOwnership <- query (fun db =>
                             match sd_photoId shareData with
                             | Some photoId => PhotoModel.isOwner db photoId userId
                             | None => {| PhotoModel.exists_ := false;
                                          PhotoModel.isOwner_ := false |}
                             end) ;;
         if negb (PhotoModel.exists_ photoOwnership)
            || negb (PhotoModel.isOwner_ photoOwnership) then
           throw "Photo not found or access denied"
         else ret tt
       else if negb (String.eqb (sd_shareType shareData) "all_photos") then
         throw "Invalid share type or missing resource ID"
       else ret tt) ;;
    share <- SharingModel.createShare newId now userId (sd_recipientId shareData)
               (sd_shareType shareData) (sd_albumId shareData) (sd_photoId shareData)
               permissionLevel (sd_expiresAt shareData) ;;
    ret (SharingModel.formatShare share "given").

Definition getShareDetails (db : DB) (shareId userId : Z)
    : Outcome SharingModel.FormattedShare :=
  match SharingModel.getShareById db shareId with
  | None => Throw "Share not found"
  | Some share =>
      if strict_neq (prop share "sharer_id") (JsNum userId)
         && strict_neq (prop share "recipient_id") (JsNum userId) then
        Throw "Access denied to this share"
      else
        let type := if strict_eq (prop share "sharer_id") (JsNum userId)
                    then "given"%string else "received"%string in
        Ok (SharingModel.formatShare share type)
  end.

Inductive Content : Type :=
| ContentAlbum (album : Album) (shareInfo : SharingModel.FormattedShare)
| ContentPhoto (photo : Photo) (shareInfo : SharingModel.FormattedShare)
| ContentAllPhotos (shareInfo : SharingModel.FormattedShare).

(** The content, if any, that one share row contributes.  The album and
    photo ids of a row are integers or [null]; the formatting of the
    album and of the photo, the file URL and the pagination record of the
    result are left out. *)
Definition content_of_share (db : DB) (share : JsObj) : option Content :=
  if strict_eq (prop share "share_type") (JsStr "album")
     && truthy (prop share "album_id") then
    match prop share "album_id" with
    | JsNum albumId =>
        match SharingModel.getAlbumById db albumId None with
        | Some album => Some (ContentAlbum album (SharingModel.formatShare share "received"))
        | None => None
        end
    | _ => None
    end
  else if strict_eq (prop share "share_type") (JsStr "individual_photo")
          && truthy (prop share "photo_id") then
    match prop share "photo_id" with
    | JsNum photoId =>
        match PhotoModel.findById db photoId with
        | Some photo => Some (ContentPhoto photo (SharingModel.formatShare share "received"))
        | None => None
        end
    | _ => None
    end
  else if strict_eq (prop share "share_type") (JsStr "all_photos") then
    Some (ContentAllPhotos (SharingModel.formatShare share "received"))
  else None.

Definition getSharedWithMeContent (db : DB) (now : Z) (userId : Z) (page limit : Z)
    (shareType : option string) : Outcome (list Content) :=
  match SharingModel.getSharesByUser db now userId "received" page limit "active" shareType with
  | Throw message => Throw message
  | Ok shares =>
      Ok (flat_map (fun share =>
                      match content_of_share db share with
                      | Some content => [content]
                      | None => []
                      end) shares)
  end.

Record AlbumChange : Type := {
  change_albumId : Z;
  change_count : Z;
  change_photoIds : list Z
}.

Definition invalidPhotos (db : DB) (photoIds : list Z) (userId : Z) : list Z :=
  filter (fun photoId =>
            let check := PhotoModel.isOwner db photoId userId in
            negb (PhotoModel.exists_ check) || negb (PhotoModel.isOwner_ check))
         photoIds.

Definition addPhotosToAlbum (albumId : Z) (photoIds : list Z) (userId : Z) : M AlbumChange :=
  album <- query (fun db => SharingModel.getAlbumById db albumId (Some userId)) ;;
  match album with
  | None => throw "Album not found or access denied"
  | Some _ =>
      invalid <- query (fun db => invalidPhotos db photoIds userId) ;;
      if 0 <? Z.of_nat (List.length invalid) then
        throw (String.append "Photos not found or access denied: " (join ", " invalid))
      else
        addedPhotos <- SharingModel.addPhotosToAlbum albumId photoIds ;;
        ret {| change_albumId := albumId;
               change_count := Z.of_nat (List.length addedPhotos);
               change_photoIds := map alp_photo_id addedPhotos |}
  end.

Definition removePhotosFromAlbum (albumId : Z) (photoIds : list Z) (userId : Z)
    : M AlbumChange :=
  album <- query (fun db => SharingModel.getAlbumById db albumId (Some userId)) ;;
  match album with
  | None => throw "Album not found or access denied"
  | Some _ =>
      invalid <- query (fun db => invalidPhotos db photoIds userId) ;;
      if 0 <? Z.of_nat (List.length invalid) then
        throw (String.append "Photos not found or access denied: " (join ", " invalid))
      else
        removedPhotos <- SharingModel.removePhotosFromAlbum albumId photoIds ;;
        ret {| change_albumId := albumId;
               change_count := Z.of_nat (List.length removedPhotos);
               change_photoIds := map alp_photo_id removedPhotos |}
  end.

End SharingService.

(* ===================================================================== *)
(** ** models/permission.model.js *)
(* ===================================================================== *)

Module PermissionModel.

Record GroupData : Type := {
  gd_name : string;
  gd_description : option string;
  gd_userIds : option (list Z)
}.

Definition with_userIds (userIds : list Z) (groupData : GroupData) : GroupData :=
  {| gd_name := gd_name groupData;
     gd_description := gd_description groupData;
     gd_userIds := Some userIds |}.

(** One transaction: the group row, then one member row per id.  The
    tables' constraints are not modelled: both inserts go through. *)
Definition createPermissionGroup (now : Z) (userId : Z) (groupData : GroupData)
    : M PermissionGroup :=
  fun db =>
    let group := {| pg_id := permission_groups_seq db;
                    pg_owner_id := userId;
                    pg_name := gd_name groupData;
                    pg_description := gd_description groupData;
                    pg_is_active := true |} in
    let members :=
      match gd_userIds groupData with
      | Some userIds =>
          if 0 <? Z.of_nat (List.length userIds) then
            map (fun userId => {| pgm_group_id := pg_id group;
                                  pgm_user_id := userId;
                                  pgm_added_at := now |}) userIds
          else []
      | None => []
      end in
    (Ok group,
     with_groups (permission_groups db ++ [group])
                 (permission_groups_seq db + 1)
                 (permission_group_members db ++ members) db).

Record GroupWithMembers : Type := {
  gm_group : PermissionGroup;
  gm_members : list User
}.

(** [SELECT * FROM permission_groups WHERE id = $1 AND owner_id = $2 AND
    is_active = true], and the members joined with their users, most
    recently added first. *)
Definition getPermissionGroupById (db : DB) (groupId ownerId : Z)
    : option GroupWithMembers :=
  let groupResult :=
    filter (fun g => (pg_id g =? groupId) && (pg_owner_id g =? ownerId)
                     && Bool.eqb (pg_is_active g) true)
           (permission_groups db) in
  let membersResult :=
    map snd
      (order_by_desc fst
         (flat_map (fun m =>
            map (fun u => (pgm_added_at m, u))
                (filter (fun u => u_id u =? pgm_user_id m) (users db)))
            (filter (fun m => pgm_group_id m =? groupId)
                    (permission_group_members db)))) in
  match groupResult with
  | [] => None
  | row :: _ => Some {| gm_group := row; gm_members := membersResult |}
  end.

(** [UPDATE permission_groups SET is_active = false WHERE id = $1 AND
    owner_id = $2 AND is_active = true RETURNING *] *)
Definition deletePermissionGroup (groupId ownerId : Z) : M (option PermissionGroup) :=
  fun db =>
    let hit g := (pg_id g =? groupId) && (pg_owner_id g =? ownerId)
                 && Bool.eqb (pg_is_active g) true in
    let deactivate g :=
      {| pg_id := pg_id g; pg_owner_id := pg_owner_id g; pg_name := pg_name g;
         pg_description := pg_description g; pg_is_active := false |} in
    (Ok (hd_error (map deactivate (filter hit (permission_groups db)))),
     with_groups (map (fun g => if hit g then deactivate g else g) (permission_groups db))
                 (permission_groups_seq db)
                 (permission_group_members db) db).

Record PermissionData : Type := {
  pd_permissionType : string;
  pd_customGroupId : option Z
}.

(** [UPDATE users SET auto_sync_permission_type = $2,
    auto_sync_custom_group_id = $3 WHERE id = $1 RETURNING ...], first
    row or [null].  The column [auto_sync_custom_group_id] REFERENCES
    [permission_groups(id)]: when a row is updated and the id given is
    the id of no group, the statement is rejected. *)
Definition updateUserDefaultPermissions (userId : Z) (permissionData : PermissionData)
    : M (option (option string * option Z)) :=
  fun db =>
    let set u :=
      {| u_id := u_id u; u_username := u_username u;
         u_display_name := u_display_name u;
         u_auto_sync_permission_type := Some (pd_permissionType permissionData);
         u_auto_sync_custom_group_id := pd_customGroupId permissionData |} in
    let rows := filter (fun u => u_id u =? userId) (users db) in
    let references_no_group :=
      match pd_customGroupId permissionData with
      | Some customGroupId =>
          negb (existsb (fun g => pg_id g =? customGroupId) (permission_groups db))
      | None => false
      end in
    if (0 <? Z.of_nat (List.length rows)) && references_no_group then
      (Throw "update on table users violates foreign key constraint", db)
    else
      (Ok (hd_error
             (map (fun u => (u_auto_sync_permission_type (set u),
                             u_auto_sync_custom_group_id (set u)))
                  rows)),
       with_users (map (fun u => if u_id u =? userId then set u else u) (users db)) db).

Record Validation : Type := {
  valid : bool;
  validIds : list Z;
  invalidIds : list Z;
  nonExistentIds : option (list Z);
  nonFriendIds : option (list Z)
}.

(** The friend of [currentUserId] on an edge that the WHERE clause has
    let through: one of the two WHENs of the CASE holds there. *)
Definition friend_id (currentUserId : Z) (f : Friendship) : Z :=
  if f_requester_id f =? currentUserId then f_addressee_id f
  else f_requester_id f.

Definition validateFriendships (db : DB) (currentUserId : Z) (userIds : list Z)
    : Validation :=
  if Z.of_nat (List.length userIds) =? 0 then
    {| valid := true; validIds := []; invalidIds := [];
       nonExistentIds := None; nonFriendIds := None |}
  else
    let existingUserIds :=
      map u_id (filter (fun u => includes userIds (u_id u)) (users db)) in
    let friendIds :=
      map (friend_id currentUserId)
        (filter (fun f =>
           (((f_requester_id f =? currentUserId) && includes userIds (f_addressee_id f))
            || ((f_addressee_id f =? currentUserId) && includes userIds (f_requester_id f)))
           && String.eqb (f_status f) "accepted")
           (friendships db)) in
    let nonExistent := filter (fun id => negb (includes existingUserIds id)) userIds in
    let nonFriend := filter (fun id => negb (includes friendIds id)) existingUserIds in
    {| valid := (Z.of_nat (List.length nonExistent) =? 0)
                && (Z.of_nat (List.length nonFriend) =? 0);
       validIds := friendIds;
       invalidIds := nonExistent ++ nonFriend;
       nonExistentIds := Some nonExistent;
       nonFriendIds := Some nonFriend |}.


(** The fields of [updateData]: [None] is a field left out
    ([undefined]); a name is a string, a description a string or [null],
    [userIds] an array. *)
Record UpdateData : Type := {
  ud_name : option string;
  ud_description : option (option string);
  ud_userIds : option (list Z)
}.

Definition with_update_userIds (userIds : list Z) (updateData : UpdateData) : UpdateData :=
  {| ud_name := ud_name updateData;
     ud_description := ud_description updateData;
     ud_userIds := Some userIds |}.

(** [WHERE id = $1 AND owner_id = $2 AND is_active = true] *)
Definition owned_active (groupId ownerId : Z) (g : PermissionGroup) : bool :=
  (pg_id g =? groupId) && (pg_owner_id g =? ownerId) && Bool.eqb (pg_is_active g) true.

Definition member_rows (now groupId : Z) (userIds : list Z) : list PermissionGroupMember :=
  map (fun userId => {| pgm_group_id := groupId; pgm_user_id := userId;
                        pgm_added_at := now |}) userIds.

(** One transaction.  The UPDATE of the group row is issued when a name
    or a description is given, and the call throws (and rolls back) when
    it hits no row; the member rows are replaced when [userIds] is
    given; the result is the lookup of the group after the COMMIT.
    [permission_group_members.group_id] REFERENCES
    [permission_groups(id)]: when member rows are to be inserted and no
    group row, of any owner, active or not, has the id, the INSERT is
    rejected and the transaction rolled back. *)
Definition updatePermissionGroup (now : Z) (groupId ownerId : Z) (updateData : UpdateData)
    : M (option GroupWithMembers) :=
  fun db =>
    let updateFields :=
      match ud_name updateData, ud_description updateData with
      | None, None => false
      | _, _ => true
      end in
    let set g :=
      {| pg_id := pg_id g; pg_owner_id := pg_owner_id g;
         pg_name := match ud_name updateData with Some name => name | None => pg_name g end;
         pg_description := match ud_description updateData with
                           | Some description => description
                           | None => pg_description g
                           end;
         pg_is_active := pg_is_active g |} in
    let references_no_group :=
      match ud_userIds updateData with
      | Some userIds =>
          (0 <? Z.of_nat (List.length userIds))
          && negb (existsb (fun g => pg_id g =? groupId) (permission_groups db))
      | None => false
      end in
    if updateFields
       && (Z.of_nat (List.length (filter (owned_active groupId ownerId)
                                         (permission_groups db))) =? 0)
    then (Throw "Permission group not found", db)
    else if references_no_group then
      (Throw "insert on table permission_group_members violates foreign key constraint", db)
    else
      let groups :=
        if updateFields then
          map (fun g => if owned_active groupId ownerId g then set g else g)
              (permission_groups db)
        else permission_groups db in
      let members :=
        match ud_userIds updateData with
        | Some userIds =>
            filter (fun m => negb (pgm_group_id m =? groupId)) (permission_group_members db)
            ++ (if 0 <? Z.of_nat (List.length userIds)
                then member_rows now groupId userIds else [])
        | None => permission_group_members db
        end in
      let db' := with_groups groups (permission_groups_seq db) members db in
      (Ok (getPermissionGroupById db' groupId ownerId), db').

Record AddResult : Type := {
  addedCount : Z;
  skippedCount : Z
}.

(** One transaction: the ownership check, then the ids that are not yet
    members of the group are inserted. *)
Definition addUsersToGroup (now : Z) (groupId ownerId : Z) (userIds : list Z)
    : M AddResult :=
  fun db =>
    if Z.of_nat (List.length (filter (owned_active groupId ownerId)
                                     (permission_groups db))) =? 0
    then (Throw "Permission group not found", db)
    else
      let existingUserIds :=
        map pgm_user_id
            (filter (fun m => pgm_group_id m =? groupId) (permission_group_members db)) in
      let newUserIds := filter (fun userId => negb (includes existingUserIds userId)) userIds in
      let members :=
        if 0 <? Z.of_nat (List.length newUserIds)
        then permission_group_members db ++ member_rows now groupId newUserIds
        else permission_group_members db in
      (Ok {| addedCount := Z.of_nat (List.length newUserIds);
             skippedCount := Z.of_nat (List.length userIds)
                             - Z.of_nat (List.length newUserIds) |},
       with_groups (permission_groups db) (permission_groups_seq db) members db).

(** One transaction: the ownership check, then [DELETE FROM
    permission_group_members WHERE group_id = $1 AND user_id IN (...)];
    the result is [removedCount].  With no id the IN list is empty and
    the statement is rejected. *)
Definition removeUsersFromGroup (groupId ownerId : Z) (userIds : list Z) : M Z :=
  fun db =>
    if Z.of_nat (List.length (filter (owned_active groupId ownerId)
                                     (permission_groups db))) =? 0
    then (Throw "Permission group not found", db)
    else
      match userIds with
      | [] => (Throw "syntax error at or near )", db)
      | _ =>
          let hit m := (pgm_group_id m =? groupId) && includes userIds (pgm_user_id m) in
          (Ok (Z.of_nat (List.length (filter hit (permission_group_members db)))),
           with_groups (permission_groups db) (permission_groups_seq db)
             (filter (fun m => negb (hit m)) (permission_group_members db)) db)
      end.

End PermissionModel.

(* ===================================================================== *)
(** ** services/permission.service.js *)
(* ===================================================================== *)

Module PermissionService.

Local Open Scope eff_scope.

(** The data objects that the service hands to its response helpers:
    [{ group }] with a group row or with a group and its members,
    [{ permissions }], [{ addedCount, skippedCount, totalRequested }] and
    [{ removedCount, totalRequested }]. *)
Inductive ResponseData : Type :=
| DataGroup (group : PermissionGroup)
| DataGroupWithMembers (group : PermissionModel.GroupWithMembers)
| DataPermissions (permissions : option string * option Z)
| DataAdded (addedCount skippedCount totalRequested : Z)
| DataRemoved (removedCount totalRequested : Z).

(** Whatever a response helper would hand back. *)
Definition Response : Type := JsVal.

(** [const { createSuccessResponse, createErrorResponse } =
    require('../utils/response.utils')]: that module exports the class
    [ResponseUtils], whose static methods are [success], [error],
    [notFound] and the like; it has no property of either name.  Both
    constants are [undefined], and calling one throws a TypeError. *)
Definition createSuccessResponse (message : string) (data : ResponseData) : M Response :=
  throw "createSuccessResponse is not a function".

Definition createErrorResponse (message : string) (statusCode : option Z) : M Response :=
  throw "createErrorResponse is not a function".

Definition invalid_users_message (invalidIds : list Z) : string :=
  String.append "Invalid users: "
    (String.append (join ", " invalidIds) ". Users must exist and be friends.").

(** [inl] is a [return] from inside the validation step. *)
Definition createPermissionGroup (now : Z) (userId : Z)
    (groupData : PermissionModel.GroupData) : M Response :=
  try_catch
    (checked <-
       (match PermissionModel.gd_userIds groupData with
        | Some userIds =>
            if 0 <? Z.of_nat (List.length userIds) then
              validation <-
                query (fun db => PermissionModel.validateFriendships db userId userIds) ;;
              if negb (PermissionModel.valid validation) then
                response <-
                  createErrorResponse
                    (invalid_users_message (PermissionModel.invalidIds validation))
                    (Some 400) ;;
                ret (inl response)
              else
                ret (inr (PermissionModel.with_userIds
                            (PermissionModel.validIds validation) groupData))
            else ret (inr groupData)
        | None => ret (inr groupData)
        end) ;;
     match checked with
     | inl response => ret response
     | inr groupData =>
         group <- PermissionModel.createPermissionGroup now userId groupData ;;
         createSuccessResponse "Permission group created successfully" (DataGroup group)
     end)
    (fun _ => createErrorResponse "Failed to create permission group" None).

Definition getPermissionGroupById (groupId userId : Z) : M Response :=
  try_catch
    (group <- query (fun db => PermissionModel.getPermissionGroupById db groupId userId) ;;
     match group with
     | None => createErrorResponse "Permission group not found" (Some 404)
     | Some group =>
         createSuccessResponse "Permission group retrieved successfully"
           (DataGroupWithMembers group)
     end)
    (fun _ => createErrorResponse "Failed to retrieve permission group" None).

Definition updatePermissionGroup (now : Z) (groupId userId : Z)
    (updateData : PermissionModel.UpdateData) : M Response :=
  try_catch
    (checked <-
       (match PermissionModel.ud_userIds updateData with
        | Some userIds =>
            if 0 <? Z.of_nat (List.length userIds) then
              validation <-
                query (fun db => PermissionModel.validateFriendships db userId userIds) ;;
              if negb (PermissionModel.valid validation) then
                response <-
                  createErrorResponse
                    (invalid_users_message (PermissionModel.invalidIds validation))
                    (Some 400) ;;
                ret (inl response)
              else
                ret (inr (PermissionModel.with_update_userIds
                            (PermissionModel.validIds validation) updateData))
            else ret (inr updateData)
        | None => ret (inr updateData)
        end) ;;
     match checked with
     | inl response => ret response
     | inr updateData =>
         group <- PermissionModel.updatePermissionGroup now groupId userId updateData ;;
         match group with
         | None => createErrorResponse "Permission group not found" (Some 404)
         | Some group =>
             createSuccessResponse "Permission group updated successfully"
               (DataGroupWithMembers group)
         end
     end)
    (fun _ => createErrorResponse "Failed to update permission group" None).

Definition deletePermissionGroup (groupId userId : Z) : M Response :=
  try_catch
    (deletedGroup <- PermissionModel.deletePermissionGroup groupId userId ;;
     match deletedGroup with
     | None => createErrorResponse "Permission group not found" (Some 404)
     | Some deletedGroup =>
         createSuccessResponse "Permission group deleted successfully"
           (DataGroup deletedGroup)
     end)
    (fun _ => createErrorResponse "Failed to delete permission group" None).

Definition addUsersToGroup (now : Z) (groupId userId : Z) (userIds : list Z) : M Response :=
  try_catch
    (validation <- query (fun db => PermissionModel.validateFriendships db userId userIds) ;;
     if negb (PermissionModel.valid validation) then
       createErrorResponse
         (invalid_users_message (PermissionModel.invalidIds validation)) (Some 400)
     else
       result <- PermissionModel.addUsersToGroup now groupId userId
                   (PermissionModel.validIds validation) ;;
       createSuccessResponse "Users added to group successfully"
         (DataAdded (PermissionModel.addedCount result)
                    (PermissionModel.skippedCount result)
                    (Z.of_nat (List.length userIds))))
    (fun message =>
       if String.eqb message "Permission group not found" then
         createErrorResponse "Permission group not found" (Some 404)
       else createErrorResponse "Failed to add users to group" None).

Definition removeUsersFromGroup (groupId userId : Z) (userIds : list Z) : M Response :=
  try_catch
    (removedCount <- PermissionModel.removeUsersFromGroup groupId userId userIds ;;
     createSuccessResponse "Users removed from group successfully"
       (DataRemoved removedCount (Z.of_nat (List.length userIds))))
    (fun message =>
       if String.eqb message "Permission group not found" then
         createErrorResponse "Permission group not found" (Some 404)
       else createErrorResponse "Failed to remove users from group" None).

Definition updateUserDefaultPermissions (userId : Z)
    (permissionData : PermissionModel.PermissionData) : M Response :=
  try_catch
    (checked <-
       (if String.eqb (PermissionModel.pd_permissionType permissionData) "custom"
           && truthy (of_int (PermissionModel.pd_customGroupId permissionData)) then
          match PermissionModel.pd_customGroupId permissionData with
          | Some customGroupId =>
              group <- query (fun db =>
                         PermissionModel.getPermissionGroupById db customGroupId userId) ;;
              match group with
              | None =>
                  response <-
                    createErrorResponse "Custom permission group not found" (Some 400) ;;
                  ret (Some response)
              | Some _ => ret None
              end
          | None => ret None
          end
        else ret None) ;;
     match checked with
     | Some response => ret response
     | None =>
         permissions <-
           PermissionModel.updateUserDefaultPermissions userId permissionData ;;
         match permissions with
         | None => createErrorResponse "User not found" (Some 404)
         | Some permissions =>
             createSuccessResponse "Default permissions updated successfully"
               (DataPermissions permissions)
         end
     end)
    (fun _ => createErrorResponse "Failed to update default permissions" None).

End PermissionService.

(* ===================================================================== *)
(** ** The access rules as the design document words them *)
(* ===================================================================== *)

Module Design.

(** The group registry of the design: the groups and member sets that
    the permission model keeps, with the soft-delete flag. *)
Definition isActive (db : DB) (groupId : Z) : bool :=
  existsb (fun g => (pg_id g =? groupId) && pg_is_active g) (permission_groups db).

Definition isSoftDeleted (db : DB) (groupId : Z) : bool :=
  existsb (fun g => (pg_id g =? groupId) && negb (pg_is_active g)) (permission_groups db).

Definition ownedBy (db : DB) (groupId ownerId : Z) : bool :=
  existsb (fun g => (pg_id g =? groupId) && (pg_owner_id g =? ownerId))
          (permission_groups db).

Definition isMember (db : DB) (groupId userId : Z) : bool :=
  existsb (fun m => (pgm_group_id m =? groupId) && (pgm_user_id m =? userId))
          (permission_group_members db).

(** The [custom] rule: the group id is set, the group is active, owned
    by the owner of the item, and the viewer is a member of it. *)
Definition custom_allows (db : DB) (viewerId ownerId : Z) (groupId : option Z) : bool :=
  match groupId with
  | Some g => isActive db g && ownedBy db g ownerId && isMember db g viewerId
  | None => false
  end.

(** A grant is effective iff it is active and unexpired. *)
Definition effective (now : Z) (is_active : bool) (expires_at : option Z) : bool :=
  is_active && unexpired now expires_at.

(** An effective grant from [ownerId] to [viewerId] for exactly the
    photo [photoId], or for all content. *)
Definition effective_photo_grant (db : DB) (now : Z) (ownerId viewerId photoId : Z) : bool :=
  existsb (fun s =>
    (ps_shared_by s =? ownerId) && (ps_shared_with s =? viewerId)
    && effective now (ps_is_active s) (ps_expires_at s)
    && (col_eq (ps_photo_id s) photoId
        || match ps_photo_id s, ps_album_id s with
           | None, None => true
           | _, _ => false
           end))
    (photo_shares db).

End Design.

(* ===================================================================== *)
(** ** Properties and example stores *)
(* ===================================================================== *)

(** The custom rule of the design, held against the code. *)
Definition custom_rule_of_design (db : DB) (v o : Z) (g : option Z) : Prop :=
  PermissionUtils.hasPermission
    (PermissionUtils.checkPhotoPermission db v o (JsStr "custom") g) = true
  <-> Design.custom_allows db v o g = true.

(** Owner 1 keeps group 10 with member 2 in the registry and deletes it;
    [access_permissions] still lists user 2 under id 10. *)
Definition db_group_10 : DB := {|
  users := [ new_user 1 "an";
             new_user 2 "binh" ];
  friendships := [ {| f_id := 1; f_requester_id := 1; f_addressee_id := 2;
                      f_status := "accepted" |} ];
  friendships_seq := 2;
  access_permissions := [ {| ap_id := 10; ap_user_id := 1; ap_group_name := "family";
                             ap_allowed_user_ids := Some [2] |} ];
  photos := [ {| p_id := 7; p_user_id := 1; p_filename := "p.jpg";
                 p_permission_type := Some "custom"%string;
                 p_custom_group_id := Some 10; p_is_deleted := false |} ];
  albums := []; album_photos := []; photo_shares := []; album_shares := [];
  permission_groups := [ {| pg_id := 10; pg_owner_id := 1; pg_name := "family";
                            pg_description := None; pg_is_active := true |} ];
  permission_groups_seq := 11;
  permission_group_members := [ {| pgm_group_id := 10; pgm_user_id := 2;
                                   pgm_added_at := 0 |} ]
|}.

Definition db_group_10_deleted : DB :=
  snd (PermissionService.deletePermissionGroup 10 1 db_group_10).

(** Owner 1 has shared photo 7 (policy [friends]) with user 2, an active
    grant without expiry, and everything else too; the two are no longer
    friends. *)
Definition db_shared_photo : DB := {|
  users := [ new_user 1 "an";
             new_user 2 "binh" ];
  friendships := []; friendships_seq := 2;
  access_permissions := [];
  photos := [ {| p_id := 7; p_user_id := 1; p_filename := "p.jpg";
                 p_permission_type := Some "friends"%string;
                 p_custom_group_id := None; p_is_deleted := false |} ];
  albums := []; album_photos := [];
  photo_shares := [ {| ps_id := 1; ps_shared_by := 1; ps_shared_with := 2;
                       ps_photo_id := Some 7; ps_album_id := None;
                       ps_permission_level := "view"; ps_expires_at := None;
                       ps_is_active := true; ps_created_at := 0 |};
                    {| ps_id := 2; ps_shared_by := 1; ps_shared_with := 2;
                       ps_photo_id := None; ps_album_id := None;
                       ps_permission_level := "view"; ps_expires_at := None;
                       ps_is_active := true; ps_created_at := 0 |} ];
  album_shares := [];
  permission_groups := []; permission_groups_seq := 1;
  permission_group_members := []
|}.

(** Owner 1 keeps photo 7 (policy [friends]) in the public album 3; user 2
    is not a friend. *)
Definition db_public_album : DB := {|
  users := [ new_user 1 "an";
             new_user 2 "binh" ];
  friendships := []; friendships_seq := 1;
  access_permissions := [];
  photos := [ {| p_id := 7; p_user_id := 1; p_filename := "p.jpg";
                 p_permission_type := Some "friends"%string;
                 p_custom_group_id := None; p_is_deleted := false |} ];
  albums := [ {| a_id := 3; a_user_id := 1; a_name := "trip";
                 a_privacy_type := Some "public"%string |} ];
  album_photos := [ {| alp_album_id := 3; alp_photo_id := 7 |} ];
  photo_shares := []; album_shares := [];
  permission_groups := []; permission_groups_seq := 1;
  permission_group_members := []
|}.

(** User 1 has shared photo 7 with user 2. *)
Definition db_one_share : DB := {|
  users := [ new_user 1 "an";
             new_user 2 "binh" ];
  friendships := [ {| f_id := 1; f_requester_id := 1; f_addressee_id := 2;
                      f_status := "accepted" |} ];
  friendships_seq := 2;
  access_permissions := [];
  photos := [ {| p_id := 7; p_user_id := 1; p_filename := "p.jpg";
                 p_permission_type := Some "friends"%string;
                 p_custom_group_id := None; p_is_deleted := false |} ];
  albums := []; album_photos := [];
  photo_shares := [ {| ps_id := 1; ps_shared_by := 1; ps_shared_with := 2;
                       ps_photo_id := Some 7; ps_album_id := None;
                       ps_permission_level := "view"; ps_expires_at := None;
                       ps_is_active := true; ps_created_at := 0 |} ];
  album_shares := [];
  permission_groups := []; permission_groups_seq := 1;
  permission_group_members := []
|}.

(** A returned share row is effective at [now]: flagged active, and
    [expires_at] null or later than [now]. *)
Definition row_effective (now : Z) (r : JsObj) : bool :=
  strict_eq (prop r "is_active") (JsBool true)
  && match prop r "expires_at" with
     | JsNull => true
     | JsNum t => now <? t
     | _ => false
     end.

(** The store without the shares that have expired by [now]. *)
Definition unexpired_only (now : Z) (db : DB) : DB :=
  with_shares (filter (fun s => unexpired now (ps_expires_at s)) (photo_shares db))
              (filter (fun s => unexpired now (als_expires_at s)) (album_shares db))
              db.

(** The expiry of every share, by table and position. *)
Definition expiries (db : DB) : list (Z * option Z) * list (Z * option Z) :=
  (map (fun s => (ps_id s, ps_expires_at s)) (photo_shares db),
   map (fun s => (als_id s, als_expires_at s)) (album_shares db)).

(** User 1 has given user 2 three shares: one expired at 50 and still
    flagged active, one without expiry, and an album share expired at 10. *)
Definition db_expired_share : DB := {|
  users := [ new_user 1 "an";
             new_user 2 "binh" ];
  friendships := []; friendships_seq := 1;
  access_permissions := [];
  photos := [ {| p_id := 7; p_user_id := 1; p_filename := "p.jpg";
                 p_permission_type := Some "friends"%string;
                 p_custom_group_id := None; p_is_deleted := false |} ];
  albums := [ {| a_id := 3; a_user_id := 1; a_name := "trip";
                 a_privacy_type := Some "private"%string |} ];
  album_photos := [];
  photo_shares := [ {| ps_id := 1; ps_shared_by := 1; ps_shared_with := 2;
                       ps_photo_id := Some 7; ps_album_id := None;
                       ps_permission_level := "view"; ps_expires_at := Some 50;
                       ps_is_active := true; ps_created_at := 5 |};
                    {| ps_id := 2; ps_shared_by := 1; ps_shared_with := 2;
                       ps_photo_id := Some 7; ps_album_id := None;
                       ps_permission_level := "download"; ps_expires_at := None;
                       ps_is_active := true; ps_created_at := 6 |} ];
  album_shares := [ {| als_id := 3; als_shared_by := 1; als_shared_with := 2;
                       als_album_id := 3; als_permission_level := "view";
                       als_expires_at := Some 10; als_is_active := true;
                       als_created_at := 7 |} ];
  permission_groups := []; permission_groups_seq := 1;
  permission_group_members := []
|}.

(** The three ways in which group [g] is not there for caller [u]. *)
Definition group_absent (db : DB) (g : Z) : Prop :=
  forall r, In r (permission_groups db) -> pg_id r <> g.



(** The TypeError that ends every call of the permission service: the
    [catch] block of each method calls [createErrorResponse], which is
    [undefined]. *)
Definition not_a_function : string := "createErrorResponse is not a function".

(** A user row with the default permissions of [permissionData]. *)
Definition with_defaults (permissionData : PermissionModel.PermissionData) (x : User) : User :=
  {| u_id := u_id x; u_username := u_username x;
     u_display_name := u_display_name x;
     u_auto_sync_permission_type := Some (PermissionModel.pd_permissionType permissionData);
     u_auto_sync_custom_group_id := PermissionModel.pd_customGroupId permissionData |}.

(** The ids asked for when a group is created; none when the field is
    left out. *)
Definition requested (groupData : PermissionModel.GroupData) : list Z :=
  match PermissionModel.gd_userIds groupData with
  | Some userIds => userIds
  | None => []
  end.

(** No group row has the id, whoever owns it. *)
Definition no_group_row (db : DB) (g : Z) : bool :=
  negb (existsb (fun r => pg_id r =? g) (permission_groups db)).

Definition members_only (userIds : list Z) : PermissionModel.UpdateData :=
  {| PermissionModel.ud_name := None;
     PermissionModel.ud_description := None;
     PermissionModel.ud_userIds := Some userIds |}.

(** The member rows of group [g] replaced by rows for [userIds]. *)
Definition members_replaced (now g : Z) (userIds : list Z) (db : DB) : DB :=
  with_groups (permission_groups db) (permission_groups_seq db)
    (filter (fun m => negb (pgm_group_id m =? g)) (permission_group_members db)
     ++ PermissionModel.member_rows now g userIds)
    db.

Definition user_exists (db : DB) (id : Z) : bool :=
  existsb (fun u => u_id u =? id) (users db).

(** An id is rejected for [owner] when no user has it or when it is not
    a friend of [owner]. *)
Definition rejected_member (db : DB) (owner id : Z) : Prop :=
  user_exists db id = false \/ PermissionUtils.areFriends db owner id = false.

(** User 1 is friends with user 2, not with user 3; no user has id 9. *)
Definition db_three_users : DB := {|
  users := [ new_user 1 "an";
             new_user 2 "binh";
             new_user 3 "chi" ];
  friendships := [ {| f_id := 1; f_requester_id := 2; f_addressee_id := 1;
                      f_status := "accepted" |} ];
  friendships_seq := 2;
  access_permissions := []; photos := []; albums := []; album_photos := [];
  photo_shares := []; album_shares := [];
  permission_groups := []; permission_groups_seq := 1;
  permission_group_members := []
|}.

Definition family_group (userIds : list Z) : PermissionModel.GroupData :=
  {| PermissionModel.gd_name := "family";
     PermissionModel.gd_description := None;
     PermissionModel.gd_userIds := Some userIds |}.

(** [f2] joins the same two users as [f1]. *)
Definition same_pair (f1 f2 : Friendship) : bool :=
  FriendModel.between (f_requester_id f1) (f_addressee_id f1) f2.

(** What the table's primary key and the service's own check keep true:
    ids are unique and below the sequence, and two users are joined by
    one edge at most. *)
Definition wf_friendships (db : DB) : Prop :=
  NoDup (map f_id (friendships db))
  /\ (forall f, In f (friendships db) -> f_id f < friendships_seq db)
  /\ (forall f1 f2, In f1 (friendships db) -> In f2 (friendships db) ->
                    same_pair f1 f2 = true -> f1 = f2).

(** The four things a call can do to the table. *)
Inductive effect (db : DB) : DB -> Prop :=
| effect_none : effect db db
| effect_insert (r t : Z) :
    filter (FriendModel.between r t) (friendships db) = [] ->
    effect db
      (with_friendships
         (friendships db ++
          [{| f_id := friendships_seq db; f_requester_id := r;
              f_addressee_id := t; f_status := "pending" |}])
         (friendships_seq db + 1) db)
| effect_update (f : Friendship) (status : string) :
    In f (friendships db) ->
    f_status f = "pending"%string ->
    effect db
      (with_friendships
         (map (fun x => if f_id x =? f_id f then FriendModel.set_status status x else x)
              (friendships db))
         (friendships_seq db) db)
| effect_delete (f : Friendship) :
    In f (friendships db) ->
    f_status f = "accepted"%string ->
    effect db
      (with_friendships
         (filter (fun x => negb (f_id x =? f_id f)) (friendships db))
         (friendships_seq db) db).

(** Users 1 and 2; user 1 asks, user 2 declines. *)
Definition db_two_users : DB := {|
  users := [ new_user 1 "an";
             new_user 2 "binh" ];
  friendships := []; friendships_seq := 1;
  access_permissions := []; photos := []; albums := []; album_photos := [];
  photo_shares := []; album_shares := [];
  permission_groups := []; permission_groups_seq := 1;
  permission_group_members := []
|}.

Definition db_declined : DB :=
  FriendService.run
    [ FriendService.SendFriendRequest 1 2;
      FriendService.RespondToFriendRequest 2 1 "decline" ]
    db_two_users.

Definition declined_edge : Friendship :=
  {| f_id := 1; f_requester_id := 1; f_addressee_id := 2; f_status := "declined" |}.

(** Owner 1 keeps the private album 3 and photo 7, and is friends with
    user 2; both tables of shares hold a share with id 1. *)
Definition db_private_album : DB := {|
  users := [ new_user 1 "an"; new_user 2 "binh" ];
  friendships := [ {| f_id := 1; f_requester_id := 1; f_addressee_id := 2;
                      f_status := "accepted" |} ];
  friendships_seq := 2;
  access_permissions := [];
  photos := [ {| p_id := 7; p_user_id := 1; p_filename := "p.jpg";
                 p_permission_type := Some "friends"%string;
                 p_custom_group_id := None; p_is_deleted := false |} ];
  albums := [ {| a_id := 3; a_user_id := 1; a_name := "trip";
                 a_privacy_type := Some "private"%string |} ];
  album_photos := [];
  photo_shares := []; album_shares := [];
  permission_groups := []; permission_groups_seq := 1;
  permission_group_members := []
|}.

Definition share_album_3 : SharingService.ShareData :=
  {| SharingService.sd_recipientId := 2;
     SharingService.sd_shareType := "album";
     SharingService.sd_albumId := Some 3;
     SharingService.sd_photoId := None;
     SharingService.sd_permissionLevel := None;
     SharingService.sd_expiresAt := None |}.

Definition share_photo_7 : SharingService.ShareData :=
  {| SharingService.sd_recipientId := 2;
     SharingService.sd_shareType := "individual_photo";
     SharingService.sd_albumId := None;
     SharingService.sd_photoId := Some 7;
     SharingService.sd_permissionLevel := Some "download"%string;
     SharingService.sd_expiresAt := None |}.

(** What a listed content item says of its share. *)
Definition shareInfo (c : SharingService.Content) : SharingModel.FormattedShare :=
  match c with
  | SharingService.ContentAlbum _ info
  | SharingService.ContentPhoto _ info
  | SharingService.ContentAllPhotos info => info
  end.

Definition is_all_photos (c : SharingService.Content) : bool :=
  match c with
  | SharingService.ContentAllPhotos _ => true
  | _ => false
  end.

(* ===================================================================== *)
(** ** Lemmas on queries *)
(* ===================================================================== *)

Lemma some_row_iff {A : Type} (p : A -> bool) (l : list A) :
  (0 <? Z.of_nat (List.length (filter p l))) = true
  <-> exists x, In x l /\ p x = true.
Proof.
  split.
  - intro H. destruct (filter p l) as [|x rest] eqn:E.
    + discriminate H.
    + exists x. apply filter_In. rewrite E. now left.
  - intros [x Hx]. apply filter_In in Hx.
    destruct (filter p l); [contradiction | reflexivity].
Qed.

Lemma no_row_iff {A : Type} (p : A -> bool) (l : list A) :
  (0 <? Z.of_nat (List.length (filter p l))) = false
  <-> forall x, In x l -> p x = false.
Proof.
  split.
  - intros H x Hx. destruct (p x) eqn:E; [|reflexivity].
    assert (Ht : (0 <? Z.of_nat (List.length (filter p l))) = true)
      by (apply some_row_iff; eauto).
    congruence.
  - intro H. destruct (0 <? Z.of_nat (List.length (filter p l))) eqn:E; [|reflexivity].
    apply some_row_iff in E. destruct E as [x [Hx Hp]].
    rewrite (H x Hx) in Hp. discriminate.
Qed.

Lemma areFriends_iff (db : DB) (a b : Z) :
  PermissionUtils.areFriends db a b = true
  <-> exists f, In f (friendships db)
                /\ FriendModel.between a b f = true
                /\ f_status f = "accepted"%string.
Proof.
  unfold PermissionUtils.areFriends. rewrite some_row_iff.
  split; intros [f [Hin H]]; exists f; split; auto.
  - apply andb_true_iff in H. destruct H as [Hb Hs].
    split; [exact Hb | now apply String.eqb_eq].
  - destruct H as [Hb Hs]. apply andb_true_iff.
    split; [exact Hb | now apply String.eqb_eq].
Qed.

(* ===================================================================== *)
(** ** Photo access resolution *)
(* ===================================================================== *)

(** C7. The owner of an item is always allowed, with the owner reason:
    whatever the visibility policy value (any JavaScript value, known or
    not), whatever the group id and whatever the store holds. *)
Theorem owner_access_regardless_of_policy :
  forall (db : DB) (ownerId : Z) (permissionType : JsVal) (customGroupId : option Z),
    PermissionUtils.checkPhotoPermission db ownerId ownerId permissionType customGroupId
    = {| PermissionUtils.hasPermission := true;
         PermissionUtils.reason := "Owner access" |}.
Proof.
  intros. unfold PermissionUtils.checkPhotoPermission.
  now rewrite Z.eqb_refl.
Qed.

(** C8. [close_friends] resolves exactly as [friends] does, for every
    viewer, owner, group id and store; the verdict of both is "owner, or
    an accepted friendship edge between the two", so that for a viewer
    other than the owner both allow iff such an edge exists. *)
Theorem close_friends_resolves_as_friends :
  forall (db : DB) (v o : Z) (g : option Z),
    PermissionUtils.checkPhotoPermission db v o (JsStr "close_friends") g
    = PermissionUtils.checkPhotoPermission db v o (JsStr "friends") g
    /\ PermissionUtils.hasPermission
         (PermissionUtils.checkPhotoPermission db v o (JsStr "friends") g)
       = ((v =? o) || PermissionUtils.areFriends db v o)
    /\ (v <> o ->
        forall policy, policy = "friends"%string \/ policy = "close_friends"%string ->
        (PermissionUtils.hasPermission
           (PermissionUtils.checkPhotoPermission db v o (JsStr policy) g) = true
         <-> exists f, In f (friendships db)
                       /\ FriendModel.between v o f = true
                       /\ f_status f = "accepted"%string)).
Proof.
  intros db v o g. unfold PermissionUtils.checkPhotoPermission.
  destruct (v =? o) eqn:E; simpl.
  - split; [reflexivity | split; [reflexivity |]].
    intro Hne. apply Z.eqb_eq in E. contradiction.
  - split; [reflexivity | split; [reflexivity |]].
    intros _ policy [-> | ->]; simpl; apply areFriends_iff.
Qed.

(** The theorem at work: users 2 and 1 with an accepted edge. *)
Lemma close_friends_resolves_as_friends_witness :
  let db := with_friendships
              [{| f_id := 1; f_requester_id := 1; f_addressee_id := 2;
                  f_status := "accepted" |}] 2 Db.empty in
  PermissionUtils.hasPermission
    (PermissionUtils.checkPhotoPermission db 2 1 (JsStr "close_friends") None) = true
  <-> exists f, In f (friendships db)
                /\ FriendModel.between 2 1 f = true
                /\ f_status f = "accepted"%string.
Proof.
  intro db.
  refine (proj2 (proj2 (close_friends_resolves_as_friends db 2 1 None)) _ _ _).
  - lia.
  - right. reflexivity.
Defined.

(** *** The custom rule *)

(** C6, as stated, fails: the photo of owner 1 refers to group 10, which
    is soft-deleted in the registry, and viewer 2 is still allowed, as
    before the group was deleted. *)
Lemma custom_rule_soft_deleted_counterexample :
  Design.isActive db_group_10 10 = true
  /\ PermissionUtils.checkPhotoPermission db_group_10 2 1 (JsStr "custom") (Some 10)
     = PermissionUtils.checkPhotoPermission db_group_10_deleted 2 1 (JsStr "custom") (Some 10)
  /\ Design.isSoftDeleted db_group_10_deleted 10 = true
  /\ Design.isActive db_group_10_deleted 10 = false
  /\ PermissionModel.getPermissionGroupById db_group_10_deleted 10 1 = None
  /\ PermissionUtils.checkPhotoPermission db_group_10_deleted 2 1 (JsStr "custom") (Some 10)
     = {| PermissionUtils.hasPermission := true;
          PermissionUtils.reason := "Custom group access" |}
  /\ ~ custom_rule_of_design db_group_10_deleted 2 1 (Some 10).
Proof.
  repeat split; try reflexivity.
  intros [H _]. specialize (H eq_refl). vm_compute in H. discriminate H.
Qed.

(** C6, amended.  For a viewer other than the owner, a [custom] photo is
    allowed iff the group id is set (not null, not 0), [access_permissions]
    has a row with that id and the owner as [user_id], and the first such
    row lists the viewer in [allowed_user_ids].  A missing group id is
    denied.  The group registry (its soft-delete flag and its member
    table) is not consulted. *)
Theorem custom_rule_of_code :
  forall (db : DB) (v o : Z) (g : option Z),
    v <> o ->
    (PermissionUtils.hasPermission
       (PermissionUtils.checkPhotoPermission db v o (JsStr "custom") g) = true
     <-> exists gid row allowed,
           g = Some gid /\ gid <> 0
           /\ hd_error (filter (fun r => (ap_id r =? gid) && (ap_user_id r =? o))
                               (access_permissions db)) = Some row
           /\ ap_allowed_user_ids row = Some allowed
           /\ In v allowed)
    /\ PermissionUtils.checkPhotoPermission db v o (JsStr "custom") None
       = {| PermissionUtils.hasPermission := false;
            PermissionUtils.reason := "Custom group ID required" |}
    /\ (forall gs seq ms,
          PermissionUtils.checkPhotoPermission (with_groups gs seq ms db) v o (JsStr "custom") g
          = PermissionUtils.checkPhotoPermission db v o (JsStr "custom") g).
Proof.
  intros db v o g Hne.
  assert (E : (v =? o) = false) by now apply Z.eqb_neq.
  unfold PermissionUtils.checkPhotoPermission. rewrite E. simpl.
  split; [| split; reflexivity].
  destruct g as [gid|]; simpl.
  - destruct (gid =? 0) eqn:E0; simpl.
    + split; [discriminate|]. intros (gid' & row & allowed & Hg & Hz & _).
      injection Hg as <-. apply Z.eqb_eq in E0. contradiction.
    + apply Z.eqb_neq in E0.
      assert (Hf : filter (fun r => (gid =? ap_id r) && (ap_user_id r =? o))
                          (access_permissions db)
                   = filter (fun r => (ap_id r =? gid) && (ap_user_id r =? o))
                            (access_permissions db)).
      { apply filter_ext. intro r. now rewrite (Z.eqb_sym gid). }
      rewrite Hf. clear Hf.
      destruct (filter _ (access_permissions db)) as [|row rest] eqn:Ef; simpl.
      * split; [discriminate|]. intros (gid' & row & allowed & Hg & _ & Hhd & _).
        injection Hg as <-. rewrite Ef in Hhd. discriminate Hhd.
      * unfold includes. rewrite existsb_exists. split.
        -- intros (x & Hx & Hv). apply Z.eqb_eq in Hv. subst x.
           destruct (ap_allowed_user_ids row) as [l|] eqn:El; [|contradiction].
           exists gid, row, l. rewrite Ef. repeat split; auto.
        -- intros (gid' & row' & allowed & Hg & _ & Hhd & Hal & Hin).
           injection Hg as <-. rewrite Ef in Hhd. injection Hhd as <-. rewrite Hal.
           exists v. split; [exact Hin | apply Z.eqb_refl].
  - split; [discriminate|]. intros (gid' & _ & _ & Hg & _). discriminate Hg.
Qed.

(** The amended rule at work on the store above. *)
Lemma custom_rule_of_code_witness :
  PermissionUtils.hasPermission
    (PermissionUtils.checkPhotoPermission db_group_10_deleted 2 1 (JsStr "custom") (Some 10))
  = true
  <-> exists gid row allowed,
        Some 10 = Some gid /\ gid <> 0
        /\ hd_error (filter (fun r => (ap_id r =? gid) && (ap_user_id r =? 1))
                            (access_permissions db_group_10_deleted)) = Some row
        /\ ap_allowed_user_ids row = Some allowed
        /\ In 2 allowed.
Proof.
  refine (proj1 (custom_rule_of_code db_group_10_deleted 2 1 (Some 10) _)). lia.
Defined.

(** *** Share grants and photos *)

(** C1, as stated, fails: user 2 holds an effective grant from owner 1
    for photo 7, is not a friend, and is denied the [friends] photo. *)
Lemma shared_grant_not_consulted_counterexample :
  Design.effective_photo_grant db_shared_photo 100 1 2 7 = true
  /\ PermissionUtils.areFriends db_shared_photo 2 1 = false
  /\ PermissionUtils.checkPhotoPermission db_shared_photo 2 1 (JsStr "friends") None
     = {| PermissionUtils.hasPermission := false;
          PermissionUtils.reason := "Not friends" |}
  /\ PhotoService.getPhotoById db_shared_photo 7 2
     = Throw "Access denied: Not friends".
Proof. repeat split; reflexivity. Qed.

(** An effective share of the album itself lets a viewer other than the
    owner in, before the privacy type of the album is looked at. *)
Lemma album_share_grant_allows (db : DB) (now v albumId : Z) (alb : Album) :
  PermissionUtils.album (PermissionUtils.checkAlbumPermission db now v albumId) = Some alb ->
  a_user_id alb <> v ->
  (exists s, In s (photo_shares db)
             /\ ps_shared_by s = a_user_id alb /\ ps_shared_with s = v
             /\ ps_album_id s = Some albumId
             /\ Design.effective now (ps_is_active s) (ps_expires_at s) = true) ->
  PermissionUtils.checkAlbumPermission db now v albumId
  = {| PermissionUtils.album_hasPermission := true;
       PermissionUtils.album_reason := "Shared access";
       PermissionUtils.album := Some alb |}.
Proof.
  unfold PermissionUtils.checkAlbumPermission.
  destruct (flat_map _ _) as [|a rest]; simpl; [discriminate|].
  intros Halb Hne (s & Hin & Hby & Hwith & Halbum & Heff).
  assert (Ha : a = alb).
  { destruct (a_user_id a =? v); simpl in Halb; [congruence|].
    destruct (0 <? _); simpl in Halb; [congruence|].
    repeat (destruct (strict_eq _ _); simpl in Halb; try congruence). }
  subst a. rewrite (proj2 (Z.eqb_neq _ _) Hne).
  assert (Hshare :
    (0 <? Z.of_nat (List.length
       (filter (fun s =>
          (ps_shared_by s =? a_user_id alb) && (ps_shared_with s =? v)
          && col_eq (ps_album_id s) albumId && ps_is_active s
          && unexpired now (ps_expires_at s)) (photo_shares db)))) = true).
  { apply some_row_iff. exists s. split; [exact Hin|].
    unfold Design.effective in Heff. apply andb_true_iff in Heff.
    destruct Heff as [Hact Hexp].
    rewrite Hby, Hwith, Halbum, Hact, Hexp. simpl.
    now rewrite !Z.eqb_refl. }
  rewrite Hshare. reflexivity.
Qed.

(** C1, amended.  Photo access resolution does not consult share grants:
    its result, and that of [getPhotoById] built on it, is the same
    whatever the share tables hold.  A viewer other than the owner who is
    not a friend is denied a [friends] photo with reason "Not friends",
    whatever grants there are. *)
Theorem photo_resolution_ignores_share_grants :
  forall (db : DB) (ps : list PhotoShare) (als : list AlbumShare)
         (v o : Z) (permissionType : JsVal) (g : option Z),
    PermissionUtils.checkPhotoPermission (with_shares ps als db) v o permissionType g
    = PermissionUtils.checkPhotoPermission db v o permissionType g
    /\ (forall photoId,
          PhotoService.getPhotoById (with_shares ps als db) photoId v
          = PhotoService.getPhotoById db photoId v)
    /\ (v <> o ->
        PermissionUtils.areFriends db v o = false ->
        PermissionUtils.checkPhotoPermission (with_shares ps als db) v o (JsStr "friends") g
        = {| PermissionUtils.hasPermission := false;
             PermissionUtils.reason := "Not friends" |}).
Proof.
  intros db ps als v o permissionType g.
  split; [reflexivity | split; [reflexivity |]].
  intros Hne Hnf. unfold PermissionUtils.checkPhotoPermission.
  rewrite (proj2 (Z.eqb_neq _ _) Hne). simpl.
  change (PermissionUtils.areFriends (with_shares ps als db) v o)
    with (PermissionUtils.areFriends db v o).
  now rewrite Hnf.
Qed.

Lemma photo_resolution_ignores_share_grants_witness :
  PermissionUtils.checkPhotoPermission
    (with_shares (photo_shares db_shared_photo) [] db_shared_photo) 2 1
    (JsStr "friends") None
  = {| PermissionUtils.hasPermission := false;
       PermissionUtils.reason := "Not friends" |}.
Proof.
  refine (proj2 (proj2 (photo_resolution_ignores_share_grants db_shared_photo
                          (photo_shares db_shared_photo) [] 2 1
                          (JsStr "friends") None)) _ _).
  - lia.
  - reflexivity.
Defined.

(** *** Photos in albums *)

(** C2, as stated, fails: the album path allows user 2, and reading the
    photo is refused all the same. *)
Lemma album_path_not_consulted_counterexample :
  In {| alp_album_id := 3; alp_photo_id := 7 |} (album_photos db_public_album)
  /\ PermissionUtils.album_hasPermission
       (PermissionUtils.checkAlbumPermission db_public_album 100 2 3) = true
  /\ PermissionUtils.areFriends db_public_album 2 1 = false
  /\ PhotoService.getPhotoById db_public_album 7 2
     = Throw "Access denied: Not friends".
Proof. repeat split; try reflexivity. now left. Qed.

(** C2, amended.  Reading a photo is decided by the photo's own policy
    alone: the result of [getPhotoById] is the same whatever albums there
    are and whatever they contain.  A [friends] photo is refused to a
    viewer who is neither its owner nor a friend of the owner, with
    "Access denied: Not friends", also when a public album of the same
    owner contains it. *)
Theorem photo_read_ignores_albums :
  forall (db : DB) (al : list Album) (alp : list AlbumPhoto) (photoId v : Z),
    PhotoService.getPhotoById (with_albums al alp db) photoId v
    = PhotoService.getPhotoById db photoId v
    /\ (forall photo,
          PhotoModel.findById db photoId = Some photo ->
          p_permission_type photo = Some "friends"%string ->
          p_user_id photo <> v ->
          PermissionUtils.areFriends db v (p_user_id photo) = false ->
          PhotoService.getPhotoById (with_albums al alp db) photoId v
          = Throw "Access denied: Not friends").
Proof.
  intros db al alp photoId v. split; [reflexivity|].
  intros photo Hfind Hpol Hne Hnf.
  change (PhotoService.getPhotoById (with_albums al alp db) photoId v)
    with (PhotoService.getPhotoById db photoId v).
  unfold PhotoService.getPhotoById. rewrite Hfind.
  unfold PermissionUtils.checkPhotoPermission.
  assert (E : (v =? p_user_id photo) = false) by (apply Z.eqb_neq; congruence).
  rewrite E, Hpol. simpl. now rewrite Hnf.
Qed.

Lemma photo_read_ignores_albums_witness :
  PhotoService.getPhotoById
    (with_albums (albums db_public_album) (album_photos db_public_album) db_public_album) 7 2
  = Throw "Access denied: Not friends".
Proof.
  refine (proj2 (photo_read_ignores_albums db_public_album
                   (albums db_public_album) (album_photos db_public_album) 7 2)
                {| p_id := 7; p_user_id := 1; p_filename := "p.jpg";
                   p_permission_type := Some "friends"%string;
                   p_custom_group_id := None; p_is_deleted := false |} _ _ _ _).
  - reflexivity.
  - reflexivity.
  - simpl. lia.
  - reflexivity.
Defined.

(* ===================================================================== *)
(** ** Shares: who may revoke and reactivate *)
(* ===================================================================== *)

Lemma hd_error_In {A : Type} (l : list A) (x : A) :
  hd_error l = Some x -> In x l.
Proof. destruct l; simpl; [discriminate|]. intros [= ->]. now left. Qed.

(** A row that [getShareById] returns names the sharer [shared_by]; it has
    no property [sharer_id]. *)
Lemma getShareById_row (db : DB) (shareId : Z) (row : JsObj) :
  SharingModel.getShareById db shareId = Some row ->
  prop row "sharer_id" = JsUndefined
  /\ exists sharer, prop row "shared_by" = JsNum sharer.
Proof.
  unfold SharingModel.getShareById.
  match goal with
  | |- match ?l with _ => _ end = _ -> _ => destruct l as [|row0 rest] eqn:E
  end.
  - intro H. apply hd_error_In in H.
    apply in_flat_map in H. destruct H as (s & _ & H).
    apply in_flat_map in H. destruct H as (sharer & _ & H).
    apply in_flat_map in H. destruct H as (recipient & _ & H).
    apply in_map_iff in H. destruct H as (name & <- & _).
    split; [reflexivity | eexists; reflexivity].
  - intros [= <-].
    assert (H : In row0 (row0 :: rest)) by now left.
    rewrite <- E in H.
    apply in_flat_map in H. destruct H as (s & _ & H).
    apply in_flat_map in H. destruct H as (sharer & _ & H).
    apply in_flat_map in H. destruct H as (recipient & _ & H).
    apply in_map_iff in H. destruct H as (name & <- & _).
    split; [reflexivity | eexists; reflexivity].
Qed.

(** Whoever asks, [updateShare] throws and leaves the store as it is:
    the check reads [share.sharer_id], which is [undefined] and so differs
    from every user id. *)
Lemma updateShare_always_throws (db : DB) (shareId userId : Z) (updateData : JsObj) :
  SharingService.updateShare shareId userId updateData db
  = match SharingModel.getShareById db shareId with
    | None => (Throw "Share not found", db)
    | Some _ => (Throw "Only the sharer can modify this share", db)
    end.
Proof.
  unfold SharingService.updateShare, bind, query.
  destruct (SharingModel.getShareById db shareId) as [row|] eqn:E; [|reflexivity].
  destruct (getShareById_row _ _ _ E) as [-> _]. reflexivity.
Qed.

(** Deleting goes through the same check and fails the same way. *)
Lemma deleteShare_always_throws (db : DB) (shareId userId : Z) :
  SharingService.deleteShare shareId userId db
  = match SharingModel.getShareById db shareId with
    | None => (Throw "Share not found", db)
    | Some _ => (Throw "Only the sharer can delete this share", db)
    end.
Proof.
  unfold SharingService.deleteShare, bind, query.
  destruct (SharingModel.getShareById db shareId) as [row|] eqn:E; [|reflexivity].
  destruct (getShareById_row _ _ _ E) as [-> _]. reflexivity.
Qed.

(** C4 on the code: the sharer of share 1 is user 1, and user 1 can
    neither revoke nor reactivate it: both calls throw the error meant
    for other users, and the share stays as it was. *)
Lemma sharer_cannot_revoke_own_share :
  option_map (fun row => prop row "shared_by") (SharingModel.getShareById db_one_share 1)
  = Some (JsNum 1)
  /\ SharingService.revokeShare 1 1 db_one_share
     = (Throw "Only the sharer can modify this share", db_one_share)
  /\ SharingService.reactivateShare 1 1 db_one_share
     = (Throw "Only the sharer can modify this share", db_one_share)
  /\ SharingService.revokeShare 1 2 db_one_share
     = (Throw "Only the sharer can modify this share", db_one_share).
Proof. repeat split; reflexivity. Qed.

(* ===================================================================== *)
(** ** Shares: expiry *)
(* ===================================================================== *)

Lemma insert_desc_In {A : Type} (key : A -> Z) (x y : A) (l : list A) :
  In x (insert_desc key y l) -> x = y \/ In x l.
Proof.
  induction l as [|z l IH]; simpl.
  - intros [<- | []]. now left.
  - destruct (key z <? key y); simpl.
    + intros [<- | H]; [now left | now right].
    + intros [<- | H]; [right; now left |].
      destruct (IH H) as [-> | H']; [now left | right; now right].
Qed.

Lemma order_by_desc_In {A : Type} (key : A -> Z) (x : A) (l : list A) :
  In x (order_by_desc key l) -> In x l.
Proof.
  unfold order_by_desc.
  assert (G : forall acc, In x (fold_left (fun acc y => insert_desc key y acc) l acc)
                          -> In x acc \/ In x l).
  { induction l as [|y l IH]; simpl; intros acc H; [now left|].
    destruct (IH _ H) as [H' | H']; [|right; now right].
    destruct (insert_desc_In _ _ _ _ H') as [-> | H'']; [right; now left | now left]. }
  intro H. destruct (G [] H) as [[] | H']. exact H'.
Qed.

Lemma firstn_In_incl {A : Type} (n : nat) (l : list A) (x : A) :
  In x (firstn n l) -> In x l.
Proof.
  revert l. induction n as [|n IH]; intros [|y l]; simpl; try contradiction.
  intros [<- | H]; [now left | right; now apply IH].
Qed.

Lemma skipn_In_incl {A : Type} (n : nat) (l : list A) (x : A) :
  In x (skipn n l) -> In x l.
Proof.
  revert l. induction n as [|n IH]; intros [|y l]; simpl; auto.
Qed.

Lemma limit_offset_In {A : Type} (limit offset : Z) (l rows : list A) (x : A) :
  limit_offset limit offset l = Ok rows -> In x rows -> In x l.
Proof.
  unfold limit_offset.
  destruct (limit <? 0); [discriminate|].
  destruct (offset <? 0); [discriminate|].
  intros [= <-] H. eapply skipn_In_incl, firstn_In_incl, H.
Qed.

Lemma limit_offset_total {A : Type} (limit offset : Z) (l : list A) :
  0 <= limit -> 0 <= offset -> exists rows, limit_offset limit offset l = Ok rows.
Proof.
  intros Hl Ho. unfold limit_offset.
  rewrite (proj2 (Z.ltb_ge _ _) Hl), (proj2 (Z.ltb_ge _ _) Ho).
  eexists; reflexivity.
Qed.

(** Every row of the photo half of an active-share query comes from a
    share that is active and unexpired. *)
Lemma photoSharesQuery_active (db : DB) (now : Z) (given : bool) (userId : Z)
      (c : Z) (r : JsObj) :
  In (c, r) (SharingModel.photoSharesQuery db now given "active" userId) ->
  exists s extra, In s (photo_shares db)
                  /\ r = SharingModel.photo_share_columns s ++ extra
                  /\ ps_is_active s = true
                  /\ unexpired now (ps_expires_at s) = true.
Proof.
  unfold SharingModel.photoSharesQuery. intro H.
  apply in_flat_map in H. destruct H as (s & Hs & H).
  apply in_flat_map in H. destruct H as (u & _ & H).
  apply in_map_iff in H. destruct H as (name & [= _ <-] & _).
  apply filter_In in Hs. destruct Hs as [Hin Hw].
  unfold SharingModel.status_where in Hw. simpl in Hw.
  apply andb_true_iff in Hw. destruct Hw as [_ Hw].
  apply andb_true_iff in Hw. destruct Hw as [Ha He].
  eexists s, _. repeat split; eauto.
Qed.

Lemma albumSharesQuery_active (db : DB) (now : Z) (given : bool) (userId : Z)
      (c : Z) (r : JsObj) :
  In (c, r) (SharingModel.albumSharesQuery db now given "active" userId) ->
  exists s extra, In s (album_shares db)
                  /\ r = SharingModel.album_share_columns s ++ extra
                  /\ als_is_active s = true
                  /\ unexpired now (als_expires_at s) = true.
Proof.
  unfold SharingModel.albumSharesQuery. intro H.
  apply in_flat_map in H. destruct H as (s & Hs & H).
  apply in_flat_map in H. destruct H as (u & _ & H).
  apply in_map_iff in H. destruct H as (name & [= _ <-] & _).
  apply filter_In in Hs. destruct Hs as [Hin Hw].
  unfold SharingModel.status_where in Hw. simpl in Hw.
  apply andb_true_iff in Hw. destruct Hw as [_ Hw].
  apply andb_true_iff in Hw. destruct Hw as [Ha He].
  eexists s, _. repeat split; eauto.
Qed.

Lemma photo_row_effective (now : Z) (s : PhotoShare) (extra : JsObj) :
  row_effective now (SharingModel.photo_share_columns s ++ extra)
  = ps_is_active s && unexpired now (ps_expires_at s).
Proof.
  unfold row_effective. simpl.
  destruct (ps_is_active s), (ps_expires_at s); reflexivity.
Qed.

Lemma album_row_effective (now : Z) (s : AlbumShare) (extra : JsObj) :
  row_effective now (SharingModel.album_share_columns s ++ extra)
  = als_is_active s && unexpired now (als_expires_at s).
Proof.
  unfold row_effective. simpl.
  destruct (als_is_active s), (als_expires_at s); reflexivity.
Qed.

(** The rows of an active-share query are effective, all of them. *)
Lemma getSharesByUser_active_effective (db : DB) (now userId : Z) (type : string)
      (page limit : Z) (shareType : option string) (rows : list JsObj) :
  SharingModel.getSharesByUser db now userId type page limit "active" shareType = Ok rows ->
  Forall (fun r => row_effective now r = true) rows.
Proof.
  unfold SharingModel.getSharesByUser.
  destruct (limit_offset _ _ _) as [paged|] eqn:E; [|discriminate].
  intros [= <-]. apply Forall_forall. intros r Hr.
  apply in_map_iff in Hr. destruct Hr as ([c r'] & Hsnd & Hin). simpl in Hsnd. subst r'.
  eapply limit_offset_In in Hin; [|exact E].
  apply order_by_desc_In in Hin.
  assert (H : In (c, r) (SharingModel.photoSharesQuery db now (String.eqb type "given") "active" userId)
              \/ In (c, r) (SharingModel.albumSharesQuery db now (String.eqb type "given") "active" userId)).
  { destruct (truthy (of_text shareType)); [|now apply in_app_or].
    destruct (strict_eq (of_text shareType) (JsStr "individual_photo")); [now left|].
    destruct (strict_eq (of_text shareType) (JsStr "album")); [now right|].
    now apply in_app_or. }
  destruct H as [H | H].
  - apply photoSharesQuery_active in H.
    destruct H as (s & extra & _ & -> & Ha & He).
    rewrite photo_row_effective, Ha, He. reflexivity.
  - apply albumSharesQuery_active in H.
    destruct H as (s & extra & _ & -> & Ha & He).
    rewrite album_row_effective, Ha, He. reflexivity.
Qed.

Lemma filter_of_filter {A : Type} (p q : A -> bool) (l : list A) :
  (forall x, p x = true -> q x = true) ->
  filter p (filter q l) = filter p l.
Proof.
  intro H. induction l as [|x l IH]; simpl; [reflexivity|].
  destruct (q x) eqn:Eq; simpl.
  - now rewrite IH.
  - destruct (p x) eqn:Ep; [|exact IH].
    rewrite (H x Ep) in Eq. discriminate.
Qed.

(** The album check does not see expired shares. *)
Lemma checkAlbumPermission_unexpired_only (db : DB) (now v albumId : Z) :
  PermissionUtils.checkAlbumPermission db now v albumId
  = PermissionUtils.checkAlbumPermission (unexpired_only now db) now v albumId.
Proof.
  unfold PermissionUtils.checkAlbumPermission, unexpired_only. simpl.
  destruct (flat_map _ _) as [|alb rest]; [reflexivity|].
  destruct (a_user_id alb =? v); [reflexivity|].
  change (PermissionUtils.areFriends (with_shares _ _ db)) with (PermissionUtils.areFriends db).
  rewrite filter_of_filter; [reflexivity|].
  intros s H. now apply andb_true_iff in H.
Qed.

(** Setting [is_active], which is all that revoking and reactivating do
    in the model, leaves the expiry of every share as it was. *)
Lemma updateShare_isActive_keeps_expiries (db : DB) (shareId : Z) (b : bool) :
  expiries (snd (SharingModel.updateShare shareId [("isActive"%string, JsBool b)] db))
  = expiries db.
Proof.
  unfold SharingModel.updateShare. simpl.
  assert (Hp : forall l,
    map (fun s => (ps_id s, ps_expires_at s))
        (SharingModel.update_rows SharingModel.set_photo_share ps_id
           [("is_active"%string, JsBool b)] shareId l)
    = map (fun s => (ps_id s, ps_expires_at s)) l).
  { intro l. unfold SharingModel.update_rows. rewrite map_map.
    apply map_ext. intro s. destruct (ps_id s =? shareId); reflexivity. }
  assert (Ha : forall l,
    map (fun s => (als_id s, als_expires_at s))
        (SharingModel.update_rows SharingModel.set_album_share als_id
           [("is_active"%string, JsBool b)] shareId l)
    = map (fun s => (als_id s, als_expires_at s)) l).
  { intro l. unfold SharingModel.update_rows. rewrite map_map.
    apply map_ext. intro s. destruct (als_id s =? shareId); reflexivity. }
  destruct (filter _ _); unfold expiries; simpl; now rewrite ?Hp, ?Ha.
Qed.

(** C5. A share whose [expires_at] is not later than [now] is never
    effective, active or not: an active-share query returns (it does, for
    a page from 1 and a limit from 0) only effective rows, so none that is
    the row of such a share; the share check of the album check does not
    see such shares; and reactivating, in the service as in the model
    below it, leaves the expiry of every share as it was. *)
Theorem expired_share_is_never_effective :
  forall (db : DB) (now : Z),
    (forall userId type page limit shareType,
        1 <= page -> 0 <= limit ->
        exists rows,
          SharingModel.getSharesByUser db now userId type page limit "active" shareType
          = Ok rows
          /\ Forall (fun r => row_effective now r = true) rows
          /\ (forall s t extra,
                ps_expires_at s = Some t -> t <= now ->
                ~ In (SharingModel.photo_share_columns s ++ extra) rows)
          /\ (forall s t extra,
                als_expires_at s = Some t -> t <= now ->
                ~ In (SharingModel.album_share_columns s ++ extra) rows))
    /\ (forall v albumId,
          PermissionUtils.checkAlbumPermission db now v albumId
          = PermissionUtils.checkAlbumPermission (unexpired_only now db) now v albumId)
    /\ (forall shareId userId,
          expiries (snd (SharingService.reactivateShare shareId userId db)) = expiries db)
    /\ (forall shareId,
          expiries (snd (SharingModel.updateShare shareId
                           [("isActive"%string, JsBool true)] db)) = expiries db).
Proof.
  intros db now. repeat apply conj.
  - intros userId type page limit shareType Hp Hl.
    assert (Hrows : exists rows,
      SharingModel.getSharesByUser db now userId type page limit "active" shareType = Ok rows).
    { unfold SharingModel.getSharesByUser.
      match goal with
      | |- context [limit_offset ?l ?o ?x] =>
          destruct (limit_offset_total l o x) as [paged ->]; [lia | nia |]
      end.
      eexists; reflexivity. }
    destruct Hrows as [rows Hrows]. exists rows.
    pose proof (getSharesByUser_active_effective _ _ _ _ _ _ _ _ Hrows) as Heff.
    rewrite Forall_forall in Heff.
    split; [exact Hrows | split; [now apply Forall_forall | split]].
    + intros s t extra Ht Hle Hin. apply Heff in Hin.
      rewrite photo_row_effective, Ht in Hin. simpl in Hin.
      apply andb_true_iff in Hin. destruct Hin as [_ Hin].
      apply Z.ltb_lt in Hin. lia.
    + intros s t extra Ht Hle Hin. apply Heff in Hin.
      rewrite album_row_effective, Ht in Hin. simpl in Hin.
      apply andb_true_iff in Hin. destruct Hin as [_ Hin].
      apply Z.ltb_lt in Hin. lia.
  - intros. apply checkAlbumPermission_unexpired_only.
  - intros shareId userId. unfold SharingService.reactivateShare.
    rewrite updateShare_always_throws.
    destruct (SharingModel.getShareById db shareId); reflexivity.
  - intro shareId. apply updateShare_isActive_keeps_expiries.
Qed.

(** The query on that store at time 100: it returns, and only share 2. *)
Lemma expired_share_is_never_effective_witness :
  exists rows,
    SharingModel.getSharesByUser db_expired_share 100 2 "received" 1 20 "active" None
    = Ok rows
    /\ Forall (fun r => row_effective 100 r = true) rows
    /\ map (fun r => prop r "id") rows = [JsNum 2].
Proof.
  destruct (proj1 (expired_share_is_never_effective db_expired_share 100)
              2 "received"%string 1 20 None) as (rows & Hrows & Heff & _).
  - lia.
  - lia.
  - exists rows. split; [exact Hrows | split; [exact Heff |]].
    vm_compute in Hrows. injection Hrows as <-. reflexivity.
Defined.

(* ===================================================================== *)
(** ** Permission groups *)
(* ===================================================================== *)


Lemma map_unchanged {A : Type} (p : A -> bool) (f : A -> A) (l : list A) :
  filter p l = [] -> map (fun x => if p x then f x else x) l = l.
Proof.
  induction l as [|x l IH]; simpl; [reflexivity|].
  destruct (p x); [discriminate|]. intro H. now rewrite IH.
Qed.

(** The lookup succeeds exactly when an active group of the caller has
    the id. *)
Lemma group_found_iff (db : DB) (g u : Z) :
  (exists group, PermissionModel.getPermissionGroupById db g u = Some group)
  <-> exists r, In r (permission_groups db)
                /\ pg_id r = g /\ pg_owner_id r = u /\ pg_is_active r = true.
Proof.
  unfold PermissionModel.getPermissionGroupById.
  destruct (filter _ (permission_groups db)) as [|r rest] eqn:E.
  - split; [intros [? H]; discriminate H|].
    intros (r & Hin & Hid & Hown & Hact).
    assert (Hr : In r []).
    { rewrite <- E. apply filter_In. split; [exact Hin|].
      rewrite Hid, Hown, Hact, !Z.eqb_refl. reflexivity. }
    destruct Hr.
  - split; [|intros _; eexists; reflexivity].
    intros _. assert (Hr : In r (r :: rest)) by now left.
    rewrite <- E in Hr. apply filter_In in Hr. destruct Hr as [Hin Hp].
    apply andb_true_iff in Hp. destruct Hp as [Hp Hact].
    apply andb_true_iff in Hp. destruct Hp as [Hid Hown].
    apply Z.eqb_eq in Hid, Hown. apply Bool.eqb_prop in Hact.
    exists r. auto.
Qed.

(** *** Creating a group with invalid members *)

Lemma includes_In (xs : list Z) (x : Z) : includes xs x = true <-> In x xs.
Proof.
  unfold includes. rewrite existsb_exists. split.
  - intros (y & Hy & E). apply Z.eqb_eq in E. now subst.
  - intro H. exists x. split; [exact H | apply Z.eqb_refl].
Qed.

Lemma nonempty_length {A : Type} (l : list A) (x : A) :
  In x l -> (Z.of_nat (List.length l) =? 0) = false /\ (0 <? Z.of_nat (List.length l)) = true.
Proof. destruct l; simpl; [contradiction|]. intros _. split; reflexivity. Qed.

(** A friend id that the validation query returns is a friend. *)
Lemma validated_friend_is_friend (db : DB) (owner : Z) (userIds : list Z) (id : Z) :
  In id (map (PermissionModel.friend_id owner)
          (filter (fun f =>
             (((f_requester_id f =? owner) && includes userIds (f_addressee_id f))
              || ((f_addressee_id f =? owner) && includes userIds (f_requester_id f)))
             && String.eqb (f_status f) "accepted")
             (friendships db))) ->
  PermissionUtils.areFriends db owner id = true.
Proof.
  intro H. apply in_map_iff in H. destruct H as (f & Hid & Hf).
  apply filter_In in Hf. destruct Hf as [Hin Hw].
  apply andb_true_iff in Hw. destruct Hw as [Hw Hs].
  apply areFriends_iff. exists f. split; [exact Hin|].
  split; [|now apply String.eqb_eq].
  unfold PermissionModel.friend_id in Hid. unfold FriendModel.between.
  destruct (f_requester_id f =? owner) eqn:Er; simpl in *.
  - subst id. now rewrite Z.eqb_refl.
  - apply andb_true_iff in Hw. destruct Hw as [Ha _].
    subst id. now rewrite Z.eqb_refl, Ha.
Qed.

(** A rejected id of the list makes the validation fail and is among the
    ids it reports. *)
Lemma validateFriendships_rejects (db : DB) (owner : Z) (userIds : list Z) (id : Z) :
  In id userIds ->
  rejected_member db owner id ->
  PermissionModel.valid (PermissionModel.validateFriendships db owner userIds) = false
  /\ In id (PermissionModel.invalidIds (PermissionModel.validateFriendships db owner userIds)).
Proof.
  intros Hin Hrej. unfold PermissionModel.validateFriendships.
  rewrite (proj1 (nonempty_length _ _ Hin)). simpl.
  set (existing := map u_id (filter (fun u => includes userIds (u_id u)) (users db))).
  set (friendIds := map (PermissionModel.friend_id owner) _).
  destruct (includes existing id) eqn:Eex.
  - (* the user exists, so it is not a friend *)
    assert (Hnf : PermissionUtils.areFriends db owner id = false).
    { destruct Hrej as [Hne | Hnf]; [|exact Hnf].
      apply includes_In in Eex. unfold existing in Eex.
      apply in_map_iff in Eex. destruct Eex as (u & Hu & Hf).
      apply filter_In in Hf. destruct Hf as [Hu_in _].
      unfold user_exists in Hne.
      assert (Ht : existsb (fun u => u_id u =? id) (users db) = true).
      { apply existsb_exists. exists u. split; [exact Hu_in | now apply Z.eqb_eq]. }
      congruence. }
    assert (Hnot : includes friendIds id = false).
    { destruct (includes friendIds id) eqn:Ef; [|reflexivity].
      apply includes_In in Ef. apply validated_friend_is_friend in Ef. congruence. }
    assert (Hmem : In id (filter (fun id => negb (includes friendIds id)) existing)).
    { apply filter_In. split; [now apply includes_In | now rewrite Hnot]. }
    split.
    + rewrite (proj1 (nonempty_length _ _ Hmem)). apply andb_false_r.
    + apply in_or_app. now right.
  - assert (Hmem : In id (filter (fun id => negb (includes existing id)) userIds)).
    { apply filter_In. split; [exact Hin | now rewrite Eex]. }
    split.
    + rewrite (proj1 (nonempty_length _ _ Hmem)). reflexivity.
    + apply in_or_app. now left.
Qed.




(** With friends only in the list the group is written, its members the
    friends that the validation query returned, before the call ends in
    the same TypeError. *)
Lemma valid_members_create_group :
  PermissionService.createPermissionGroup 100 1 (family_group [2]) db_three_users
  = (Throw not_a_function,
     with_groups
       [ {| pg_id := 1; pg_owner_id := 1; pg_name := "family";
            pg_description := None; pg_is_active := true |} ]
       2
       [ {| pgm_group_id := 1; pgm_user_id := 2; pgm_added_at := 100 |} ]
       db_three_users).
Proof. reflexivity. Qed.

(* ===================================================================== *)
(** ** Friendships: a declined request stays declined *)
(* ===================================================================== *)

Lemma joined_row_In {A : Type} (db : DB) (p : Friendship -> bool)
      (k : Friendship -> list A) (f : Friendship) (u : A)
      (pair : Friendship -> A -> Friendship * A) :
  (forall x y, pair x y = (x, y)) ->
  hd_error (flat_map (fun f => map (pair f) (k f)) (filter p (friendships db)))
  = Some (f, u) ->
  In f (friendships db) /\ p f = true.
Proof.
  intros Hpair H. apply hd_error_In in H.
  apply in_flat_map in H. destruct H as (f' & Hf & H).
  apply in_map_iff in H. destruct H as (u' & E & _).
  rewrite Hpair in E. injection E as -> ->.
  now apply filter_In in Hf.
Qed.

Lemma step_effect (op : FriendService.Op) (db : DB) :
  effect db (FriendService.step op db).
Proof.
  destruct op as [r t | u q action | u fid action | u [fid|]]; simpl.
  - (* sendFriendRequest *)
    unfold FriendService.sendFriendRequest.
    destruct (r =? t); [constructor|].
    unfold bind, query, throw, ret. simpl.
    destruct (UserModel.findById db t); [|constructor].
    unfold FriendModel.checkFriendshipExists.
    destruct (filter (FriendModel.between r t) (friendships db)) eqn:E; simpl;
      [|constructor].
    now apply effect_insert.
  - (* respondToFriendRequest *)
    unfold FriendService.respondToFriendRequest.
    destruct (negb (FriendService.valid_action action)); [constructor|].
    unfold bind, query, throw, ret. simpl.
    destruct (FriendModel.getFriendRequestById db q u) as [[f requester]|] eqn:E;
      [|constructor].
    destruct (negb (String.eqb (f_status f) "pending")) eqn:Es; [constructor|].
    apply negb_false_iff, String.eqb_eq in Es.
    unfold FriendModel.getFriendRequestById in E.
    apply (joined_row_In db _ _ f requester (fun f u => (f, u))) in E; [|reflexivity].
    destruct E as [Hin Hp]. apply andb_true_iff in Hp. destruct Hp as [Hid _].
    apply Z.eqb_eq in Hid. simpl. subst q. now apply effect_update.
  - (* respondToFriendRequestByUserId *)
    unfold FriendService.respondToFriendRequestByUserId.
    destruct (negb (FriendService.valid_action action)); [constructor|].
    unfold bind, query, throw, ret. simpl.
    destruct (FriendModel.findPendingRequestBetweenUsers db fid u)
      as [[f requester]|] eqn:E; [|constructor].
    unfold FriendModel.findPendingRequestBetweenUsers in E.
    apply (joined_row_In db _ _ f requester (fun f u => (f, u))) in E; [|reflexivity].
    destruct E as [Hin Hp]. apply andb_true_iff in Hp. destruct Hp as [_ Hs].
    apply String.eqb_eq in Hs. simpl. now apply effect_update.
  - (* removeFriend *)
    unfold FriendService.removeFriend, bind, query, throw, ret. simpl.
    destruct (FriendModel.getFriendshipByUsers db u fid) as [[f friend]|] eqn:E;
      [|constructor].
    unfold FriendModel.getFriendshipByUsers in E.
    apply (joined_row_In db _ _ f friend (fun f u => (f, u))) in E; [|reflexivity].
    destruct E as [Hin Hp]. apply andb_true_iff in Hp. destruct Hp as [_ Hs].
    apply String.eqb_eq in Hs. simpl. now apply effect_delete.
  - constructor.
Qed.

Lemma unique_by_id {A : Type} (id : A -> Z) (l : list A) (x y : A) :
  NoDup (map id l) -> In x l -> In y l -> id x = id y -> x = y.
Proof.
  induction l as [|a l IH]; simpl; [contradiction|].
  intros Hnd Hx Hy E. inversion Hnd as [|? ? Hnotin Hnd']; subst.
  destruct Hx as [-> | Hx], Hy as [-> | Hy]; auto.
  - exfalso. apply Hnotin. rewrite E. now apply in_map.
  - exfalso. apply Hnotin. rewrite <- E. now apply in_map.
Qed.

Lemma NoDup_map_filter {A : Type} (id : A -> Z) (p : A -> bool) (l : list A) :
  NoDup (map id l) -> NoDup (map id (filter p l)).
Proof.
  induction l as [|a l IH]; simpl; [auto|].
  intro Hnd. inversion Hnd as [|? ? Hnotin Hnd']; subst.
  destruct (p a); simpl; [|auto].
  constructor; [|auto].
  intro H. apply Hnotin. apply in_map_iff in H. destruct H as (x & E & Hx).
  apply filter_In in Hx. apply in_map_iff. exists x. tauto.
Qed.

Lemma NoDup_snoc (l : list Z) (x : Z) :
  NoDup l -> ~ In x l -> NoDup (l ++ [x]).
Proof.
  induction l as [|a l IH]; simpl; intros Hnd Hx.
  - constructor; [intros [] | constructor].
  - inversion Hnd as [|? ? Hnotin Hnd']; subst. constructor.
    + intro H. apply in_app_or in H. destruct H as [H | [<- | []]]; tauto.
    + apply IH; tauto.
Qed.

Lemma between_iff (a b : Z) (f : Friendship) :
  FriendModel.between a b f = true
  <-> (f_requester_id f = a /\ f_addressee_id f = b)
      \/ (f_requester_id f = b /\ f_addressee_id f = a).
Proof.
  unfold FriendModel.between.
  rewrite orb_true_iff, !andb_true_iff, !Z.eqb_eq. reflexivity.
Qed.

Lemma between_sym (a b : Z) (f : Friendship) :
  FriendModel.between a b f = FriendModel.between b a f.
Proof. unfold FriendModel.between. apply orb_comm. Qed.

(** Two edges that both join [a] and [b] join the same pair. *)
Lemma between_same_pair (a b : Z) (f1 f2 : Friendship) :
  FriendModel.between a b f1 = true ->
  FriendModel.between a b f2 = true ->
  same_pair f1 f2 = true.
Proof.
  unfold same_pair. rewrite !between_iff. intuition congruence.
Qed.

Lemma same_pair_endpoints (f1 f1' f2 f2' : Friendship) :
  f_requester_id f1' = f_requester_id f1 -> f_addressee_id f1' = f_addressee_id f1 ->
  f_requester_id f2' = f_requester_id f2 -> f_addressee_id f2' = f_addressee_id f2 ->
  same_pair f1' f2' = same_pair f1 f2.
Proof.
  unfold same_pair, FriendModel.between. now intros -> -> -> ->.
Qed.

(** Whatever a call does to the table, the table stays well formed. *)
Lemma effect_keeps_wf (db db' : DB) :
  effect db db' -> wf_friendships db -> wf_friendships db'.
Proof.
  intros Heff (Hnd & Hseq & Hpair).
  destruct Heff as [| r t Hnone | f status Hf Hpending | f Hf Haccepted].
  - repeat split; auto.
  - (* a new request between two users that no edge joins *)
    assert (Hfree : forall x, In x (friendships db) -> FriendModel.between r t x = false).
    { intros x Hx. destruct (FriendModel.between r t x) eqn:E; [|reflexivity].
      assert (Hx' : In x []) by (rewrite <- Hnone; apply filter_In; auto).
      destruct Hx'. }
    unfold wf_friendships. simpl. repeat split.
    + rewrite map_app. simpl. apply NoDup_snoc; [exact Hnd|].
      intro H. apply in_map_iff in H.
      destruct H as (x & E & Hx). apply Hseq in Hx. lia.
    + intros x Hx. apply in_app_or in Hx. destruct Hx as [Hx | [<- | []]].
      * apply Hseq in Hx. lia.
      * simpl. lia.
    + intros f1 f2 H1 H2 Hsame.
      apply in_app_or in H1. apply in_app_or in H2.
      destruct H1 as [H1 | [<- | []]], H2 as [H2 | [<- | []]]; auto.
      * exfalso. pose proof (Hfree f1 H1) as Hno.
        assert (Ht : FriendModel.between r t f1 = true).
        { apply between_iff. apply between_iff in Hsame. simpl in Hsame.
          intuition congruence. }
        congruence.
      * exfalso. pose proof (Hfree f2 H2) as Hno.
        unfold same_pair in Hsame. simpl in Hsame. congruence.
  - (* a pending request answered: ids and end points stay *)
    set (g := fun x => if f_id x =? f_id f then FriendModel.set_status status x else x).
    assert (Hg_id : forall x, f_id (g x) = f_id x)
      by (intro x; unfold g; destruct (f_id x =? f_id f); reflexivity).
    assert (Hg_r : forall x, f_requester_id (g x) = f_requester_id x)
      by (intro x; unfold g; destruct (f_id x =? f_id f); reflexivity).
    assert (Hg_a : forall x, f_addressee_id (g x) = f_addressee_id x)
      by (intro x; unfold g; destruct (f_id x =? f_id f); reflexivity).
    unfold wf_friendships. simpl. repeat split.
    + rewrite map_map. erewrite map_ext; [exact Hnd | exact Hg_id].
    + intros x Hx. apply in_map_iff in Hx. destruct Hx as (x0 & <- & Hx0).
      rewrite Hg_id. auto.
    + intros f1 f2 H1 H2 Hsame.
      apply in_map_iff in H1. destruct H1 as (x1 & <- & H1).
      apply in_map_iff in H2. destruct H2 as (x2 & <- & H2).
      rewrite (same_pair_endpoints x1 (g x1) x2 (g x2)) in Hsame by auto.
      now rewrite (Hpair x1 x2 H1 H2 Hsame).
  - (* a friend removed *)
    unfold wf_friendships. simpl. repeat split.
    + now apply NoDup_map_filter.
    + intros x Hx. apply filter_In in Hx. now apply Hseq.
    + intros f1 f2 H1 H2. apply filter_In in H1. apply filter_In in H2.
      now apply Hpair.
Qed.

(** Whatever a call does to the table, a declined edge stays in it as
    it is: an update needs a pending edge with the id, a removal an
    accepted one, and the id is that of one edge only. *)
Lemma effect_keeps_declined (db db' : DB) (e : Friendship) :
  effect db db' ->
  wf_friendships db -> In e (friendships db) -> f_status e = "declined"%string ->
  In e (friendships db').
Proof.
  intros Heff (Hnd & _ & _) He Hdecl.
  destruct Heff as [| r t Hnone | f status Hf Hpending | f Hf Haccepted]; simpl.
  - exact He.
  - apply in_or_app. now left.
  - apply in_map_iff. exists e. split; [|exact He].
    destruct (f_id e =? f_id f) eqn:E; [|reflexivity].
    apply Z.eqb_eq in E.
    assert (e = f) by (eapply unique_by_id; eauto). subst f. congruence.
  - apply filter_In. split; [exact He|].
    destruct (f_id e =? f_id f) eqn:E; [|reflexivity].
    apply Z.eqb_eq in E.
    assert (e = f) by (eapply unique_by_id; eauto). subst f. congruence.
Qed.

(** The service keeps the table well formed. *)
Lemma wf_friendships_run (ops : list FriendService.Op) (db : DB) :
  wf_friendships db -> wf_friendships (FriendService.run ops db).
Proof.
  revert db. unfold FriendService.run.
  induction ops as [|op ops IH]; simpl; intros db Hwf; [auto|].
  apply IH. exact (effect_keeps_wf _ _ (step_effect op db) Hwf).
Qed.

Lemma run_keeps_declined (ops : list FriendService.Op) (db : DB) (e : Friendship) :
  wf_friendships db -> In e (friendships db) -> f_status e = "declined"%string ->
  In e (friendships (FriendService.run ops db)).
Proof.
  revert db. unfold FriendService.run.
  induction ops as [|op ops IH]; simpl; intros db Hwf He Hdecl; [auto|].
  apply IH; [| |exact Hdecl].
  - exact (effect_keeps_wf _ _ (step_effect op db) Hwf).
  - exact (effect_keeps_declined _ _ e (step_effect op db) Hwf He Hdecl).
Qed.

Lemma wf_friendships_empty : wf_friendships Db.empty.
Proof.
  unfold wf_friendships. simpl. repeat split; try contradiction. constructor.
Qed.

(** With a declined edge between them, two users are not friends, and a
    new request in either direction throws. *)
Lemma declined_means_not_friends (db : DB) (a b : Z) (e : Friendship) :
  wf_friendships db -> In e (friendships db) ->
  FriendModel.between a b e = true -> f_status e = "declined"%string ->
  PermissionUtils.areFriends db a b = false
  /\ FriendModel.areFriends db a b = false
  /\ FriendService.throws (FriendService.sendFriendRequest a b db) = true
  /\ FriendService.throws (FriendService.sendFriendRequest b a db) = true.
Proof.
  intros (Hnd & Hseq & Hpair) He Hab Hdecl.
  assert (Honly : forall f, In f (friendships db) ->
                            FriendModel.between a b f = true -> f = e).
  { intros f Hf Hb. symmetry. apply Hpair; auto.
    now apply (between_same_pair a b). }
  assert (Hex : exists f, FriendModel.checkFriendshipExists db a b = Some f).
  { unfold FriendModel.checkFriendshipExists.
    destruct (filter (FriendModel.between a b) (friendships db)) as [|f rest] eqn:E.
    - assert (H : In e []) by (rewrite <- E; apply filter_In; auto). destruct H.
    - eexists; reflexivity. }
  assert (Hex' : exists f, FriendModel.checkFriendshipExists db b a = Some f).
  { destruct Hex as [f Hf]. exists f. unfold FriendModel.checkFriendshipExists in *.
    erewrite filter_ext; [exact Hf|]. intro x. apply between_sym. }
  repeat apply conj.
  - unfold PermissionUtils.areFriends. apply no_row_iff. intros f Hf.
    destruct (FriendModel.between a b f) eqn:Eb.
    + rewrite (Honly f Hf Eb), Hdecl.
      change ((((f_requester_id e =? a) && (f_addressee_id e =? b))
               || ((f_requester_id e =? b) && (f_addressee_id e =? a)))
              && String.eqb "declined" "accepted" = false).
      apply andb_false_r.
    + unfold FriendModel.between in Eb. rewrite Eb. reflexivity.
  - unfold FriendModel.areFriends. destruct Hex as [f Hf]. rewrite Hf.
    unfold FriendModel.checkFriendshipExists in Hf. apply hd_error_In in Hf.
    apply filter_In in Hf. destruct Hf as [Hin Hb].
    rewrite (Honly f Hin Hb), Hdecl. reflexivity.
  - unfold FriendService.throws, FriendService.sendFriendRequest.
    destruct (a =? b); [reflexivity|].
    unfold bind, query, throw. simpl.
    destruct (UserModel.findById db b); [|reflexivity].
    destruct Hex as [f ->]. reflexivity.
  - unfold FriendService.throws, FriendService.sendFriendRequest.
    destruct (b =? a); [reflexivity|].
    unfold bind, query, throw. simpl.
    destruct (UserModel.findById db a); [|reflexivity].
    destruct Hex' as [f ->]. reflexivity.
Qed.

(** C10. Once the edge between two users is declined, no sequence of
    calls of the friend service makes them friends: after any such
    sequence the declined edge is still in the table as it was, the two
    are not friends (by either of the two friendship tests of the code),
    and a new request in either direction throws. *)
Theorem declined_is_absorbing :
  forall (db : DB) (a b : Z) (e : Friendship) (ops : list FriendService.Op),
    wf_friendships db ->
    In e (friendships db) ->
    FriendModel.between a b e = true ->
    f_status e = "declined"%string ->
    let db' := FriendService.run ops db in
    In e (friendships db')
    /\ PermissionUtils.areFriends db' a b = false
    /\ FriendModel.areFriends db' a b = false
    /\ FriendService.throws (FriendService.sendFriendRequest a b db') = true
    /\ FriendService.throws (FriendService.sendFriendRequest b a db') = true.
Proof.
  intros db a b e ops Hwf He Hab Hdecl db'.
  pose proof (run_keeps_declined ops db e Hwf He Hdecl) as He'.
  pose proof (wf_friendships_run ops db Hwf) as Hwf'.
  split; [exact He'|].
  now apply (declined_means_not_friends db' a b e).
Qed.

(** Every way back is tried on that store: new requests both ways,
    accepting by request id and by user id, removing both ways. *)
Lemma declined_is_absorbing_witness :
  let db' :=
    FriendService.run
      [ FriendService.SendFriendRequest 2 1;
        FriendService.SendFriendRequest 1 2;
        FriendService.RespondToFriendRequest 2 1 "accept";
        FriendService.RespondToFriendRequestByUserId 2 1 "accept";
        FriendService.RemoveFriend 1 (Some 2);
        FriendService.RemoveFriend 2 (Some 1) ]
      db_declined in
  In declined_edge (friendships db')
  /\ PermissionUtils.areFriends db' 1 2 = false
  /\ FriendModel.areFriends db' 1 2 = false
  /\ FriendService.throws (FriendService.sendFriendRequest 1 2 db') = true
  /\ FriendService.throws (FriendService.sendFriendRequest 2 1 db') = true.
Proof.
  apply (declined_is_absorbing db_declined 1 2 declined_edge).
  - apply wf_friendships_run. unfold wf_friendships. simpl.
    repeat split; try contradiction. constructor.
  - vm_compute. left. reflexivity.
  - reflexivity.
  - reflexivity.
Defined.


(* ===================================================================== *)
(** ** Further properties: photo and album access *)
(* ===================================================================== *)

Lemma areFriends_sym (db : DB) (a b : Z) :
  PermissionUtils.areFriends db a b = PermissionUtils.areFriends db b a.
Proof.
  unfold PermissionUtils.areFriends. f_equal. f_equal. f_equal.
  apply filter_ext. intro f. f_equal. apply orb_comm.
Qed.

(** X1. Friendship is symmetric, and so is the [friends] gate: the
    verdict for [a] on a [friends] or [close_friends] photo of [b] is the
    verdict for [b] on such a photo of [a], whatever group ids the two
    photos carry. *)
Theorem friends_gate_is_symmetric :
  forall (db : DB) (a b : Z) (g g' : option Z) (policy policy' : string),
    PermissionUtils.areFriends db a b = PermissionUtils.areFriends db b a
    /\ ((policy = "friends" \/ policy = "close_friends")%string ->
        (policy' = "friends" \/ policy' = "close_friends")%string ->
        PermissionUtils.hasPermission
          (PermissionUtils.checkPhotoPermission db a b (JsStr policy) g)
        = PermissionUtils.hasPermission
            (PermissionUtils.checkPhotoPermission db b a (JsStr policy') g')).
Proof.
  intros db a b g g' policy policy'. split; [apply areFriends_sym|].
  intros Hp Hp'. unfold PermissionUtils.checkPhotoPermission.
  rewrite (Z.eqb_sym b a).
  destruct (a =? b); [reflexivity|].
  destruct Hp as [-> | ->], Hp' as [-> | ->]; simpl; apply areFriends_sym.
Qed.

Lemma friends_gate_is_symmetric_witness :
  PermissionUtils.hasPermission
    (PermissionUtils.checkPhotoPermission db_three_users 1 2 (JsStr "friends") None)
  = PermissionUtils.hasPermission
      (PermissionUtils.checkPhotoPermission db_three_users 2 1 (JsStr "close_friends") (Some 4)).
Proof.
  refine (proj2 (friends_gate_is_symmetric db_three_users 1 2 None (Some 4)
                   "friends" "close_friends") _ _).
  - left. reflexivity.
  - right. reflexivity.
Defined.

(** X2. Photo access fails closed: for a viewer other than the owner, a
    policy value that is none of the four strings ([null], [undefined], a
    number, any other string) is denied with "Invalid permission type",
    whatever the group id and the store. *)
Theorem unknown_policy_is_denied :
  forall (db : DB) (v o : Z) (permissionType : JsVal) (g : option Z),
    v <> o ->
    (forall s, permissionType = JsStr s ->
               s <> "public" /\ s <> "friends" /\ s <> "close_friends" /\ s <> "custom")%string ->
    PermissionUtils.checkPhotoPermission db v o permissionType g
    = {| PermissionUtils.hasPermission := false;
         PermissionUtils.reason := "Invalid permission type" |}.
Proof.
  intros db v o pt g Hne Hpt. unfold PermissionUtils.checkPhotoPermission.
  rewrite (proj2 (Z.eqb_neq _ _) Hne).
  destruct pt as [| | b | n | s]; try reflexivity.
  destruct (Hpt s eq_refl) as (H1 & H2 & H3 & H4).
  apply String.eqb_neq in H1, H2, H3, H4. simpl.
  now rewrite H1, H2, H3, H4.
Qed.

Lemma unknown_policy_is_denied_witness :
  PermissionUtils.checkPhotoPermission db_three_users 2 1 (JsStr "private") (Some 4)
  = {| PermissionUtils.hasPermission := false;
       PermissionUtils.reason := "Invalid permission type" |}.
Proof.
  apply unknown_policy_is_denied.
  - lia.
  - intros s [= <-]. repeat split; discriminate.
Defined.

(** X3. The album check in full: a viewer is allowed iff the album is
    found and the viewer is its owner, or holds an effective share of it
    from the owner, or the album is [friends] and the viewer is a friend
    of the owner, or the album is [public].  A private album is open to
    its owner and to holders of an effective share only. *)
Theorem album_access_characterised :
  forall (db : DB) (now v albumId : Z),
    PermissionUtils.album_hasPermission
      (PermissionUtils.checkAlbumPermission db now v albumId) = true
    <-> exists alb,
          PermissionUtils.album (PermissionUtils.checkAlbumPermission db now v albumId)
          = Some alb
          /\ (a_user_id alb = v
              \/ (exists s, In s (photo_shares db)
                            /\ ps_shared_by s = a_user_id alb /\ ps_shared_with s = v
                            /\ ps_album_id s = Some albumId
                            /\ Design.effective now (ps_is_active s) (ps_expires_at s) = true)
              \/ (a_privacy_type alb = Some "friends"%string
                  /\ PermissionUtils.areFriends db v (a_user_id alb) = true)
              \/ a_privacy_type alb = Some "public"%string).
Proof.
  intros db now v albumId. unfold PermissionUtils.checkAlbumPermission.
  destruct (flat_map _ _) as [|alb rest]; simpl.
  { split; [discriminate | intros (alb & H & _); discriminate H]. }
  destruct (a_user_id alb =? v) eqn:Eo; simpl.
  { split; [|reflexivity]. intros _. exists alb. split; [reflexivity|].
    left. now apply Z.eqb_eq. }
  apply Z.eqb_neq in Eo.
  match goal with
  | |- context [0 <? Z.of_nat (List.length (filter ?p ?l))] =>
      destruct (0 <? Z.of_nat (List.length (filter p l))) eqn:Es
  end; simpl.
  { split; [|reflexivity]. intros _. exists alb. split; [reflexivity|].
    right; left. apply some_row_iff in Es. destruct Es as (s & Hin & Hp).
    repeat (apply andb_true_iff in Hp; destruct Hp as [Hp ?]).
    exists s. unfold Design.effective, col_eq in *.
    destruct (ps_album_id s) as [aid|]; [|discriminate].
    repeat match goal with H : (_ =? _) = true |- _ => apply Z.eqb_eq in H end.
    subst. repeat split; auto. apply andb_true_iff. auto. }
  assert (Hnoshare : ~ exists s, In s (photo_shares db)
                            /\ ps_shared_by s = a_user_id alb /\ ps_shared_with s = v
                            /\ ps_album_id s = Some albumId
                            /\ Design.effective now (ps_is_active s) (ps_expires_at s) = true).
  { intros (s & Hin & Hby & Hwith & Halb & Heff).
    rewrite no_row_iff in Es. specialize (Es s Hin).
    unfold Design.effective in Heff. apply andb_true_iff in Heff.
    destruct Heff as [Ha He].
    rewrite Hby, Hwith, Halb, Ha, He in Es. simpl in Es.
    rewrite !Z.eqb_refl in Es. discriminate Es. }
  destruct (a_privacy_type alb) as [pt|] eqn:Ept; simpl.
  - destruct (String.eqb pt "private") eqn:E1; simpl.
    { apply String.eqb_eq in E1. subst pt.
      split; [discriminate|]. intros (alb' & [= <-] & [H | [H | [[H _] | H]]]);
        try contradiction; try discriminate; rewrite Ept in H; discriminate. }
    destruct (String.eqb pt "friends") eqn:E2; simpl.
    { apply String.eqb_eq in E2. subst pt. split.
      - intro H. exists alb. split; [reflexivity|]. right; right; left. auto.
      - intros (alb' & [= <-] & [H | [H | [[_ H] | H]]]); try contradiction; auto.
        rewrite Ept in H. discriminate. }
    destruct (String.eqb pt "public") eqn:E3; simpl.
    { apply String.eqb_eq in E3. subst pt. split; [|reflexivity].
      intros _. exists alb. split; [reflexivity|]. right; right; right. exact Ept. }
    split; [discriminate|].
    apply String.eqb_neq in E2, E3.
    intros (alb' & [= <-] & [H | [H | [[H _] | H]]]); try contradiction;
      rewrite Ept in H; congruence.
  - split; [discriminate|].
    intros (alb' & [= <-] & [H | [H | [[H _] | H]]]); try contradiction;
      rewrite Ept in H; discriminate.
Qed.

(** X4. Share capabilities are ordered: whoever may comment may
    download, whoever may download may view, and a level that is none of
    [view], [download], [comment] gives nothing at all. *)
Theorem permission_levels_are_ordered :
  forall (permissionLevel : JsVal),
    let c := PermissionUtils.getPermissionLevel permissionLevel in
    implb (PermissionUtils.canComment c) (PermissionUtils.canDownload c) = true
    /\ implb (PermissionUtils.canDownload c) (PermissionUtils.canView c) = true
    /\ (PermissionUtils.canView c = true
        <-> permissionLevel = JsStr "view" \/ permissionLevel = JsStr "download"
            \/ permissionLevel = JsStr "comment").
Proof.
  intro pl. unfold PermissionUtils.getPermissionLevel.
  destruct pl as [| | b | n | s]; simpl;
    try (repeat split; try discriminate; intros [H | [H | H]]; discriminate H).
  destruct (String.eqb s "view") eqn:E1; simpl.
  { apply String.eqb_eq in E1. subst. repeat split; auto. }
  destruct (String.eqb s "download") eqn:E2; simpl.
  { apply String.eqb_eq in E2. subst. repeat split; auto. }
  destruct (String.eqb s "comment") eqn:E3; simpl.
  { apply String.eqb_eq in E3. subst. repeat split; auto. }
  apply String.eqb_neq in E1, E2, E3.
  repeat split; try discriminate. intros [H | [H | H]]; congruence.
Qed.

(** X5. One may share with another user iff the two are distinct and
    friends; never with oneself, whatever edges the store holds; and who
    may share with whom is symmetric. *)
Theorem canShareWith_characterised :
  forall (db : DB) (a b : Z),
    (PermissionUtils.canShare (PermissionUtils.canShareWith db a b) = true
     <-> a <> b /\ exists f, In f (friendships db)
                             /\ FriendModel.between a b f = true
                             /\ f_status f = "accepted"%string)
    /\ PermissionUtils.canShare (PermissionUtils.canShareWith db a a) = false
    /\ PermissionUtils.canShare (PermissionUtils.canShareWith db a b)
       = PermissionUtils.canShare (PermissionUtils.canShareWith db b a).
Proof.
  intros db a b. unfold PermissionUtils.canShareWith.
  rewrite Z.eqb_refl, (Z.eqb_sym b a). simpl.
  destruct (a =? b) eqn:E; simpl.
  - apply Z.eqb_eq in E. repeat split; try reflexivity; try discriminate.
    intros [H _]. contradiction.
  - apply Z.eqb_neq in E. repeat split.
    + exact E.
    + now apply areFriends_iff.
    + intros [_ H]. now apply areFriends_iff.
    + apply areFriends_sym.
Qed.

(** X6. The upload check and the resolver agree on custom groups: when
    the group of a [custom] photo is not a group of the photo's owner
    ([isCustomGroupOwner] says no), every viewer other than the owner is
    denied with "Custom group not found". *)
Theorem foreign_custom_group_denies :
  forall (db : DB) (v o gid : Z),
    v <> o -> gid <> 0 ->
    PhotoModel.isCustomGroupOwner db gid o = false ->
    PermissionUtils.checkPhotoPermission db v o (JsStr "custom") (Some gid)
    = {| PermissionUtils.hasPermission := false;
         PermissionUtils.reason := "Custom group not found" |}.
Proof.
  intros db v o gid Hne Hg Hown. unfold PermissionUtils.checkPhotoPermission.
  rewrite (proj2 (Z.eqb_neq _ _) Hne). simpl.
  rewrite (proj2 (Z.eqb_neq _ _) Hg). simpl.
  unfold PhotoModel.isCustomGroupOwner in Hown. rewrite no_row_iff in Hown.
  assert (E : filter (fun r => (gid =? ap_id r) && (ap_user_id r =? o))
                     (access_permissions db) = []).
  { destruct (filter _ (access_permissions db)) as [|r rest] eqn:E; [reflexivity|].
    assert (Hr : In r (r :: rest)) by now left.
    rewrite <- E in Hr. apply filter_In in Hr. destruct Hr as [Hin Hp].
    rewrite (Z.eqb_sym gid) in Hp. rewrite (Hown r Hin) in Hp. discriminate. }
  now rewrite E.
Qed.

(** User 3 is not in [access_permissions] at all: group 10 is user 1's. *)
Lemma foreign_custom_group_denies_witness :
  PermissionUtils.checkPhotoPermission db_group_10 2 3 (JsStr "custom") (Some 10)
  = {| PermissionUtils.hasPermission := false;
       PermissionUtils.reason := "Custom group not found" |}.
Proof.
  apply foreign_custom_group_denies.
  - lia.
  - lia.
  - reflexivity.
Defined.

Lemma findById_In (db : DB) (photoId : Z) (photo : Photo) :
  PhotoModel.findById db photoId = Some photo ->
  In photo (photos db) /\ p_id photo = photoId /\ p_is_deleted photo = false
  /\ exists u, In u (users db) /\ u_id u = p_user_id photo.
Proof.
  unfold PhotoModel.findById. intro H. apply hd_error_In in H.
  apply in_flat_map in H. destruct H as (p & Hp & H).
  apply in_map_iff in H. destruct H as (u & <- & Hu).
  apply filter_In in Hp. destruct Hp as [Hin Hc].
  apply andb_true_iff in Hc. destruct Hc as [Hid Hdel].
  apply filter_In in Hu. destruct Hu as [Hu Hue].
  apply Z.eqb_eq in Hid, Hue. apply negb_true_iff in Hdel.
  repeat split; auto. exists u. auto.
Qed.

(** X7. Reading a photo never hands out what the viewer may not see: a
    photo that [getPhotoById] returns has the id asked for, is not
    deleted, and passes the permission check for the viewer. *)
Theorem getPhotoById_is_sound :
  forall (db : DB) (photoId v : Z) (view : PhotoService.PhotoView),
    PhotoService.getPhotoById db photoId v = Ok view ->
    let photo := PhotoService.view_photo view in
    In photo (photos db)
    /\ p_id photo = photoId
    /\ p_is_deleted photo = false
    /\ PermissionUtils.hasPermission
         (PermissionUtils.checkPhotoPermission db v (p_user_id photo)
            (of_text (p_permission_type photo)) (p_custom_group_id photo)) = true.
Proof.
  intros db photoId v view. unfold PhotoService.getPhotoById.
  destruct (PhotoModel.findById db photoId) as [photo|] eqn:E; [|discriminate].
  destruct (PermissionUtils.hasPermission _) eqn:Hp; simpl; [|discriminate].
  intros [= <-]. simpl.
  destruct (findById_In _ _ _ E) as (Hin & Hid & Hdel & _).
  repeat split; auto.
Qed.

Lemma getPhotoById_is_sound_witness :
  exists view,
    PhotoService.getPhotoById db_group_10 7 2 = Ok view
    /\ p_id (PhotoService.view_photo view) = 7
    /\ PermissionUtils.hasPermission
         (PermissionUtils.checkPhotoPermission db_group_10 2
            (p_user_id (PhotoService.view_photo view))
            (of_text (p_permission_type (PhotoService.view_photo view)))
            (p_custom_group_id (PhotoService.view_photo view))) = true.
Proof.
  eexists. split; [reflexivity|].
  split; eapply (getPhotoById_is_sound db_group_10 7 2); reflexivity.
Defined.

(** X8. A photo is "not found" exactly when no row with the id is both
    undeleted and owned by an existing user; so a soft-deleted photo is
    not found for anyone, its owner included. *)
Theorem photo_not_found_iff :
  forall (db : DB) (photoId v : Z),
    PhotoService.getPhotoById db photoId v = Throw "Photo not found"
    <-> (forall p, In p (photos db) -> p_id p = photoId ->
                   p_is_deleted p = true
                   \/ forall u, In u (users db) -> u_id u <> p_user_id p).
Proof.
  intros db photoId v. unfold PhotoService.getPhotoById. split.
  - destruct (PhotoModel.findById db photoId) as [photo|] eqn:E.
    + destruct (negb _); discriminate.
    + intros _ p Hin Hid.
      destruct (p_is_deleted p) eqn:Hdel; [now left | right].
      intros u Hu Hue. unfold PhotoModel.findById in E.
      assert (Hx : In p (flat_map (fun p => map (fun _ : User => p)
                          (filter (fun u => u_id u =? p_user_id p) (users db)))
                        (filter (fun p => (p_id p =? photoId) && negb (p_is_deleted p))
                                (photos db)))).
      { apply in_flat_map. exists p. split.
        - apply filter_In. split; [exact Hin|].
          rewrite Hid, Z.eqb_refl, Hdel. reflexivity.
        - apply in_map_iff. exists u. split; [reflexivity|].
          apply filter_In. split; [exact Hu | now apply Z.eqb_eq]. }
      destruct (flat_map _ _); [destruct Hx | discriminate E].
  - intro H. destruct (PhotoModel.findById db photoId) as [photo|] eqn:E; [|reflexivity].
    destruct (findById_In _ _ _ E) as (Hin & Hid & Hdel & u & Hu & Hue).
    destruct (H photo Hin Hid) as [Hd | Hnu]; [congruence|].
    destruct (Hnu u Hu Hue).
Qed.

(* ===================================================================== *)
(** ** Further properties: friendships *)
(* ===================================================================== *)

Lemma checkFriendshipExists_Some (db : DB) (a b : Z) (f : Friendship) :
  FriendModel.checkFriendshipExists db a b = Some f ->
  In f (friendships db) /\ FriendModel.between a b f = true.
Proof.
  unfold FriendModel.checkFriendshipExists. intro H.
  apply hd_error_In in H. now apply filter_In in H.
Qed.

Lemma checkFriendshipExists_None (db : DB) (a b : Z) :
  FriendModel.checkFriendshipExists db a b = None <->
  forall f, In f (friendships db) -> FriendModel.between a b f = false.
Proof.
  unfold FriendModel.checkFriendshipExists. split.
  - intros H f Hin. destruct (FriendModel.between a b f) eqn:E; [|reflexivity].
    assert (Hf : In f (filter (FriendModel.between a b) (friendships db)))
      by (apply filter_In; auto).
    destruct (filter _ _); [destruct Hf | discriminate H].
  - intro H. destruct (filter _ _) as [|f rest] eqn:E; [reflexivity|].
    assert (Hf : In f (f :: rest)) by now left.
    rewrite <- E in Hf. apply filter_In in Hf. destruct Hf as [Hin Hb].
    rewrite (H f Hin) in Hb. discriminate.
Qed.

Lemma areFriends_agree (db : DB) (a b : Z) :
  wf_friendships db ->
  FriendModel.areFriends db a b = PermissionUtils.areFriends db a b.
Proof.
  intros (_ & _ & Hpair). unfold FriendModel.areFriends.
  destruct (FriendModel.checkFriendshipExists db a b) as [f|] eqn:E.
  - destruct (checkFriendshipExists_Some _ _ _ _ E) as [Hin Hb].
    destruct (String.eqb (f_status f) "accepted") eqn:Es.
    + symmetry. apply areFriends_iff. exists f. apply String.eqb_eq in Es. auto.
    + symmetry. unfold PermissionUtils.areFriends. apply no_row_iff. intros x Hx.
      destruct (FriendModel.between a b x) eqn:Ex.
      * assert (x = f) by (symmetry; apply Hpair; auto;
                           now apply (between_same_pair a b)).
        subst x. unfold FriendModel.between in Ex. rewrite Ex, Es. reflexivity.
      * unfold FriendModel.between in Ex. rewrite Ex. reflexivity.
  - rewrite checkFriendshipExists_None in E. symmetry.
    unfold PermissionUtils.areFriends. apply no_row_iff. intros x Hx.
    specialize (E x Hx). unfold FriendModel.between in E. rewrite E. reflexivity.
Qed.

(** X9. The two friendship tests of the code, the one of the permission
    utilities (some accepted edge) and the one of the friend model (the
    first edge is accepted), agree on every store in which two users are
    joined by one edge at most. *)
Theorem friendship_tests_agree :
  forall (db : DB) (a b : Z),
    wf_friendships db ->
    FriendModel.areFriends db a b = PermissionUtils.areFriends db a b.
Proof.
  intros db a b H. now apply areFriends_agree.
Qed.

Lemma friendship_tests_agree_witness :
  FriendModel.areFriends db_declined 1 2 = PermissionUtils.areFriends db_declined 1 2.
Proof.
  apply friendship_tests_agree.
  apply wf_friendships_run. unfold wf_friendships. simpl.
  repeat split; try contradiction. constructor.
Defined.

(** X10. The friend service keeps the table well formed: from a store
    with unique edge ids below the sequence and at most one edge for each
    pair of users, every sequence of its calls, failed ones included,
    leads to such a store. *)
Theorem friend_service_keeps_one_edge_per_pair :
  forall (db : DB) (ops : list FriendService.Op),
    wf_friendships db -> wf_friendships (FriendService.run ops db).
Proof.
  intros db ops H. now apply wf_friendships_run.
Qed.

Lemma friend_service_keeps_one_edge_per_pair_witness :
  wf_friendships
    (FriendService.run
       [ FriendService.SendFriendRequest 1 2;
         FriendService.SendFriendRequest 2 1;
         FriendService.RespondToFriendRequest 2 1 "accept";
         FriendService.RemoveFriend 2 (Some 1);
         FriendService.SendFriendRequest 2 1 ]
       db_two_users).
Proof.
  apply friend_service_keeps_one_edge_per_pair.
  unfold wf_friendships. simpl. repeat split; try contradiction. constructor.
Defined.

(** X11. What [getFriendshipStatus] tells about sending is what sending
    does: when it says a request cannot be sent, [sendFriendRequest]
    throws; when it says one can, the request goes through whenever
    requester and target are two different existing users (the rows
    that the new edge refers to are then there). *)
Theorem canSendRequest_is_truthful :
  forall (db : DB) (a b : Z),
    (FriendService.canSendRequest (FriendService.getFriendshipStatus db a b) = false ->
     FriendService.throws (FriendService.sendFriendRequest a b db) = true)
    /\ (FriendService.canSendRequest (FriendService.getFriendshipStatus db a b) = true ->
        a <> b ->
        UserModel.findById db a <> None ->
        UserModel.findById db b <> None ->
        FriendService.throws (FriendService.sendFriendRequest a b db) = false).
Proof.
  intros db a b. unfold FriendService.getFriendshipStatus,
    FriendService.throws, FriendService.sendFriendRequest.
  destruct (FriendModel.checkFriendshipExists db a b) as [f|] eqn:E; simpl.
  - split; [|discriminate]. intros _.
    destruct (a =? b); [reflexivity|].
    unfold bind, query, throw. simpl.
    destruct (UserModel.findById db b); [|reflexivity].
    rewrite E. reflexivity.
  - split; [discriminate|]. intros _ Hne _ Hu.
    rewrite (proj2 (Z.eqb_neq _ _) Hne).
    unfold bind, query, throw. simpl.
    destruct (UserModel.findById db b); [|contradiction].
    rewrite E. reflexivity.
Qed.

Lemma canSendRequest_is_truthful_witness :
  FriendService.throws (FriendService.sendFriendRequest 1 2 db_declined) = true
  /\ FriendService.throws (FriendService.sendFriendRequest 1 3 db_three_users) = false.
Proof.
  split.
  - apply (proj1 (canSendRequest_is_truthful db_declined 1 2)). reflexivity.
  - apply (proj2 (canSendRequest_is_truthful db_three_users 1 3)).
    + reflexivity.
    + lia.
    + discriminate.
    + discriminate.
Defined.

(** X12. Only the addressee answers a request, and only a pending one:
    when [respondToFriendRequest] returns, the request id is that of a
    pending edge addressed to the caller, the action is one of the two,
    and the table changes in the status of the edges with that id only. *)
Theorem respond_needs_pending_request_to_caller :
  forall (db : DB) (u q : Z) (action : string) r,
    fst (FriendService.respondToFriendRequest u q action db) = Ok r ->
    (action = "accept" \/ action = "decline")%string
    /\ (exists f, In f (friendships db) /\ f_id f = q
                  /\ f_addressee_id f = u /\ f_status f = "pending"%string)
    /\ friendships (snd (FriendService.respondToFriendRequest u q action db))
       = map (fun x => if f_id x =? q
                       then FriendModel.set_status (FriendService.newStatus action) x
                       else x)
             (friendships db).
Proof.
  intros db u q action r. unfold FriendService.respondToFriendRequest.
  destruct (FriendService.valid_action action) eqn:Ev; simpl; [|discriminate].
  unfold bind, query, throw, ret. simpl.
  destruct (FriendModel.getFriendRequestById db q u) as [[f requester]|] eqn:E;
    [|discriminate].
  destruct (String.eqb (f_status f) "pending") eqn:Es; simpl; [|discriminate].
  intros _. apply String.eqb_eq in Es.
  unfold FriendModel.getFriendRequestById in E.
  apply (joined_row_In db _ _ f requester (fun f u => (f, u))) in E; [|reflexivity].
  destruct E as [Hin Hp]. apply andb_true_iff in Hp. destruct Hp as [Hid Ha].
  apply Z.eqb_eq in Hid, Ha.
  repeat split.
  - unfold FriendService.valid_action in Ev. apply orb_true_iff in Ev.
    destruct Ev as [Ev | Ev]; apply String.eqb_eq in Ev; auto.
  - exists f. auto.
Qed.

Lemma respond_needs_pending_request_to_caller_witness :
  exists f, In f (friendships (snd (FriendService.sendFriendRequest 1 2 db_two_users)))
            /\ f_id f = 1 /\ f_addressee_id f = 2 /\ f_status f = "pending"%string.
Proof.
  destruct (FriendService.respondToFriendRequest 2 1 "accept"
              (snd (FriendService.sendFriendRequest 1 2 db_two_users)))
    as [[r | message] db'] eqn:E.
  - exact (proj1 (proj2 (respond_needs_pending_request_to_caller
                           _ 2 1 "accept" r (f_equal fst E)))).
  - vm_compute in E. discriminate E.
Defined.

Lemma findById_user (db : DB) (id : Z) (u : User) :
  UserModel.findById db id = Some u ->
  exists rest, filter (fun x => u_id x =? id) (users db) = u :: rest.
Proof.
  unfold UserModel.findById. destruct (filter _ _) as [|x rest]; simpl; [discriminate|].
  intros [= ->]. now exists rest.
Qed.

Lemma no_row_with_id (fs : list Friendship) (q : Z) (p : Friendship -> bool) :
  (forall f, In f fs -> f_id f < q) ->
  filter (fun f => (f_id f =? q) && p f) fs = [].
Proof.
  intro H. induction fs as [|f fs IH]; simpl; [reflexivity|].
  assert (E : (f_id f =? q) = false)
    by (apply Z.eqb_neq; specialize (H f (or_introl eq_refl)); lia).
  rewrite E. simpl. apply IH. intros x Hx. apply H. now right.
Qed.

(** What [sendFriendRequest] does when it goes through. *)
Lemma sendFriendRequest_ok (db : DB) (a b : Z) (ub : User) :
  a <> b -> UserModel.findById db b = Some ub ->
  FriendModel.checkFriendshipExists db a b = None ->
  FriendService.sendFriendRequest a b db
  = (Ok ({| f_id := friendships_seq db; f_requester_id := a;
            f_addressee_id := b; f_status := "pending" |}, ub),
     with_friendships
       (friendships db ++
        [{| f_id := friendships_seq db; f_requester_id := a;
            f_addressee_id := b; f_status := "pending" |}])
       (friendships_seq db + 1) db).
Proof.
  intros Hne Hb Hnone. unfold FriendService.sendFriendRequest.
  rewrite (proj2 (Z.eqb_neq _ _) Hne).
  unfold bind, query, throw, ret. simpl. rewrite Hb, Hnone. reflexivity.
Qed.

(** X13. A request that is accepted makes friends: between two distinct
    existing users that no edge joins, [sendFriendRequest] goes through
    and leaves them not yet friends; the addressee accepting the new
    request goes through too, and from then on each is a friend of the
    other, by both friendship tests of the code. *)
Theorem request_then_accept_makes_friends :
  forall (db : DB) (a b : Z) (ua ub : User),
    wf_friendships db ->
    a <> b ->
    UserModel.findById db a = Some ua ->
    UserModel.findById db b = Some ub ->
    FriendModel.checkFriendshipExists db a b = None ->
    let db1 := snd (FriendService.sendFriendRequest a b db) in
    let answer := FriendService.respondToFriendRequest b (friendships_seq db) "accept" db1 in
    FriendService.throws (FriendService.sendFriendRequest a b db) = false
    /\ PermissionUtils.areFriends db1 a b = false
    /\ FriendService.throws answer = false
    /\ PermissionUtils.areFriends (snd answer) a b = true
    /\ PermissionUtils.areFriends (snd answer) b a = true
    /\ FriendModel.areFriends (snd answer) a b = true.
Proof.
  intros db a b ua ub Hwf Hne Ha Hb Hnone db1 answer.
  pose proof (sendFriendRequest_ok db a b ub Hne Hb Hnone) as Hsend.
  set (row := {| f_id := friendships_seq db; f_requester_id := a;
                 f_addressee_id := b; f_status := "pending" |}) in *.
  assert (Hdb1 : db1 = with_friendships (friendships db ++ [row])
                         (friendships_seq db + 1) db)
    by (unfold db1; now rewrite Hsend).
  destruct Hwf as (Hnd & Hseq & Hpair).
  pose proof (proj1 (checkFriendshipExists_None db a b) Hnone) as Hfree.
  (* the answer *)
  assert (Hreq : FriendModel.getFriendRequestById db1 (friendships_seq db) b
                 = Some (row, ua)).
  { rewrite Hdb1. unfold FriendModel.getFriendRequestById. simpl.
    rewrite filter_app, (no_row_with_id _ _ _ Hseq). simpl.
    rewrite !Z.eqb_refl. simpl.
    destruct (findById_user _ _ _ Ha) as [rest ->]. reflexivity. }
  assert (Hans : answer
                 = (Ok (hd_error (filter (fun f => f_id f =? friendships_seq db)
                          (map (fun f => if f_id f =? friendships_seq db
                                         then FriendModel.set_status "accepted" f else f)
                               (friendships db1))), ua),
                    with_friendships
                      (map (fun f => if f_id f =? friendships_seq db
                                     then FriendModel.set_status "accepted" f else f)
                           (friendships db1))
                      (friendships_seq db1) db1)).
  { unfold answer, FriendService.respondToFriendRequest. simpl.
    unfold bind, query, throw, ret. simpl. rewrite Hreq. reflexivity. }
  assert (Hfriends : PermissionUtils.areFriends (snd answer) a b = true).
  { rewrite Hans. simpl. apply areFriends_iff.
    exists (FriendModel.set_status "accepted" row). repeat split.
    - rewrite Hdb1. simpl. rewrite map_app. apply in_or_app. right. simpl.
      rewrite Z.eqb_refl. now left.
    - unfold FriendModel.between. simpl. now rewrite !Z.eqb_refl. }
  repeat apply conj.
  - unfold FriendService.throws. now rewrite Hsend.
  - rewrite Hdb1. unfold PermissionUtils.areFriends. apply no_row_iff. simpl.
    intros x Hx. apply in_app_or in Hx. destruct Hx as [Hx | [<- | []]].
    + specialize (Hfree x Hx). unfold FriendModel.between in Hfree.
      rewrite Hfree. reflexivity.
    + simpl. apply andb_false_r.
  - unfold FriendService.throws. now rewrite Hans.
  - exact Hfriends.
  - now rewrite areFriends_sym.
  - rewrite areFriends_agree; [exact Hfriends|].
    change (snd answer)
      with (FriendService.run
              [ FriendService.SendFriendRequest a b;
                FriendService.RespondToFriendRequest b (friendships_seq db) "accept" ] db).
    apply wf_friendships_run. repeat split; auto.
Qed.

Lemma request_then_accept_makes_friends_witness :
  PermissionUtils.areFriends
    (snd (FriendService.respondToFriendRequest 2 (friendships_seq db_two_users) "accept"
            (snd (FriendService.sendFriendRequest 1 2 db_two_users)))) 2 1 = true.
Proof.
  refine (proj1 (proj2 (proj2 (proj2 (proj2
    (request_then_accept_makes_friends db_two_users 1 2
       (new_user 1 "an") (new_user 2 "binh") _ _ _ _ _)))))).
  - unfold wf_friendships. simpl. repeat split; try contradiction. constructor.
  - lia.
  - reflexivity.
  - reflexivity.
  - reflexivity.
Defined.

Lemma joined_row_exists {A : Type} (db : DB) (p : Friendship -> bool)
      (k : Friendship -> list A) (f : Friendship) (u : A) :
  In f (friendships db) -> p f = true -> In u (k f) ->
  hd_error (flat_map (fun f => map (fun u => (f, u)) (k f)) (filter p (friendships db)))
  <> None.
Proof.
  intros Hin Hp Hu.
  assert (H : In (f, u) (flat_map (fun f => map (fun u => (f, u)) (k f))
                                  (filter p (friendships db)))).
  { apply in_flat_map. exists f. split; [now apply filter_In|]. now apply in_map. }
  destruct (flat_map _ _); [destruct H | discriminate].
Qed.

(** What [removeFriend] does when it goes through: it deletes the rows
    with the id of an accepted edge that has both ids among its ends. *)
Lemma removeFriend_ok (db : DB) (u w : Z) (f : Friendship) (friend : User) :
  FriendModel.getFriendshipByUsers db u w = Some (f, friend) ->
  FriendService.removeFriend u (Some w) db
  = (Ok (w, friend),
     with_friendships (filter (fun x => negb (f_id x =? f_id f)) (friendships db))
                      (friendships_seq db) db)
  /\ In f (friendships db)
  /\ f_status f = "accepted"%string
  /\ (f_requester_id f = u \/ f_addressee_id f = u)
  /\ (f_requester_id f = w \/ f_addressee_id f = w).
Proof.
  intro E. split.
  - unfold FriendService.removeFriend, bind, query, throw, ret. simpl.
    rewrite E. reflexivity.
  - unfold FriendModel.getFriendshipByUsers in E.
    apply (joined_row_In db _ _ f friend (fun f u => (f, u))) in E; [|reflexivity].
    destruct E as [Hin Hp].
    apply andb_true_iff in Hp. destruct Hp as [Hp Hs].
    apply andb_true_iff in Hp. destruct Hp as [Hu Hw].
    apply orb_true_iff in Hu, Hw. rewrite !Z.eqb_eq in Hu, Hw.
    apply String.eqb_eq in Hs. auto.
Qed.

(** X14. Unlike a declined request, a removed friendship leaves no
    trace: for two distinct friends, [removeFriend] goes through, deletes
    their edge, and afterwards no edge joins them, they are not friends,
    and a new request between them goes through. *)
Theorem unfriend_allows_new_request :
  forall (db : DB) (a b : Z) (e : Friendship) (ub : User),
    wf_friendships db ->
    a <> b ->
    In e (friendships db) ->
    FriendModel.between a b e = true ->
    f_status e = "accepted"%string ->
    UserModel.findById db b = Some ub ->
    let db' := snd (FriendService.removeFriend a (Some b) db) in
    FriendService.throws (FriendService.removeFriend a (Some b) db) = false
    /\ friendships db' = filter (fun x => negb (f_id x =? f_id e)) (friendships db)
    /\ FriendModel.checkFriendshipExists db' a b = None
    /\ PermissionUtils.areFriends db' a b = false
    /\ FriendService.throws (FriendService.sendFriendRequest a b db') = false.
Proof.
  intros db a b e ub (Hnd & Hseq & Hpair) Hne He Hab Hacc Hb db'.
  pose proof (proj1 (between_iff a b e) Hab) as Hends.
  destruct (FriendModel.getFriendshipByUsers db a b) as [[f friend]|] eqn:E.
  2: { exfalso. unfold FriendModel.getFriendshipByUsers in E.
       revert E. apply (joined_row_exists db _ _ e ub He).
       - rewrite Hacc. simpl.
         destruct Hends as [[-> ->] | [-> ->]]; rewrite !Z.eqb_refl; simpl;
           rewrite ?orb_true_r; reflexivity.
       - destruct (findById_user _ _ _ Hb) as [rest Hrest].
         assert (Ho : FriendModel.other_side a e = b).
         { unfold FriendModel.other_side.
           destruct Hends as [[-> ->] | [-> ->]].
           - now rewrite Z.eqb_refl.
           - now rewrite (proj2 (Z.eqb_neq _ _) (not_eq_sym Hne)). }
         rewrite Ho, Hrest. now left. }
  destruct (removeFriend_ok db a b f friend E) as (Hrm & Hf & Hfacc & Hfa & Hfb).
  assert (f = e).
  { symmetry. apply Hpair; auto. apply (between_same_pair a b); auto.
    apply between_iff. destruct Hfa, Hfb; try (left; split; congruence);
      try (right; split; congruence); exfalso; apply Hne; congruence. }
  subst f.
  assert (Hdb' : db' = with_friendships
                         (filter (fun x => negb (f_id x =? f_id e)) (friendships db))
                         (friendships_seq db) db)
    by (unfold db'; now rewrite Hrm).
  assert (Hgone : forall x, In x (friendships db') -> FriendModel.between a b x = false).
  { rewrite Hdb'. simpl. intros x Hx. apply filter_In in Hx. destruct Hx as [Hx Hid].
    destruct (FriendModel.between a b x) eqn:Ex; [|reflexivity].
    assert (x = e) by (symmetry; apply Hpair; auto; now apply (between_same_pair a b)).
    subst x. rewrite Z.eqb_refl in Hid. discriminate. }
  assert (Hnone : FriendModel.checkFriendshipExists db' a b = None)
    by now apply checkFriendshipExists_None.
  repeat apply conj.
  - unfold FriendService.throws. now rewrite Hrm.
  - now rewrite Hdb'.
  - exact Hnone.
  - unfold PermissionUtils.areFriends. apply no_row_iff. intros x Hx.
    specialize (Hgone x Hx). unfold FriendModel.between in Hgone.
    rewrite Hgone. reflexivity.
  - unfold FriendService.throws.
    rewrite (sendFriendRequest_ok db' a b ub Hne); [reflexivity | | exact Hnone].
    rewrite Hdb'. exact Hb.
Qed.

Lemma unfriend_allows_new_request_witness :
  FriendService.throws
    (FriendService.sendFriendRequest 1 2
       (snd (FriendService.removeFriend 1 (Some 2) db_three_users))) = false.
Proof.
  refine (proj2 (proj2 (proj2 (proj2
    (unfriend_allows_new_request db_three_users 1 2
       {| f_id := 1; f_requester_id := 2; f_addressee_id := 1; f_status := "accepted" |}
       (new_user 2 "binh") _ _ _ _ _ _))))).
  - unfold wf_friendships. simpl. repeat split.
    + repeat constructor. simpl. tauto.
    + intros f [<- | []]. simpl. lia.
    + intros f1 f2 [<- | []] [<- | []] _. reflexivity.
  - lia.
  - simpl. now left.
  - reflexivity.
  - reflexivity.
  - reflexivity.
Defined.

(** X15. Removing oneself removes a friend: with the caller's own id as
    the friend id, both tests of the query are the same test, so
    [removeFriend] goes through as soon as the caller has an accepted
    edge to an existing user, and deletes an accepted edge of the
    caller. *)
Theorem removeFriend_self_removes_a_friend :
  forall (db : DB) (u : Z) (e : Friendship) (other : User),
    In e (friendships db) ->
    f_status e = "accepted"%string ->
    f_requester_id e = u \/ f_addressee_id e = u ->
    In other (users db) -> u_id other = FriendModel.other_side u e ->
    FriendService.throws (FriendService.removeFriend u (Some u) db) = false
    /\ exists f, In f (friendships db)
                 /\ f_status f = "accepted"%string
                 /\ (f_requester_id f = u \/ f_addressee_id f = u)
                 /\ friendships (snd (FriendService.removeFriend u (Some u) db))
                    = filter (fun x => negb (f_id x =? f_id f)) (friendships db).
Proof.
  intros db u e other He Hacc Hend Hother Hoid.
  destruct (FriendModel.getFriendshipByUsers db u u) as [[f friend]|] eqn:E.
  2: { exfalso. unfold FriendModel.getFriendshipByUsers in E.
       revert E. apply (joined_row_exists db _ _ e other He).
       - rewrite Hacc. simpl.
         destruct Hend as [-> | ->]; rewrite !Z.eqb_refl; simpl;
           rewrite ?orb_true_r; reflexivity.
       - apply filter_In. split; [exact Hother | now apply Z.eqb_eq]. }
  destruct (removeFriend_ok db u u f friend E) as (Hrm & Hf & Hfacc & Hfu & _).
  split.
  - unfold FriendService.throws. now rewrite Hrm.
  - exists f. repeat split; auto. now rewrite Hrm.
Qed.

Lemma removeFriend_self_removes_a_friend_witness :
  FriendService.throws (FriendService.removeFriend 1 (Some 1) db_three_users) = false.
Proof.
  refine (proj1 (removeFriend_self_removes_a_friend db_three_users 1
    {| f_id := 1; f_requester_id := 2; f_addressee_id := 1; f_status := "accepted" |}
    (new_user 2 "binh") _ _ _ _ _)).
  - simpl. now left.
  - reflexivity.
  - right. reflexivity.
  - simpl. right. now left.
  - reflexivity.
Defined.

(* ===================================================================== *)
(** ** Further properties: shares and albums *)
(* ===================================================================== *)

Lemma getAlbumById_owner (db : DB) (albumId u : Z) (alb : Album) :
  u <> 0 ->
  SharingModel.getAlbumById db albumId (Some u) = Some alb ->
  In alb (albums db) /\ a_id alb = albumId /\ a_user_id alb = u.
Proof.
  intros Hu H. unfold SharingModel.getAlbumById in H. apply hd_error_In in H.
  apply in_flat_map in H. destruct H as (a & Ha & H).
  apply in_map_iff in H. destruct H as (x & <- & _).
  apply filter_In in Ha. destruct Ha as [Hin Hp]. simpl in Hp.
  rewrite (proj2 (Z.eqb_neq _ _) Hu) in Hp. simpl in Hp.
  apply andb_true_iff in Hp. destruct Hp as [Hid Ho].
  apply Z.eqb_eq in Hid, Ho. auto.
Qed.

(** What creating a share does to the store: nothing when it throws;
    otherwise one new row, in [album_shares] for an album, in
    [photo_shares] and without an album id for the rest. *)
Lemma createShare_store (db : DB) (newId now u : Z) (sd : SharingService.ShareData) :
  let result := SharingService.createShare newId now u sd db in
  (exists message, result = (Throw message, db))
  \/ (exists r row, result = (Ok r, with_shares (photo_shares db)
                                       (album_shares db ++ [row]) db)
                    /\ SharingService.sd_shareType sd = "album"%string)
  \/ (exists r row, result = (Ok r, with_shares (photo_shares db ++ [row])
                                       (album_shares db) db)
                    /\ ps_album_id row = None /\ ps_id row = newId
                    /\ ps_shared_by row = u
                    /\ ps_shared_with row = SharingService.sd_recipientId sd
                    /\ ps_is_active row = true
                    /\ ps_photo_id row
                       = (if String.eqb (SharingService.sd_shareType sd) "individual_photo"
                          then SharingService.sd_photoId sd else None)
                    /\ SharingService.sd_shareType sd <> "album"%string).
Proof.
  unfold SharingService.createShare, SharingModel.createShare, bind, query, throw, ret.
  simpl.
  destruct (FriendModel.areFriends db u (SharingService.sd_recipientId sd)); simpl;
    [|left; eexists; reflexivity].
  destruct (String.eqb (SharingService.sd_shareType sd) "album") eqn:Ea; simpl.
  - apply String.eqb_eq in Ea.
    destruct (SharingService.sd_albumId sd) as [aid|]; simpl.
    + destruct (aid =? 0) eqn:E0; simpl.
      * rewrite Ea. simpl. left; eexists; reflexivity.
      * destruct (SharingModel.getAlbumById db aid (Some u)); simpl;
          [|left; eexists; reflexivity].
        right; left. eexists _, _. split; [reflexivity | exact Ea].
    + rewrite Ea. simpl. left; eexists; reflexivity.
  - assert (Hna : SharingService.sd_shareType sd <> "album"%string)
      by now apply String.eqb_neq.
    destruct (String.eqb (SharingService.sd_shareType sd) "individual_photo") eqn:Ep; simpl.
    + destruct (SharingService.sd_photoId sd) as [pid|] eqn:Epid; simpl.
      * destruct (pid =? 0) eqn:E0; simpl.
        -- apply String.eqb_eq in Ep. rewrite Ep. simpl. left; eexists; reflexivity.
        -- destruct (negb (PhotoModel.exists_ _) || negb (PhotoModel.isOwner_ _)); simpl;
             [left; eexists; reflexivity|].
           right; right. eexists _, _. repeat split; try reflexivity; auto.
      * apply String.eqb_eq in Ep. rewrite Ep. simpl. left; eexists; reflexivity.
    + destruct (String.eqb (SharingService.sd_shareType sd) "all_photos") eqn:Eall; simpl;
        [|left; eexists; reflexivity].
      right; right. eexists _, _. repeat split; try reflexivity; auto.
Qed.

(** X16. A share is created only between friends and only of what the
    sharer owns: when [createShare] returns for a sharer (id not 0), the
    recipient is a friend, and the share is of an album of the sharer, or
    of a photo of the sharer, or of all photos; when it throws, the store
    is left as it is. *)
Theorem createShare_needs_friend_and_ownership :
  forall (db : DB) (newId now u : Z) (sd : SharingService.ShareData),
    u <> 0 ->
    (forall r, fst (SharingService.createShare newId now u sd db) = Ok r ->
       FriendModel.areFriends db u (SharingService.sd_recipientId sd) = true
       /\ ((SharingService.sd_shareType sd = "album"%string
            /\ exists alb, In alb (albums db)
                           /\ SharingService.sd_albumId sd = Some (a_id alb)
                           /\ a_user_id alb = u)
           \/ (SharingService.sd_shareType sd = "individual_photo"%string
               /\ exists photoId, SharingService.sd_photoId sd = Some photoId
                    /\ PhotoModel.isOwner db photoId u
                       = {| PhotoModel.exists_ := true; PhotoModel.isOwner_ := true |})
           \/ SharingService.sd_shareType sd = "all_photos"%string))
    /\ (forall message,
          fst (SharingService.createShare newId now u sd db) = Throw message ->
          snd (SharingService.createShare newId now u sd db) = db).
Proof.
  intros db newId now u sd Hu. split.
  - intro r.
    unfold SharingService.createShare, SharingModel.createShare, bind, query, throw, ret.
    simpl.
    destruct (FriendModel.areFriends db u (SharingService.sd_recipientId sd)); simpl;
      [|discriminate].
    destruct (String.eqb (SharingService.sd_shareType sd) "album") eqn:Ea; simpl.
    + apply String.eqb_eq in Ea.
      destruct (SharingService.sd_albumId sd) as [aid|]; simpl.
      * destruct (aid =? 0) eqn:E0; simpl; [rewrite Ea; discriminate|].
        destruct (SharingModel.getAlbumById db aid (Some u)) as [alb|] eqn:Eg; simpl;
          [|discriminate].
        intros _. split; [reflexivity|]. left. split; [exact Ea|].
        destruct (getAlbumById_owner _ _ _ _ Hu Eg) as (Hin & Hid & Ho).
        exists alb. subst aid. auto.
      * rewrite Ea. discriminate.
    + destruct (String.eqb (SharingService.sd_shareType sd) "individual_photo") eqn:Ep; simpl.
      * apply String.eqb_eq in Ep.
        destruct (SharingService.sd_photoId sd) as [pid|]; simpl.
        -- destruct (pid =? 0) eqn:E0; simpl; [rewrite Ep; discriminate|].
           destruct (PhotoModel.isOwner db pid u) as [ex ow] eqn:Eo. simpl.
           destruct ex, ow; simpl; try discriminate.
           intros _. split; [reflexivity|]. right; left. split; [exact Ep|].
           exists pid. split; [reflexivity | exact Eo].
        -- rewrite Ep. discriminate.
      * destruct (String.eqb (SharingService.sd_shareType sd) "all_photos") eqn:Eall; simpl;
          [|discriminate].
        intros _. split; [reflexivity|]. right; right. now apply String.eqb_eq.
  - intros message H.
    destruct (createShare_store db newId now u sd)
      as [[m E] | [(r & row & E & _) | (r & row & E & _)]];
      rewrite E in *; simpl in *; [reflexivity | discriminate | discriminate].
Qed.

Lemma createShare_needs_friend_and_ownership_witness :
  FriendModel.areFriends db_private_album 1
    (SharingService.sd_recipientId share_photo_7) = true.
Proof.
  destruct (SharingService.createShare 1 100 1 share_photo_7 db_private_album)
    as [[r | message] db'] eqn:E.
  - refine (proj1 (proj1 (createShare_needs_friend_and_ownership
                            db_private_album 1 100 1 share_photo_7 _) r _)).
    + lia.
    + now rewrite E.
  - vm_compute in E. discriminate E.
Defined.

Lemma checkAlbumPermission_new_photo_share (db : DB) (now v albumId : Z)
      (row : PhotoShare) (als : list AlbumShare) :
  ps_album_id row = None ->
  PermissionUtils.checkAlbumPermission
    (with_shares (photo_shares db ++ [row]) als db) now v albumId
  = PermissionUtils.checkAlbumPermission db now v albumId.
Proof.
  intro Hrow. unfold PermissionUtils.checkAlbumPermission. simpl.
  destruct (flat_map _ _) as [|alb rest]; [reflexivity|].
  destruct (a_user_id alb =? v); [reflexivity|].
  change (PermissionUtils.areFriends (with_shares _ _ db)) with (PermissionUtils.areFriends db).
  rewrite filter_app. simpl. rewrite Hrow. simpl.
  rewrite !andb_false_r. simpl. rewrite app_nil_r. reflexivity.
Qed.

(** X17. Creating a share never opens an album: whatever is shared with
    whomever, an album included, the verdict of the album check is
    afterwards what it was before, for every viewer and album.  The album
    check reads album shares from [photo_shares]; the service writes
    them to [album_shares]. *)
Theorem creating_a_share_never_opens_an_album :
  forall (db : DB) (newId now u : Z) (sd : SharingService.ShareData)
         (later v albumId : Z),
    PermissionUtils.checkAlbumPermission
      (snd (SharingService.createShare newId now u sd db)) later v albumId
    = PermissionUtils.checkAlbumPermission db later v albumId.
Proof.
  intros db newId now u sd later v albumId.
  destruct (createShare_store db newId now u sd)
    as [[m E] | [(r & row & E & _) | (r & row & E & Hrow & _)]]; rewrite E; simpl.
  - reflexivity.
  - reflexivity.
  - now apply checkAlbumPermission_new_photo_share.
Qed.

(** On the store above: user 1 shares the private album 3 with friend 2,
    the call returns, and user 2 is still refused the album. *)
Lemma shared_private_album_stays_closed :
  FriendService.throws (SharingService.createShare 1 100 1 share_album_3 db_private_album)
  = false
  /\ PermissionUtils.checkAlbumPermission
       (snd (SharingService.createShare 1 100 1 share_album_3 db_private_album)) 101 2 3
     = {| PermissionUtils.album_hasPermission := false;
          PermissionUtils.album_reason := "Private album";
          PermissionUtils.album := Some {| a_id := 3; a_user_id := 1; a_name := "trip";
                                           a_privacy_type := Some "private"%string |} |}.
Proof. split; reflexivity. Qed.

(** A row that [getShareById] returns is the row of a photo share or of
    an album share with the id, followed by the names joined to it. *)
Lemma getShareById_shape (db : DB) (shareId : Z) (row : JsObj) :
  SharingModel.getShareById db shareId = Some row ->
  (exists s sharer recipient name,
     row = SharingModel.photo_share_columns s
           ++ SharingModel.name_columns sharer recipient JsNull name
     /\ In s (photo_shares db) /\ ps_id s = shareId)
  \/ (exists s sharer recipient name,
        row = SharingModel.album_share_columns s
              ++ SharingModel.name_columns sharer recipient name JsNull
        /\ In s (album_shares db) /\ als_id s = shareId).
Proof.
  unfold SharingModel.getShareById.
  match goal with
  | |- match ?l with _ => _ end = _ -> _ => destruct l as [|row0 rest] eqn:E
  end.
  - intro H. right. apply hd_error_In in H.
    apply in_flat_map in H. destruct H as (s & Hs & H).
    apply in_flat_map in H. destruct H as (sharer & _ & H).
    apply in_flat_map in H. destruct H as (recipient & _ & H).
    apply in_map_iff in H. destruct H as (name & <- & _).
    apply filter_In in Hs. destruct Hs as [Hin Hid]. apply Z.eqb_eq in Hid.
    exists s, sharer, recipient, name. auto.
  - intros [= <-]. left.
    assert (H : In row0 (row0 :: rest)) by now left.
    rewrite <- E in H.
    apply in_flat_map in H. destruct H as (s & Hs & H).
    apply in_flat_map in H. destruct H as (sharer & _ & H).
    apply in_flat_map in H. destruct H as (recipient & _ & H).
    apply in_map_iff in H. destruct H as (name & <- & _).
    apply filter_In in Hs. destruct Hs as [Hin Hid]. apply Z.eqb_eq in Hid.
    exists s, sharer, recipient, name. auto.
Qed.

(** X18. Nobody can read the details of a share or delete one: both
    compare the caller with [share.sharer_id] (and [share.recipient_id]),
    which a share row does not have, so for every existing share and
    every caller, sharer and recipient included, [getShareDetails] throws
    "Access denied to this share" and [deleteShare] throws and deletes
    nothing. *)
Theorem share_details_and_delete_refuse_everyone :
  forall (db : DB) (shareId userId : Z),
    SharingService.getShareDetails db shareId userId
    = match SharingModel.getShareById db shareId with
      | None => Throw "Share not found"
      | Some _ => Throw "Access denied to this share"
      end
    /\ SharingService.deleteShare shareId userId db
       = match SharingModel.getShareById db shareId with
         | None => (Throw "Share not found", db)
         | Some _ => (Throw "Only the sharer can delete this share", db)
         end.
Proof.
  intros db shareId userId. split.
  - unfold SharingService.getShareDetails.
    destruct (SharingModel.getShareById db shareId) as [row|] eqn:E; [|reflexivity].
    assert (H : prop row "sharer_id" = JsUndefined /\ prop row "recipient_id" = JsUndefined).
    { destruct (getShareById_shape _ _ _ E)
        as [(s & sharer & recipient & name & -> & _)
           | (s & sharer & recipient & name & -> & _)]; split; reflexivity. }
    destruct H as [-> ->]. reflexivity.
  - apply deleteShare_always_throws.
Qed.

Lemma left_join_filename_nonempty (db : DB) (photo_id : option Z) :
  exists name rest, SharingModel.left_join_filename db photo_id = name :: rest.
Proof.
  unfold SharingModel.left_join_filename.
  destruct (map _ _) as [|x l]; eexists _, _; reflexivity.
Qed.

(** X19. A photo share that has been created can be looked up: when
    [createShare] returns for a share that is not of an album, with an id
    that no photo share has yet, and sharer and recipient are users,
    [getShareById] finds the new share, active, from the sharer to the
    recipient, with the photo id given (none for all photos). *)
Theorem created_photo_share_is_found :
  forall (db : DB) (newId now u : Z) (sd : SharingService.ShareData) r
         (sharer recipient : User),
    fst (SharingService.createShare newId now u sd db) = Ok r ->
    SharingService.sd_shareType sd <> "album"%string ->
    (forall s, In s (photo_shares db) -> ps_id s <> newId) ->
    UserModel.findById db u = Some sharer ->
    UserModel.findById db (SharingService.sd_recipientId sd) = Some recipient ->
    exists row,
      SharingModel.getShareById
        (snd (SharingService.createShare newId now u sd db)) newId = Some row
      /\ prop row "id" = JsNum newId
      /\ prop row "shared_by" = JsNum u
      /\ prop row "shared_with" = JsNum (SharingService.sd_recipientId sd)
      /\ prop row "is_active" = JsBool true
      /\ prop row "photo_id"
         = (if String.eqb (SharingService.sd_shareType sd) "individual_photo"
            then of_int (SharingService.sd_photoId sd) else JsNull).
Proof.
  intros db newId now u sd r sharer recipient Hok Hna Hfresh Hs Hr.
  destruct (createShare_store db newId now u sd)
    as [[m E] | [(r' & row & E & Ha) | (r' & row & E & Halb & Hid & Hby & Hwith & Hact & Hph & _)]].
  - rewrite E in Hok. discriminate.
  - contradiction.
  - rewrite E. clear E Hok.
    destruct row as [rid rby rwith rphoto ralbum rlevel rexp ract rcreated].
    simpl in *. subst rid rby rwith ract ralbum.
    assert (Hnone : filter (fun s => ps_id s =? newId) (photo_shares db) = []).
    { destruct (filter _ (photo_shares db)) as [|x l] eqn:Ef; [reflexivity|].
      assert (Hx : In x (x :: l)) by now left.
      rewrite <- Ef in Hx. apply filter_In in Hx. destruct Hx as [Hin Hx].
      apply Z.eqb_eq in Hx. now destruct (Hfresh x Hin). }
    unfold SharingModel.getShareById. simpl.
    rewrite filter_app, Hnone. simpl. rewrite Z.eqb_refl. simpl. rewrite app_nil_r.
    unfold SharingModel.users_with_id. simpl.
    destruct (findById_user _ _ _ Hs) as [rest1 ->].
    destruct (findById_user _ _ _ Hr) as [rest2 ->].
    match goal with
    | |- context [SharingModel.left_join_filename ?d ?p] =>
        destruct (left_join_filename_nonempty d p) as (name & rest3 & ->)
    end.
    simpl. eexists. split; [reflexivity|]. simpl.
    rewrite Hph. destruct (String.eqb _ _); repeat split; reflexivity.
Qed.

Lemma created_photo_share_is_found_witness :
  exists row,
    SharingModel.getShareById
      (snd (SharingService.createShare 5 100 1 share_photo_7 db_private_album)) 5 = Some row
    /\ prop row "shared_by" = JsNum 1
    /\ prop row "photo_id" = JsNum 7.
Proof.
  destruct (SharingService.createShare 5 100 1 share_photo_7 db_private_album)
    as [[r | message] db'] eqn:E.
  - destruct (created_photo_share_is_found db_private_album 5 100 1 share_photo_7 r
                (new_user 1 "an") (new_user 2 "binh"))
      as (row & Hrow & _ & Hby & _ & _ & Hph).
    + now rewrite E.
    + discriminate.
    + intros s [].
    + reflexivity.
    + reflexivity.
    + exists row. rewrite E in Hrow. auto.
  - vm_compute in E. discriminate E.
Defined.







Lemma received_active_row (db : DB) (now userId page limit : Z)
      (shareType : option string) (rows : list JsObj) (r : JsObj) :
  SharingModel.getSharesByUser db now userId "received" page limit "active" shareType
  = Ok rows ->
  In r rows ->
  (exists s extra, In s (photo_shares db)
                   /\ r = SharingModel.photo_share_columns s ++ extra
                   /\ ps_shared_with s = userId
                   /\ ps_is_active s = true
                   /\ unexpired now (ps_expires_at s) = true)
  \/ (exists s extra, In s (album_shares db)
                      /\ r = SharingModel.album_share_columns s ++ extra
                      /\ als_shared_with s = userId
                      /\ als_is_active s = true
                      /\ unexpired now (als_expires_at s) = true).
Proof.
  unfold SharingModel.getSharesByUser.
  destruct (limit_offset _ _ _) as [paged|] eqn:E; [|discriminate].
  intros [= <-] Hr.
  apply in_map_iff in Hr. destruct Hr as ([c r'] & Hsnd & Hin). simpl in Hsnd. subst r'.
  eapply limit_offset_In in Hin; [|exact E].
  apply order_by_desc_In in Hin.
  change (String.eqb "received" "given") with false in Hin.
  assert (H : In (c, r) (SharingModel.photoSharesQuery db now false "active" userId)
              \/ In (c, r) (SharingModel.albumSharesQuery db now false "active" userId)).
  { destruct (truthy (of_text shareType)); [|now apply in_app_or].
    destruct (strict_eq (of_text shareType) (JsStr "individual_photo")); [now left|].
    destruct (strict_eq (of_text shareType) (JsStr "album")); [now right|].
    now apply in_app_or. }
  clear Hin E. destruct H as [H | H]; [left | right].
  - unfold SharingModel.photoSharesQuery in H.
    apply in_flat_map in H. destruct H as (s & Hs & H).
    apply in_flat_map in H. destruct H as (u & _ & H).
    apply in_map_iff in H. destruct H as (name & [= _ <-] & _).
    apply filter_In in Hs. destruct Hs as [Hin Hw].
    unfold SharingModel.status_where in Hw. simpl in Hw.
    apply andb_true_iff in Hw. destruct Hw as [Hu Hw].
    apply andb_true_iff in Hw. destruct Hw as [Ha He].
    apply Z.eqb_eq in Hu.
    eexists s, _. repeat split; eauto.
  - unfold SharingModel.albumSharesQuery in H.
    apply in_flat_map in H. destruct H as (s & Hs & H).
    apply in_flat_map in H. destruct H as (u & _ & H).
    apply in_map_iff in H. destruct H as (name & [= _ <-] & _).
    apply filter_In in Hs. destruct Hs as [Hin Hw].
    unfold SharingModel.status_where in Hw. simpl in Hw.
    apply andb_true_iff in Hw. destruct Hw as [Hu Hw].
    apply andb_true_iff in Hw. destruct Hw as [Ha He].
    apply Z.eqb_eq in Hu.
    eexists s, _. repeat split; eauto.
Qed.

Lemma getAlbumById_any (db : DB) (albumId : Z) (alb : Album) :
  SharingModel.getAlbumById db albumId None = Some alb ->
  In alb (albums db) /\ a_id alb = albumId.
Proof.
  intro H. unfold SharingModel.getAlbumById in H. apply hd_error_In in H.
  apply in_flat_map in H. destruct H as (a & Ha & H).
  apply in_map_iff in H. destruct H as (x & <- & _).
  apply filter_In in Ha. destruct Ha as [Hin Hp]. simpl in Hp.
  rewrite andb_true_r in Hp. apply Z.eqb_eq in Hp. auto.
Qed.

(** X21. What "shared with me" lists.  Every item comes from a share row
    whose recipient is the caller and which is active and not expired: an
    album item is an existing album that such an album share names, a
    photo item an existing photo, not deleted, that such a photo share
    names.  No item is of the kind [all_photos], whatever [shareType] is
    asked for: the query labels every row ['individual_photo'] or
    ['album']. *)
Theorem shared_with_me_lists_effective_shares :
  forall (db : DB) (now userId page limit : Z) (shareType : option string)
         (items : list SharingService.Content),
    SharingService.getSharedWithMeContent db now userId page limit shareType = Ok items ->
    forall c, In c items ->
      match c with
      | SharingService.ContentAlbum alb _ =>
          In alb (albums db)
          /\ exists s, In s (album_shares db) /\ als_album_id s = a_id alb
                       /\ als_shared_with s = userId
                       /\ als_is_active s = true
                       /\ unexpired now (als_expires_at s) = true
      | SharingService.ContentPhoto photo _ =>
          In photo (photos db) /\ p_is_deleted photo = false
          /\ exists s, In s (photo_shares db) /\ ps_photo_id s = Some (p_id photo)
                       /\ ps_shared_with s = userId
                       /\ ps_is_active s = true
                       /\ unexpired now (ps_expires_at s) = true
      | SharingService.ContentAllPhotos _ => False
      end.
Proof.
  intros db now userId page limit shareType items H c Hc.
  unfold SharingService.getSharedWithMeContent in H.
  destruct (SharingModel.getSharesByUser _ _ _ _ _ _ _ _) as [rows|] eqn:E; [|discriminate].
  injection H as <-.
  apply in_flat_map in Hc. destruct Hc as (r & Hr & Hc).
  destruct (SharingService.content_of_share db r) as [c'|] eqn:Ec; [|destruct Hc].
  destruct Hc as [<- | []].
  destruct (received_active_row _ _ _ _ _ _ _ _ E Hr)
    as [(s & extra & Hin & -> & Hu & Ha & He) | (s & extra & Hin & -> & Hu & Ha & He)].
  - unfold SharingService.content_of_share in Ec. simpl in Ec.
    destruct (ps_photo_id s) as [photoId|] eqn:Ep; simpl in Ec.
    + destruct (negb (photoId =? 0)); [|discriminate].
      destruct (PhotoModel.findById db photoId) as [photo|] eqn:Ef; [|discriminate].
      injection Ec as <-.
      destruct (findById_In _ _ _ Ef) as (Hp & Hid & Hdel & _).
      repeat split; [exact Hp | exact Hdel|].
      exists s. rewrite Hid. auto.
    + discriminate.
  - unfold SharingService.content_of_share in Ec. simpl in Ec.
    destruct (negb (als_album_id s =? 0)); [|discriminate].
    destruct (SharingModel.getAlbumById db (als_album_id s) None) as [alb|] eqn:Eg;
      [|discriminate].
    injection Ec as <-.
    destruct (getAlbumById_any _ _ _ Eg) as [Halb Hid].
    split; [exact Halb|]. exists s. auto.
Qed.

(** User 2 is shown photo 7, which an unexpired share of user 1 names. *)
Lemma shared_with_me_lists_effective_shares_witness :
  exists s, In s (photo_shares db_expired_share) /\ ps_photo_id s = Some 7
            /\ ps_shared_with s = 2 /\ ps_is_active s = true
            /\ unexpired 20 (ps_expires_at s) = true.
Proof.
  destruct (SharingService.getSharedWithMeContent db_expired_share 20 2 1 20 None)
    as [[|c rest] | message] eqn:E;
    [vm_compute in E; discriminate E | | vm_compute in E; discriminate E].
  pose proof (shared_with_me_lists_effective_shares _ _ _ _ _ _ _ E c (or_introl eq_refl)) as H.
  vm_compute in E. injection E as <- <-.
  exact (proj2 (proj2 H)).
Defined.

(* ===================================================================== *)
(** ** Further properties: photos of an album *)
(* ===================================================================== *)

Lemma insert_album_photo_present (albumId photoId : Z) (rows : list AlbumPhoto) :
  existsb (fun r => (alp_album_id r =? albumId) && (alp_photo_id r =? photoId)) rows = true
  <-> In {| alp_album_id := albumId; alp_photo_id := photoId |} rows.
Proof.
  rewrite existsb_exists. split.
  - intros ([a p] & Hin & H). simpl in H. apply andb_true_iff in H.
    destruct H as [Ha Hp]. apply Z.eqb_eq in Ha, Hp. now subst.
  - intro H. eexists. split; [exact H|]. simpl. now rewrite !Z.eqb_refl.
Qed.

Lemma fold_insert_album_photo (albumId : Z) (photoIds : list Z) :
  forall acc : list AlbumPhoto * list AlbumPhoto,
  exists added,
    fold_left (SharingModel.insert_album_photo albumId) photoIds acc
    = (fst acc ++ added, snd acc ++ added)
    /\ (forall r, In r added -> alp_album_id r = albumId /\ In (alp_photo_id r) photoIds)
    /\ (forall p, In p photoIds ->
          In {| alp_album_id := albumId; alp_photo_id := p |} (fst acc ++ added)).
Proof.
  induction photoIds as [|p photoIds IH]; intros [rows out]; simpl.
  - exists []. rewrite !app_nil_r. split; [reflexivity | split; intros ? []].
  - unfold SharingModel.insert_album_photo at 2. simpl.
    destruct (existsb _ rows) eqn:Ex.
    + destruct (IH (rows, out)) as (added & E & Hadded & Hall). simpl in *.
      exists added. rewrite E. repeat split.
      * now apply Hadded.
      * right. now apply Hadded.
      * intros q [<- | Hq]; [|now apply Hall].
        apply in_or_app. left. now apply insert_album_photo_present.
    + destruct (IH (rows ++ [{| alp_album_id := albumId; alp_photo_id := p |}],
                    out ++ [{| alp_album_id := albumId; alp_photo_id := p |}]))
        as (added & E & Hadded & Hall). simpl in *.
      exists ({| alp_album_id := albumId; alp_photo_id := p |} :: added).
      rewrite E, <- !app_assoc. simpl. repeat split.
      * destruct H as [<- | H]; [reflexivity | now apply Hadded].
      * destruct H as [<- | H]; [now left | right; now apply Hadded].
      * intros q [<- | Hq].
        -- apply in_or_app. right. now left.
        -- specialize (Hall q Hq). now rewrite <- app_assoc in Hall.
Qed.

Lemma fold_insert_album_photo_present (albumId : Z) (photoIds : list Z)
      (acc : list AlbumPhoto * list AlbumPhoto) :
  (forall p, In p photoIds ->
     In {| alp_album_id := albumId; alp_photo_id := p |} (fst acc)) ->
  fold_left (SharingModel.insert_album_photo albumId) photoIds acc = acc.
Proof.
  induction photoIds as [|p photoIds IH]; intro H; simpl; [reflexivity|].
  unfold SharingModel.insert_album_photo at 2.
  rewrite (proj2 (insert_album_photo_present albumId p (fst acc)) (H p (or_introl eq_refl))).
  apply IH. intros q Hq. apply H. now right.
Qed.

Lemma invalidPhotos_none (db : DB) (photoIds : list Z) (userId : Z) :
  (0 <? Z.of_nat (List.length (SharingService.invalidPhotos db photoIds userId))) = false ->
  forall p, In p photoIds ->
    exists row, In row (photos db) /\ p_id row = p /\ p_user_id row = userId.
Proof.
  intros H p Hp.
  destruct (SharingService.invalidPhotos db photoIds userId) as [|q rest] eqn:E;
    [|simpl in H; apply Z.ltb_ge in H; lia].
  assert (Hn : ~ In p (SharingService.invalidPhotos db photoIds userId))
    by (rewrite E; intros []).
  unfold SharingService.invalidPhotos in Hn. rewrite filter_In in Hn.
  unfold PhotoModel.isOwner in Hn.
  destruct (filter (fun x => p_id x =? p) (photos db)) as [|row others] eqn:Ef.
  - exfalso. apply Hn. split; [exact Hp | reflexivity].
  - assert (Hrow : In row (filter (fun x => p_id x =? p) (photos db)))
      by (rewrite Ef; now left).
    apply filter_In in Hrow. destruct Hrow as [Hin Hid]. apply Z.eqb_eq in Hid.
    exists row. repeat split; [exact Hin | exact Hid|].
    simpl in Hn. destruct (p_user_id row =? userId) eqn:Eu; [now apply Z.eqb_eq|].
    exfalso. apply Hn. split; [exact Hp | reflexivity].
Qed.

Lemma service_addPhotosToAlbum_eq (albumId : Z) (photoIds : list Z) (userId : Z) (db : DB) :
  SharingService.addPhotosToAlbum albumId photoIds userId db
  = match SharingModel.getAlbumById db albumId (Some userId) with
    | None => (Throw "Album not found or access denied", db)
    | Some _ =>
        if 0 <? Z.of_nat (List.length (SharingService.invalidPhotos db photoIds userId)) then
          (Throw (String.append "Photos not found or access denied: "
                    (join ", " (SharingService.invalidPhotos db photoIds userId))), db)
        else
          match SharingModel.addPhotosToAlbum albumId photoIds db with
          | (Ok addedPhotos, db') =>
              (Ok {| SharingService.change_albumId := albumId;
                     SharingService.change_count := Z.of_nat (List.length addedPhotos);
                     SharingService.change_photoIds := map alp_photo_id addedPhotos |}, db')
          | (Throw message, db') => (Throw message, db')
          end
    end.
Proof.
  unfold SharingService.addPhotosToAlbum, bind, query, throw, ret.
  destruct (SharingModel.getAlbumById _ _ _); [|reflexivity].
  destruct (0 <? _); reflexivity.
Qed.

Lemma service_removePhotosFromAlbum_eq (albumId : Z) (photoIds : list Z) (userId : Z)
      (db : DB) :
  SharingService.removePhotosFromAlbum albumId photoIds userId db
  = match SharingModel.getAlbumById db albumId (Some userId) with
    | None => (Throw "Album not found or access denied", db)
    | Some _ =>
        if 0 <? Z.of_nat (List.length (SharingService.invalidPhotos db photoIds userId)) then
          (Throw (String.append "Photos not found or access denied: "
                    (join ", " (SharingService.invalidPhotos db photoIds userId))), db)
        else
          match SharingModel.removePhotosFromAlbum albumId photoIds db with
          | (Ok removedPhotos, db') =>
              (Ok {| SharingService.change_albumId := albumId;
                     SharingService.change_count := Z.of_nat (List.length removedPhotos);
                     SharingService.change_photoIds := map alp_photo_id removedPhotos |}, db')
          | (Throw message, db') => (Throw message, db')
          end
    end.
Proof.
  unfold SharingService.removePhotosFromAlbum, bind, query, throw, ret.
  destruct (SharingModel.getAlbumById _ _ _); [|reflexivity].
  destruct (0 <? _); reflexivity.
Qed.

Lemma model_addPhotosToAlbum_spec (albumId : Z) (photoIds : list Z) (db : DB) :
  photoIds <> [] ->
  exists added,
    SharingModel.addPhotosToAlbum albumId photoIds db
    = (Ok added, with_albums (albums db) (album_photos db ++ added) db)
    /\ (forall r, In r added -> alp_album_id r = albumId /\ In (alp_photo_id r) photoIds)
    /\ (forall p, In p photoIds ->
          In {| alp_album_id := albumId; alp_photo_id := p |} (album_photos db ++ added)).
Proof.
  intro Hne.
  destruct (fold_insert_album_photo albumId photoIds (album_photos db, []))
    as (added & E & Hadded & Hall). simpl in *.
  exists added. repeat split; try assumption; try (now apply Hadded).
  unfold SharingModel.addPhotosToAlbum.
  destruct photoIds as [|p rest]; [now destruct Hne|].
  rewrite E. reflexivity.
Qed.

Lemma with_albums_same (db : DB) : with_albums (albums db) (album_photos db) db = db.
Proof. now destruct db. Qed.

Lemma model_addPhotosToAlbum_present (albumId : Z) (photoIds : list Z) (db : DB) :
  photoIds <> [] ->
  (forall p, In p photoIds ->
     In {| alp_album_id := albumId; alp_photo_id := p |} (album_photos db)) ->
  SharingModel.addPhotosToAlbum albumId photoIds db = (Ok [], db).
Proof.
  intros Hne H. unfold SharingModel.addPhotosToAlbum.
  rewrite fold_insert_album_photo_present by exact H.
  destruct photoIds as [|p rest]; [now destruct Hne|].
  simpl. now rewrite with_albums_same.
Qed.

(** X22. Adding photos to an album.  A call that fails leaves the store
    as it is.  A call that succeeds was made by the owner of the album
    on photos that are all the caller's own; it appends rows for this
    album and the given photos only and keeps every earlier row, it
    reports their number and their photo ids, every given photo is in
    the album afterwards, and repeating the call adds nothing. *)
Theorem addPhotosToAlbum_checks_and_adds :
  forall (db : DB) (albumId : Z) (photoIds : list Z) (userId : Z),
    userId <> 0 ->
    match SharingService.addPhotosToAlbum albumId photoIds userId db with
    | (Throw _, db') => db' = db
    | (Ok change, db') =>
        (exists alb, In alb (albums db) /\ a_id alb = albumId /\ a_user_id alb = userId)
        /\ (forall p, In p photoIds ->
              exists row, In row (photos db) /\ p_id row = p /\ p_user_id row = userId)
        /\ (exists added,
              album_photos db' = album_photos db ++ added
              /\ SharingService.change_count change = Z.of_nat (List.length added)
              /\ SharingService.change_photoIds change = map alp_photo_id added
              /\ forall r, In r added ->
                   alp_album_id r = albumId /\ In (alp_photo_id r) photoIds)
        /\ (forall p, In p photoIds ->
              In {| alp_album_id := albumId; alp_photo_id := p |} (album_photos db'))
        /\ SharingService.addPhotosToAlbum albumId photoIds userId db'
           = (Ok {| SharingService.change_albumId := albumId;
                    SharingService.change_count := 0;
                    SharingService.change_photoIds := [] |}, db')
    end.
Proof.
  intros db albumId photoIds userId Hu.
  rewrite service_addPhotosToAlbum_eq.
  destruct (SharingModel.getAlbumById db albumId (Some userId)) as [alb|] eqn:Ealb;
    [|reflexivity].
  destruct (0 <? _) eqn:Einv; [reflexivity|].
  destruct photoIds as [|p0 rest] eqn:Eids; [reflexivity|].
  rewrite <- Eids in *.
  assert (Hne : photoIds <> []) by (rewrite Eids; discriminate).
  destruct (model_addPhotosToAlbum_spec albumId photoIds db Hne)
    as (added & -> & Hadded & Hall).
  repeat apply conj.
  - exists alb. now apply getAlbumById_owner.
  - now apply invalidPhotos_none.
  - exists added. repeat split; try reflexivity; now apply Hadded.
  - exact Hall.
  - rewrite service_addPhotosToAlbum_eq.
    change (SharingModel.getAlbumById (with_albums (albums db) (album_photos db ++ added) db)
              albumId (Some userId))
      with (SharingModel.getAlbumById db albumId (Some userId)).
    change (SharingService.invalidPhotos
              (with_albums (albums db) (album_photos db ++ added) db) photoIds userId)
      with (SharingService.invalidPhotos db photoIds userId).
    rewrite Ealb, Einv.
    rewrite model_addPhotosToAlbum_present by assumption.
    reflexivity.
Qed.

(** User 1 puts photo 7 into album 3. *)
Lemma addPhotosToAlbum_checks_and_adds_witness :
  In {| alp_album_id := 3; alp_photo_id := 7 |}
     (album_photos (snd (SharingService.addPhotosToAlbum 3 [7] 1 db_private_album))).
Proof.
  assert (H := addPhotosToAlbum_checks_and_adds db_private_album 3 [7] 1 ltac:(lia)).
  destruct (SharingService.addPhotosToAlbum 3 [7] 1 db_private_album)
    as [[change | message] db'] eqn:E.
  - exact (proj1 (proj2 (proj2 (proj2 H))) 7 (or_introl eq_refl)).
  - vm_compute in E. discriminate E.
Defined.

Lemma filter_none {A : Type} (p : A -> bool) (l : list A) :
  (forall x, In x l -> p x = false) -> filter p l = [].
Proof.
  induction l as [|x l IH]; simpl; intro H; [reflexivity|].
  rewrite (H x (or_introl eq_refl)). apply IH. intros y Hy. apply H. now right.
Qed.

Lemma filter_all {A : Type} (p : A -> bool) (l : list A) :
  (forall x, In x l -> p x = true) -> filter p l = l.
Proof.
  induction l as [|x l IH]; simpl; intro H; [reflexivity|].
  rewrite (H x (or_introl eq_refl)). f_equal. apply IH. intros y Hy. apply H. now right.
Qed.

Lemma model_removePhotosFromAlbum_spec (albumId : Z) (photoIds : list Z) (db : DB) :
  photoIds <> [] ->
  SharingModel.removePhotosFromAlbum albumId photoIds db
  = (Ok (filter (fun r => (alp_album_id r =? albumId) && includes photoIds (alp_photo_id r))
                (album_photos db)),
     with_albums (albums db)
       (filter (fun r => negb ((alp_album_id r =? albumId)
                               && includes photoIds (alp_photo_id r)))
               (album_photos db)) db).
Proof.
  intro Hne. unfold SharingModel.removePhotosFromAlbum.
  destruct photoIds as [|p rest]; [now destruct Hne | reflexivity].
Qed.

(** X23. Adding and then removing restores the album.  When none of the
    given photos was in the album, a successful [addPhotosToAlbum]
    followed by [removePhotosFromAlbum] with the same arguments succeeds,
    reports the same number and the same photo ids, and leaves the store
    exactly as it was before the two calls. *)
Theorem add_then_remove_restores_album :
  forall (db db' : DB) (albumId : Z) (photoIds : list Z) (userId : Z)
         (change : SharingService.AlbumChange),
    (forall p, In p photoIds ->
       ~ In {| alp_album_id := albumId; alp_photo_id := p |} (album_photos db)) ->
    SharingService.addPhotosToAlbum albumId photoIds userId db = (Ok change, db') ->
    SharingService.removePhotosFromAlbum albumId photoIds userId db'
    = (Ok {| SharingService.change_albumId := albumId;
             SharingService.change_count := SharingService.change_count change;
             SharingService.change_photoIds := SharingService.change_photoIds change |},
       db).
Proof.
  intros db db' albumId photoIds userId change Hfresh H.
  rewrite service_addPhotosToAlbum_eq in H.
  destruct (SharingModel.getAlbumById db albumId (Some userId)) as [alb|] eqn:Ealb;
    [|discriminate].
  destruct (0 <? _) eqn:Einv; [discriminate|].
  assert (Hne : photoIds <> []).
  { intros ->. discriminate H. }
  destruct (model_addPhotosToAlbum_spec albumId photoIds db Hne)
    as (added & E & Hadded & _).
  rewrite E in H. injection H as <- <-.
  rewrite service_removePhotosFromAlbum_eq.
  change (SharingModel.getAlbumById (with_albums (albums db) (album_photos db ++ added) db)
            albumId (Some userId))
    with (SharingModel.getAlbumById db albumId (Some userId)).
  change (SharingService.invalidPhotos
            (with_albums (albums db) (album_photos db ++ added) db) photoIds userId)
    with (SharingService.invalidPhotos db photoIds userId).
  rewrite Ealb, Einv, model_removePhotosFromAlbum_spec by exact Hne.
  simpl album_photos. simpl albums.
  rewrite !filter_app.
  rewrite (filter_none _ (album_photos db)), (filter_all _ added).
  - rewrite (filter_all _ (album_photos db)), (filter_none _ added).
    + rewrite app_nil_r. destruct db; reflexivity.
    + intros r Hr. destruct (Hadded r Hr) as [Ha Hp].
      rewrite Ha, Z.eqb_refl, (proj2 (includes_In _ _) Hp). reflexivity.
    + intros [a p] Hr. simpl.
      destruct (a =? albumId) eqn:Ea; [|reflexivity].
      destruct (includes photoIds p) eqn:Ep; [|reflexivity].
      apply Z.eqb_eq in Ea. apply includes_In in Ep. subst a.
      now destruct (Hfresh p Ep).
  - intros r Hr. destruct (Hadded r Hr) as [Ha Hp].
    rewrite Ha, Z.eqb_refl, (proj2 (includes_In _ _) Hp). reflexivity.
  - intros [a p] Hr. simpl.
    destruct (a =? albumId) eqn:Ea; [|reflexivity].
    destruct (includes photoIds p) eqn:Ep; [|reflexivity].
    apply Z.eqb_eq in Ea. apply includes_In in Ep. subst a.
    now destruct (Hfresh p Ep).
Qed.

(** Photo 7 put into album 3 and taken out again. *)
Lemma add_then_remove_restores_album_witness :
  SharingService.removePhotosFromAlbum 3 [7] 1
    (snd (SharingService.addPhotosToAlbum 3 [7] 1 db_private_album))
  = (Ok {| SharingService.change_albumId := 3;
           SharingService.change_count := 1;
           SharingService.change_photoIds := [7] |},
     db_private_album).
Proof.
  refine (add_then_remove_restores_album db_private_album _ 3 [7] 1
            {| SharingService.change_albumId := 3;
               SharingService.change_count := 1;
               SharingService.change_photoIds := [7] |} _ _).
  - intros p _ H. vm_compute in H. exact H.
  - reflexivity.
Defined.

(* ===================================================================== *)
(** ** Further properties: permission groups *)
(* ===================================================================== *)

Lemma length_zero_nil {A : Type} (l : list A) :
  (Z.of_nat (List.length l) =? 0) = true <-> l = [].
Proof.
  destruct l; simpl; split; intro H; try reflexivity; discriminate.
Qed.

Lemma user_exists_iff (db : DB) (id : Z) :
  user_exists db id = true <-> exists u, In u (users db) /\ u_id u = id.
Proof.
  unfold user_exists. rewrite existsb_exists.
  split; intros (u & Hin & H); exists u; (split; [exact Hin|]); now apply Z.eqb_eq.
Qed.

Lemma friend_is_validated (db : DB) (owner : Z) (userIds : list Z) (id : Z) :
  In id userIds ->
  PermissionUtils.areFriends db owner id = true ->
  In id (map (PermissionModel.friend_id owner)
          (filter (fun f =>
             (((f_requester_id f =? owner) && includes userIds (f_addressee_id f))
              || ((f_addressee_id f =? owner) && includes userIds (f_requester_id f)))
             && String.eqb (f_status f) "accepted")
             (friendships db))).
Proof.
  intros Hin H. apply areFriends_iff in H. destruct H as (f & Hf & Hb & Hs).
  apply in_map_iff. exists f. apply between_iff in Hb.
  assert (Hinc : includes userIds id = true) by now apply includes_In.
  unfold PermissionModel.friend_id. split.
  - destruct Hb as [[Hr Ha] | [Hr Ha]].
    + now rewrite Hr, Z.eqb_refl.
    + destruct (f_requester_id f =? owner) eqn:E; [|exact Hr].
      apply Z.eqb_eq in E. congruence.
  - apply filter_In. split; [exact Hf|].
    rewrite Hs, String.eqb_refl, andb_true_r.
    destruct Hb as [[Hr Ha] | [Hr Ha]]; rewrite Hr, Ha, Z.eqb_refl, Hinc; simpl.
    + reflexivity.
    + apply orb_true_r.
Qed.

Lemma validated_friend_is_requested (owner : Z) (userIds : list Z) (db : DB) (id : Z) :
  In id (map (PermissionModel.friend_id owner)
          (filter (fun f =>
             (((f_requester_id f =? owner) && includes userIds (f_addressee_id f))
              || ((f_addressee_id f =? owner) && includes userIds (f_requester_id f)))
             && String.eqb (f_status f) "accepted")
             (friendships db))) ->
  In id userIds.
Proof.
  intro H. apply in_map_iff in H. destruct H as (f & Hid & Hf).
  apply filter_In in Hf. destruct Hf as [_ Hw].
  apply andb_true_iff in Hw. destruct Hw as [Hw _].
  unfold PermissionModel.friend_id in Hid.
  apply orb_true_iff in Hw.
  destruct Hw as [Hw | Hw]; apply andb_true_iff in Hw; destruct Hw as [Ho Hi];
    apply Z.eqb_eq in Ho; apply includes_In in Hi.
  - rewrite Ho, Z.eqb_refl in Hid. now subst id.
  - destruct (f_requester_id f =? owner) eqn:E.
    + apply Z.eqb_eq in E. subst id. congruence.
    + now subst id.
Qed.

Lemma validIds_are_requested_friends (db : DB) (owner : Z) (userIds : list Z) (id : Z) :
  In id (PermissionModel.validIds (PermissionModel.validateFriendships db owner userIds)) ->
  In id userIds /\ PermissionUtils.areFriends db owner id = true.
Proof.
  unfold PermissionModel.validateFriendships.
  destruct (Z.of_nat (List.length userIds) =? 0); simpl; [intros []|].
  intro H. split.
  - now apply validated_friend_is_requested in H.
  - now apply validated_friend_is_friend in H.
Qed.

Lemma validateFriendships_spec :
  forall (db : DB) (currentUserId : Z) (userIds : list Z),
    let validation := PermissionModel.validateFriendships db currentUserId userIds in
    (PermissionModel.valid validation = true
     <-> forall id, In id userIds ->
           user_exists db id = true
           /\ PermissionUtils.areFriends db currentUserId id = true)
    /\ (forall id, In id (PermissionModel.validIds validation) ->
          In id userIds /\ PermissionUtils.areFriends db currentUserId id = true)
    /\ (PermissionModel.valid validation = true ->
        forall id, In id userIds -> In id (PermissionModel.validIds validation)).
Proof.
  intros db owner userIds validation.
  assert (Hiff : PermissionModel.valid validation = true
                 <-> forall id, In id userIds ->
                       user_exists db id = true
                       /\ PermissionUtils.areFriends db owner id = true).
  { split.
    - intros Hv id Hin.
      destruct (user_exists db id) eqn:Eu.
      + destruct (PermissionUtils.areFriends db owner id) eqn:Ef; [auto|].
        destruct (validateFriendships_rejects db owner userIds id Hin (or_intror Ef))
          as [Hfalse _].
        unfold validation in Hv. congruence.
      + destruct (validateFriendships_rejects db owner userIds id Hin (or_introl Eu))
          as [Hfalse _].
        unfold validation in Hv. congruence.
    - intro Hall. unfold validation, PermissionModel.validateFriendships.
      destruct (Z.of_nat (List.length userIds) =? 0); [reflexivity|]. simpl.
      apply andb_true_iff. split; apply length_zero_nil; apply filter_none.
      + intros id Hin. apply negb_false_iff. apply includes_In.
        destruct (Hall id Hin) as [Hex _]. apply user_exists_iff in Hex.
        destruct Hex as (u & Hu & Hid). apply in_map_iff. exists u.
        split; [exact Hid|]. apply filter_In. split; [exact Hu|].
        apply includes_In. now rewrite Hid.
      + intros id Hin. apply negb_false_iff. apply includes_In.
        apply in_map_iff in Hin. destruct Hin as (u & Hid & Hu).
        apply filter_In in Hu. destruct Hu as [_ Hu]. apply includes_In in Hu.
        rewrite Hid in Hu. apply friend_is_validated; [exact Hu|].
        now apply Hall. }
  split; [exact Hiff|]. split.
  - intros id. apply validIds_are_requested_friends.
  - intros Hv id Hin.
    destruct (proj1 Hiff Hv id Hin) as [_ Hf].
    unfold validation, PermissionModel.validateFriendships.
    rewrite (proj1 (nonempty_length _ _ Hin)). simpl.
    now apply friend_is_validated.
Qed.


Lemma service_deletePermissionGroup_throws (db : DB) (g u : Z) :
  PermissionService.deletePermissionGroup g u db
  = (Throw not_a_function, snd (PermissionModel.deletePermissionGroup g u db)).
Proof.
  unfold PermissionService.deletePermissionGroup, try_catch, bind,
    PermissionModel.deletePermissionGroup.
  destruct (hd_error _); reflexivity.
Qed.

(** The group that the default permissions name is looked up, and found
    missing, when the type is [custom] and the id is given and not 0. *)
Lemma service_updateUserDefaultPermissions_throws (db : DB) (u : Z)
      (pd : PermissionModel.PermissionData) :
  PermissionService.updateUserDefaultPermissions u pd db
  = (Throw not_a_function,
     match PermissionModel.pd_customGroupId pd with
     | Some customGroupId =>
         if String.eqb (PermissionModel.pd_permissionType pd) "custom"
            && negb (customGroupId =? 0)
         then match PermissionModel.getPermissionGroupById db customGroupId u with
              | None => db
              | Some _ => snd (PermissionModel.updateUserDefaultPermissions u pd db)
              end
         else snd (PermissionModel.updateUserDefaultPermissions u pd db)
     | None => snd (PermissionModel.updateUserDefaultPermissions u pd db)
     end).
Proof.
  unfold PermissionService.updateUserDefaultPermissions, try_catch, bind, query.
  destruct (PermissionModel.pd_customGroupId pd) as [customGroupId|] eqn:Eg; simpl.
  - destruct (String.eqb (PermissionModel.pd_permissionType pd) "custom"); simpl.
    + destruct (negb (customGroupId =? 0)); simpl.
      * destruct (PermissionModel.getPermissionGroupById db customGroupId u);
          [|reflexivity].
        simpl.
        destruct (PermissionModel.updateUserDefaultPermissions u pd db)
          as [[[permissions|]|message] db']; reflexivity.
      * destruct (PermissionModel.updateUserDefaultPermissions u pd db)
          as [[[permissions|]|message] db']; reflexivity.
    + destruct (PermissionModel.updateUserDefaultPermissions u pd db)
        as [[[permissions|]|message] db']; reflexivity.
  - rewrite andb_false_r. simpl.
    destruct (PermissionModel.updateUserDefaultPermissions u pd db)
      as [[[permissions|]|message] db']; reflexivity.
Qed.

Lemma no_group_row_absent (db : DB) (g : Z) :
  no_group_row db g = true <-> group_absent db g.
Proof.
  unfold no_group_row, group_absent. rewrite negb_true_iff. split.
  - intros H r Hin Hid.
    assert (E : existsb (fun r => pg_id r =? g) (permission_groups db) = true)
      by (apply existsb_exists; exists r; split; [exact Hin | now apply Z.eqb_eq]).
    congruence.
  - intro H. destruct (existsb _ _) eqn:E; [|reflexivity].
    apply existsb_exists in E. destruct E as (r & Hin & Hid).
    apply Z.eqb_eq in Hid. now destruct (H r Hin).
Qed.

Lemma map_if_nonempty {A B : Type} (f : A -> B) (l : list A) :
  (if 0 <? Z.of_nat (List.length l) then map f l else []) = map f l.
Proof.
  destruct l as [|x l]; [reflexivity|].
  now rewrite (proj2 (nonempty_length (x :: l) x (or_introl eq_refl))).
Qed.





(** X24. What [validateFriendships] accepts.  The list is valid exactly
    when every id on it is the id of a user and of a friend of the
    caller (the empty list is valid); and the ids it hands back as
    [validIds] are always ids of the list that are friends of the
    caller, all of them when the list is valid. *)
Theorem validateFriendships_characterised :
  forall (db : DB) (currentUserId : Z) (userIds : list Z),
    let validation := PermissionModel.validateFriendships db currentUserId userIds in
    (PermissionModel.valid validation = true
     <-> forall id, In id userIds ->
           user_exists db id = true
           /\ PermissionUtils.areFriends db currentUserId id = true)
    /\ (forall id, In id (PermissionModel.validIds validation) ->
          In id userIds /\ PermissionUtils.areFriends db currentUserId id = true)
    /\ (PermissionModel.valid validation = true ->
        forall id, In id userIds -> In id (PermissionModel.validIds validation)).
Proof. exact validateFriendships_spec. Qed.

Lemma service_createPermissionGroup_throws (db : DB) (now u : Z)
      (groupData : PermissionModel.GroupData) :
  PermissionService.createPermissionGroup now u groupData db
  = (Throw not_a_function,
     if 0 <? Z.of_nat (List.length (requested groupData)) then
       if PermissionModel.valid
            (PermissionModel.validateFriendships db u (requested groupData))
       then snd (PermissionModel.createPermissionGroup now u
                   (PermissionModel.with_userIds
                      (PermissionModel.validIds
                         (PermissionModel.validateFriendships db u (requested groupData)))
                      groupData) db)
       else db
     else snd (PermissionModel.createPermissionGroup now u groupData db)).
Proof.
  unfold PermissionService.createPermissionGroup, try_catch, bind, query, requested.
  destruct (PermissionModel.gd_userIds groupData) as [userIds|]; [|reflexivity].
  destruct (0 <? Z.of_nat (List.length userIds)); [|reflexivity].
  destruct (PermissionModel.valid _); reflexivity.
Qed.

(** X25. What creating a group writes.  [createPermissionGroup] never
    returns a response: it ends in the TypeError of the undefined
    response helper.  When the member list is not valid the store is
    left as it is.  In every case the store is either as before, or one
    group has been appended, with the next id of the sequence, the
    caller as owner, the name given, and active, together with member
    rows of this group only, each of a friend of the caller, whose user
    ids are exactly the ids asked for. *)
Theorem created_group_has_the_requested_friends :
  forall (db : DB) (now u : Z) (groupData : PermissionModel.GroupData),
    let db' := snd (PermissionService.createPermissionGroup now u groupData db) in
    fst (PermissionService.createPermissionGroup now u groupData db) = Throw not_a_function
    /\ (PermissionModel.valid
          (PermissionModel.validateFriendships db u (requested groupData)) = false ->
        db' = db)
    /\ (db' = db
        \/ exists group added,
             pg_id group = permission_groups_seq db
             /\ pg_owner_id group = u
             /\ pg_name group = PermissionModel.gd_name groupData
             /\ pg_is_active group = true
             /\ permission_groups db' = permission_groups db ++ [group]
             /\ permission_group_members db' = permission_group_members db ++ added
             /\ (forall m, In m added ->
                   pgm_group_id m = pg_id group
                   /\ PermissionUtils.areFriends db u (pgm_user_id m) = true)
             /\ (forall id, In id (map pgm_user_id added) <-> In id (requested groupData))).
Proof.
  intros db now u groupData db'. unfold db'.
  rewrite service_createPermissionGroup_throws. simpl.
  split; [reflexivity|].
  destruct (0 <? Z.of_nat (List.length (requested groupData))) eqn:Elen.
  - destruct (PermissionModel.valid _) eqn:Ev.
    + split; [discriminate|]. right.
      unfold PermissionModel.createPermissionGroup. simpl. rewrite map_if_nonempty.
      destruct (validateFriendships_spec db u (requested groupData)) as (_ & Hsub & Hall).
      eexists _, _. repeat split; try reflexivity.
      * apply in_map_iff in H. destruct H as (id & <- & _). reflexivity.
      * apply in_map_iff in H. destruct H as (id & <- & Hid). simpl.
        now apply Hsub.
      * intro H. rewrite map_map in H. simpl in H. rewrite map_id in H.
        now apply Hsub.
      * intro H. rewrite map_map. simpl. rewrite map_id. now apply Hall.
    + split; [reflexivity | now left].
  - assert (Hreq : requested groupData = [])
      by (destruct (requested groupData);
          [reflexivity | simpl in Elen; apply Z.ltb_ge in Elen; lia]).
    split.
    + rewrite Hreq. discriminate.
    + right.
      assert (Hmembers :
                match PermissionModel.gd_userIds groupData with
                | Some userIds =>
                    if 0 <? Z.of_nat (List.length userIds)
                    then map (fun userId =>
                                {| pgm_group_id := permission_groups_seq db;
                                   pgm_user_id := userId; pgm_added_at := now |}) userIds
                    else []
                | None => []
                end = []).
      { unfold requested in Hreq.
        destruct (PermissionModel.gd_userIds groupData); [|reflexivity].
        subst. reflexivity. }
      unfold PermissionModel.createPermissionGroup. simpl. rewrite Hmembers, Hreq.
      exists {| pg_id := permission_groups_seq db; pg_owner_id := u;
                pg_name := PermissionModel.gd_name groupData;
                pg_description := PermissionModel.gd_description groupData;
                pg_is_active := true |}, [].
      repeat split; try reflexivity; try (intros []); try (now intros []);
        try contradiction.
Qed.

(** With the non-friend 3 on the list nothing is written. *)
Lemma created_group_has_the_requested_friends_witness :
  snd (PermissionService.createPermissionGroup 100 1 (family_group [2; 3]) db_three_users)
  = db_three_users.
Proof.
  exact (proj1 (proj2 (created_group_has_the_requested_friends db_three_users 100 1
                         (family_group [2; 3]))) eq_refl).
Defined.

Lemma filter_after_deactivate (g u g' u' : Z) (rows : list PermissionGroup) :
  filter (fun r => (pg_id r =? g') && (pg_owner_id r =? u') && Bool.eqb (pg_is_active r) true)
    (map (fun r =>
            if (pg_id r =? g) && (pg_owner_id r =? u) && Bool.eqb (pg_is_active r) true
            then {| pg_id := pg_id r; pg_owner_id := pg_owner_id r; pg_name := pg_name r;
                    pg_description := pg_description r; pg_is_active := false |}
            else r)
         rows)
  = if (g' =? g) && (u' =? u) then []
    else filter (fun r => (pg_id r =? g') && (pg_owner_id r =? u')
                          && Bool.eqb (pg_is_active r) true) rows.
Proof.
  induction rows as [|r rows IH]; simpl.
  - now destruct ((g' =? g) && (u' =? u)).
  - rewrite IH. clear IH.
    destruct (pg_id r =? g) eqn:Eg, (pg_owner_id r =? u) eqn:Eu,
             (pg_is_active r) eqn:Ea; simpl; rewrite ?Ea; simpl;
      try rewrite andb_false_r;
      try (apply Z.eqb_eq in Eg; rewrite Eg);
      try (apply Z.eqb_eq in Eu; rewrite Eu);
      rewrite 1?(Z.eqb_sym g g'), 1?(Z.eqb_sym u u');
      destruct (g' =? g) eqn:Eg', (u' =? u) eqn:Eu'; simpl;
      try reflexivity;
      try (apply Z.eqb_eq in Eg'; subst g'; rewrite Eg);
      try (apply Z.eqb_eq in Eu'; subst u'; rewrite Eu);
      simpl; rewrite ?andb_false_r; reflexivity.
Qed.

(** X26. Deleting a group is a soft delete.  [deletePermissionGroup]
    never returns a response (it ends in the TypeError of the undefined
    response helper), but its UPDATE has run: afterwards the lookup of
    the model no longer finds the group for the caller and a second
    delete changes nothing; the group rows are all still there, the
    member rows are untouched, and every other lookup, of another group
    or by another user, gives what it gave before. *)
Theorem deleted_group_is_gone_members_stay :
  forall (db : DB) (g u : Z),
    let db' := snd (PermissionService.deletePermissionGroup g u db) in
    fst (PermissionService.deletePermissionGroup g u db) = Throw not_a_function
    /\ PermissionModel.getPermissionGroupById db' g u = None
    /\ snd (PermissionService.deletePermissionGroup g u db') = db'
    /\ map pg_id (permission_groups db') = map pg_id (permission_groups db)
    /\ permission_group_members db' = permission_group_members db
    /\ (forall g' u', g' <> g \/ u' <> u ->
          PermissionModel.getPermissionGroupById db' g' u'
          = PermissionModel.getPermissionGroupById db g' u').
Proof.
  intros db g u db'.
  assert (Hdb' : db' = snd (PermissionModel.deletePermissionGroup g u db))
    by (unfold db'; now rewrite service_deletePermissionGroup_throws).
  assert (Hgone : filter (fun r => (pg_id r =? g) && (pg_owner_id r =? u)
                                   && Bool.eqb (pg_is_active r) true)
                         (permission_groups db') = []).
  { rewrite Hdb'. unfold PermissionModel.deletePermissionGroup. simpl.
    rewrite filter_after_deactivate, !Z.eqb_refl. reflexivity. }
  repeat apply conj.
  - now rewrite service_deletePermissionGroup_throws.
  - unfold PermissionModel.getPermissionGroupById. now rewrite Hgone.
  - rewrite service_deletePermissionGroup_throws.
    unfold PermissionModel.deletePermissionGroup. simpl.
    rewrite map_unchanged by exact Hgone. now destruct db'.
  - rewrite Hdb'. unfold PermissionModel.deletePermissionGroup. simpl.
    rewrite map_map. apply map_ext. intro r. now destruct (_ && _).
  - now rewrite Hdb'.
  - intros g' u' Hne. rewrite Hdb'.
    unfold PermissionModel.getPermissionGroupById, PermissionModel.deletePermissionGroup.
    simpl. rewrite filter_after_deactivate.
    destruct (g' =? g) eqn:Eg; [|reflexivity].
    destruct (u' =? u) eqn:Eu; [|reflexivity].
    apply Z.eqb_eq in Eg, Eu. destruct Hne; contradiction.
Qed.

Lemma group_lookup_none (db : DB) (g u : Z) :
  PermissionModel.getPermissionGroupById db g u = None
  <-> filter (PermissionModel.owned_active g u) (permission_groups db) = [].
Proof.
  unfold PermissionModel.getPermissionGroupById, PermissionModel.owned_active.
  destruct (filter _ (permission_groups db)); split; intro H;
    try reflexivity; discriminate H.
Qed.

(** X27. Anyone can empty any group.  An update that gives the empty
    member list and nothing else deletes every member row of the group
    id, for every caller and every id: ownership is not checked on this
    path, and the call then ends in the TypeError of the undefined
    response helper.  An update that gives a name or a description, by
    a caller who owns no active group with the id, fails before it
    writes: the store is left as it is. *)
Theorem update_empties_any_group :
  forall (db : DB) (now g u : Z),
    PermissionService.updatePermissionGroup now g u (members_only []) db
    = (Throw not_a_function, members_replaced now g [] db)
    /\ (PermissionModel.getPermissionGroupById db g u = None ->
        forall updateData,
          PermissionModel.ud_name updateData <> None
          \/ PermissionModel.ud_description updateData <> None ->
          PermissionService.updatePermissionGroup now g u updateData db
          = (Throw not_a_function, db)).
Proof.
  intros db now g u. split.
  - unfold PermissionService.updatePermissionGroup, try_catch, bind, query,
      PermissionModel.updatePermissionGroup, members_only, members_replaced.
    simpl.
    destruct (PermissionModel.getPermissionGroupById _ g u); reflexivity.
  - intros Hnone updateData Hgiven.
    assert (Hthrow : forall data,
              PermissionModel.ud_name data = PermissionModel.ud_name updateData ->
              PermissionModel.ud_description data = PermissionModel.ud_description updateData ->
              PermissionModel.updatePermissionGroup now g u data db
              = (Throw "Permission group not found", db)).
    { intros data En Ed. unfold PermissionModel.updatePermissionGroup.
      rewrite En, Ed. apply group_lookup_none in Hnone. rewrite Hnone. simpl.
      destruct (PermissionModel.ud_name updateData), (PermissionModel.ud_description updateData);
        try reflexivity.
      destruct Hgiven as [H | H]; now destruct H. }
    unfold PermissionService.updatePermissionGroup, try_catch, bind, query.
    destruct (PermissionModel.ud_userIds updateData) as [userIds|].
    + destruct (0 <? Z.of_nat (List.length userIds)).
      * destruct (negb (PermissionModel.valid _)); [reflexivity|].
        simpl. now rewrite Hthrow.
      * simpl. now rewrite Hthrow.
    + simpl. now rewrite Hthrow.
Qed.

(** User 2 renames group 10, which is user 1's: nothing changes. *)
Lemma update_empties_any_group_witness :
  snd (PermissionService.updatePermissionGroup 100 10 2
         {| PermissionModel.ud_name := Some "mine"%string;
            PermissionModel.ud_description := None;
            PermissionModel.ud_userIds := None |} db_group_10)
  = db_group_10.
Proof.
  rewrite (proj2 (update_empties_any_group db_group_10 100 10 2) eq_refl
             {| PermissionModel.ud_name := Some "mine"%string;
                PermissionModel.ud_description := None;
                PermissionModel.ud_userIds := None |}
             ltac:(left; discriminate)).
  reflexivity.
Defined.

Lemma isMember_iff (db : DB) (g id : Z) :
  Design.isMember db g id = true
  <-> exists m, In m (permission_group_members db)
                /\ pgm_group_id m = g /\ pgm_user_id m = id.
Proof.
  unfold Design.isMember. rewrite existsb_exists. split.
  - intros (m & Hin & H). apply andb_true_iff in H. destruct H as [Hg Hu].
    apply Z.eqb_eq in Hg, Hu. eauto.
  - intros (m & Hin & Hg & Hu). exists m. split; [exact Hin|].
    now rewrite Hg, Hu, !Z.eqb_refl.
Qed.


Lemma not_owned_length (db : DB) (g u : Z) :
  (Z.of_nat (List.length (filter (PermissionModel.owned_active g u)
                                 (permission_groups db))) =? 0) = true
  <-> PermissionModel.getPermissionGroupById db g u = None.
Proof. now rewrite length_zero_nil, group_lookup_none. Qed.


Lemma with_groups_same (db : DB) :
  with_groups (permission_groups db) (permission_groups_seq db)
    (permission_group_members db) db = db.
Proof. now destruct db. Qed.





(** X29. What removing users from a group writes.
    [removeUsersFromGroup] never returns a response: it ends in the
    TypeError of the undefined response helper.  The store is left as it
    is when the caller owns no active group with the id, and when the
    list is empty.  Otherwise the DELETE has run: the member rows of
    this group whose user is on the list are gone, every other row is
    kept, and none of the listed ids is a member of the group.  The ids
    are not validated: they need not be friends of the caller, nor
    users. *)
Theorem removeUsersFromGroup_removes_the_listed_members :
  forall (db : DB) (g u : Z) (userIds : list Z),
    let db' := snd (PermissionService.removeUsersFromGroup g u userIds db) in
    fst (PermissionService.removeUsersFromGroup g u userIds db) = Throw not_a_function
    /\ permission_groups db' = permission_groups db
    /\ (PermissionModel.getPermissionGroupById db g u = None -> db' = db)
    /\ (userIds = [] -> db' = db)
    /\ (PermissionModel.getPermissionGroupById db g u <> None ->
        userIds <> [] ->
        (forall m, In m (permission_group_members db')
                   <-> In m (permission_group_members db)
                       /\ ~ (pgm_group_id m = g /\ In (pgm_user_id m) userIds))
        /\ (forall id, In id userIds -> Design.isMember db' g id = false)).
Proof.
  intros db g u userIds db'.
  assert (Hservice : PermissionService.removeUsersFromGroup g u userIds db
                     = (Throw not_a_function,
                        snd (PermissionModel.removeUsersFromGroup g u userIds db))).
  { unfold PermissionService.removeUsersFromGroup, try_catch, bind,
      PermissionModel.removeUsersFromGroup.
    destruct (_ =? 0); [reflexivity|]. destruct userIds; reflexivity. }
  unfold db'. rewrite Hservice. simpl. clear db' Hservice.
  unfold PermissionModel.removeUsersFromGroup.
  destruct (Z.of_nat (List.length (filter (PermissionModel.owned_active g u)
                                          (permission_groups db))) =? 0) eqn:Eown.
  - apply not_owned_length in Eown. simpl.
    repeat apply conj; try reflexivity; try (intros; reflexivity).
    intros Hfound. contradiction.
  - assert (Hfound : PermissionModel.getPermissionGroupById db g u <> None).
    { intro Hnone. apply not_owned_length in Hnone. congruence. }
    destruct userIds as [|id0 rest] eqn:Eids.
    + simpl. repeat apply conj; try reflexivity; try (intros; reflexivity).
      intros _ Hne. now destruct Hne.
    + cbv beta iota zeta. rewrite <- Eids.
      cbn [snd permission_groups permission_group_members with_groups].
      assert (Hhit : forall m,
                (pgm_group_id m =? g) && includes userIds (pgm_user_id m) = true
                <-> pgm_group_id m = g /\ In (pgm_user_id m) userIds).
      { intro m. now rewrite andb_true_iff, Z.eqb_eq, includes_In. }
      repeat apply conj.
      * reflexivity.
      * reflexivity.
      * intro Hnone. contradiction.
      * intro Hnil. rewrite Eids in Hnil. discriminate Hnil.
      * intros _ _. split.
        -- intros m. rewrite filter_In, negb_true_iff, <- Hhit.
           now destruct (_ && _).
        -- intros id Hid.
           destruct (Design.isMember _ g id) eqn:Em; [|reflexivity].
           apply isMember_iff in Em. destruct Em as (m & Hin & Hg & Hu). simpl in Hin.
           apply filter_In in Hin. destruct Hin as [_ Hn]. apply negb_true_iff in Hn.
           rewrite Hg, Hu, Z.eqb_refl, (proj2 (includes_In _ _) Hid) in Hn.
           discriminate Hn.
Qed.

(** User 1 takes member 2 out of group 10. *)
Lemma removeUsersFromGroup_removes_the_listed_members_witness :
  Design.isMember (snd (PermissionService.removeUsersFromGroup 10 1 [2] db_group_10))
    10 2 = false.
Proof.
  refine (proj2 (proj2 (proj2 (proj2 (proj2
            (removeUsersFromGroup_removes_the_listed_members db_group_10 10 1 [2]))))
            _ _) 2 (or_introl eq_refl)); discriminate.
Defined.

(** X30. What setting the default permissions writes.
    [updateUserDefaultPermissions] never returns a response: it ends in
    the TypeError of the undefined response helper.  The store is either
    as before, or the rows of the caller in [users] carry the two values
    given and nothing else has changed.  It is as before when the type
    is [custom] with a group id (not 0) and the caller owns no active
    group with that id. *)
Theorem default_permissions_are_stored :
  forall (db : DB) (u : Z) (permissionData : PermissionModel.PermissionData),
    let db' := snd (PermissionService.updateUserDefaultPermissions u permissionData db) in
    fst (PermissionService.updateUserDefaultPermissions u permissionData db)
    = Throw not_a_function
    /\ (db' = db
        \/ db' = with_users
                   (map (fun x => if u_id x =? u then with_defaults permissionData x else x)
                        (users db))
                   db)
    /\ (forall groupId,
          PermissionModel.pd_permissionType permissionData = "custom"%string ->
          PermissionModel.pd_customGroupId permissionData = Some groupId ->
          groupId <> 0 ->
          PermissionModel.getPermissionGroupById db groupId u = None ->
          db' = db).
Proof.
  intros db u pd db'. unfold db'.
  rewrite service_updateUserDefaultPermissions_throws. simpl.
  assert (Hmodel : snd (PermissionModel.updateUserDefaultPermissions u pd db) = db
                   \/ snd (PermissionModel.updateUserDefaultPermissions u pd db)
                      = with_users
                          (map (fun x => if u_id x =? u then with_defaults pd x else x)
                               (users db))
                          db).
  { unfold PermissionModel.updateUserDefaultPermissions.
    destruct (_ && _); [now left | now right]. }
  repeat apply conj.
  - reflexivity.
  - destruct (PermissionModel.pd_customGroupId pd) as [customGroupId|]; [|exact Hmodel].
    destruct (_ && _); [|exact Hmodel].
    destruct (PermissionModel.getPermissionGroupById db customGroupId u);
      [exact Hmodel | now left].
  - intros groupId Htype Hgroup Hnz Hnone.
    rewrite Hgroup, Htype. simpl.
    rewrite (proj2 (Z.eqb_neq _ _) Hnz), Hnone. reflexivity.
Qed.

(** User 2 names group 10, which is user 1's, as the default. *)
Lemma default_permissions_are_stored_witness :
  snd (PermissionService.updateUserDefaultPermissions 2
         {| PermissionModel.pd_permissionType := "custom";
            PermissionModel.pd_customGroupId := Some 10 |} db_group_10)
  = db_group_10.
Proof.
  refine (proj2 (proj2 (default_permissions_are_stored db_group_10 2
            {| PermissionModel.pd_permissionType := "custom";
               PermissionModel.pd_customGroupId := Some 10 |}))
            10 eq_refl eq_refl _ eq_refl).
  lia.
Defined.
